(** * Storj Monitor: metric extraction, satellite reconciliation and daily upserts

    A shallow embedding of the collector of the storj-monitor repository:
    - [storj_monitor/utils.py]: [safe_int], [safe_float],
      [timestamp_to_datetime], [calculate_uptime_seconds];
    - [collector/satellite_extractor.py]: [KNOWN_SATELLITES],
      [extract_satellite_status], [_calculate_vetting_progress],
      [_update_satellite_scores], [extract_daily_satellite_metrics];
    - [collector/service.py]: [extract_health_metrics],
      [extract_daily_bandwidth_metrics], [extract_daily_storage_metrics],
      [store_metrics] and [collect_all_metrics].

    Upstream payloads are dynamically typed JSON, so they are modelled as Python
    values ([pyval]); Python exceptions are an explicit error type threaded
    through a small error monad; Python floats are IEEE 754 binary64 numbers
    ([spec_float] with [prec = 53], [emax = 1024]). *)

From Stdlib Require Import ZArith List String Ascii Bool Lia.
From Stdlib Require Import Floats.SpecFloat.
Import ListNotations.

Local Open Scope string_scope.
Local Open Scope list_scope.
Local Open Scope Z_scope.

(** ** Exceptions and the error monad *)

(** The exception classes the modelled code can raise. None is a subclass of
    another one of the list ([OverflowError] derives from [ArithmeticError],
    not from [ValueError]). *)
Inductive exn : Type :=
| ValueError
| TypeError
| AttributeError
| OverflowError
| ZeroDivisionError.

Inductive result (A : Type) : Type :=
| Ok (a : A)
| Raise (e : exn).

Arguments Ok {A} a.
Arguments Raise {A} e.

Definition bind {A B : Type} (c : result A) (k : A -> result B) : result B :=
  match c with
  | Ok a => k a
  | Raise e => Raise e
  end.

Notation "x <- c1 ;; c2" := (bind c1 (fun x => c2))
  (at level 61, c1 at next level, right associativity).

(** [try: body except (classes): handler]. *)
Definition try_except {A : Type} (body : result A) (classes : exn -> bool)
    (handler : result A) : result A :=
  match body with
  | Ok a => Ok a
  | Raise e => if classes e then handler else Raise e
  end.

(** [except ValueError] *)
Definition except_ValueError (e : exn) : bool :=
  match e with
  | ValueError => true
  | _ => false
  end.

(** [except (ValueError, TypeError)] *)
Definition except_ValueError_TypeError (e : exn) : bool :=
  match e with
  | ValueError | TypeError => true
  | _ => false
  end.

(** ** Python floats *)

Definition float : Type := spec_float.

Definition prec : Z := 53.
Definition emax : Z := 1024.

(** The literals [0.0] and [1.0]. *)
Definition f_zero : float := S754_zero false.
Definition f_one : float := S754_finite false 4503599627370496 (-52).

(** [x < y], [x > y] and [x == y] on floats. *)
Definition f_ltb (x y : float) : bool := SFltb x y.
Definition f_gtb (x y : float) : bool := SFltb y x.
Definition f_eqb (x y : float) : bool := SFeqb x y.

(** The builtin [min(a, b)]: the first argument is kept unless the second one
    compares strictly smaller. *)
Definition py_min (a b : float) : float := if f_ltb b a then b else a.

(** The builtin [max(a, b)]. *)
Definition py_max (a b : float) : float := if f_gtb b a then b else a.

(** An integer as an exact, not yet rounded, binary number. *)
Definition exact_of_Z (n : Z) : float :=
  match n with
  | Z0 => S754_zero false
  | Zpos p => S754_finite false p 0
  | Zneg p => S754_finite true p 0
  end.

Definition overflow_check (f : float) : result float :=
  match f with
  | S754_infinity _ => Raise OverflowError
  | _ => Ok f
  end.

(** [float(n)] for an int [n]: round to nearest even, [OverflowError] when the
    result does not fit. *)
Definition float_of_Z (n : Z) : result float :=
  overflow_check (binary_normalize prec emax n 0 false).

(** [a / b] on ints: the correctly rounded quotient. *)
Definition int_truediv (a b : Z) : result float :=
  if b =? 0 then Raise ZeroDivisionError
  else overflow_check (SFdiv prec emax (exact_of_Z a) (exact_of_Z b)).

(** [x / b] for a float [x] and an int [b]. *)
Definition float_truediv_int (x : float) (b : Z) : result float :=
  if b =? 0 then Raise ZeroDivisionError
  else fb <- float_of_Z b ;; Ok (SFdiv prec emax x fb).

(** [int(x)] for a float: truncation toward zero. *)
Definition trunc_float (x : float) : result Z :=
  match x with
  | S754_nan => Raise ValueError
  | S754_infinity _ => Raise OverflowError
  | S754_zero _ => Ok 0
  | S754_finite s m e =>
      let a := Z.shiftl (Zpos m) e in
      Ok (if s then - a else a)
  end.

(** ** Python values *)

(** What [json] decoding produces. A dict keeps its items as an association
    list, read from the front. *)
#[warnings="-register-all"]
Inductive pyval : Type :=
| PNone
| PBool (b : bool)
| PInt (n : Z)
| PFloat (f : float)
| PStr (s : string)
| PList (l : list pyval)
| PDict (d : list (string * pyval)).

Definition dict : Type := list (string * pyval).

(** [d.get(key, default)] *)
Fixpoint dict_get (d : dict) (key : string) (default : pyval) : pyval :=
  match d with
  | [] => default
  | (k, v) :: rest => if String.eqb k key then v else dict_get rest key default
  end.

(** [key in d] for a dict with string keys and a string [key]. *)
Fixpoint dict_has (d : dict) (key : string) : bool :=
  match d with
  | [] => false
  | (k, _) :: rest => String.eqb k key || dict_has rest key
  end.

(** Truth value of an object, as [if v:] and [not v] test it. *)
Definition truthy (v : pyval) : bool :=
  match v with
  | PNone => false
  | PBool b => b
  | PInt n => negb (n =? 0)
  | PFloat (S754_zero _) => false
  | PFloat _ => true
  | PStr s => negb (String.eqb s "")
  | PList l => match l with [] => false | _ => true end
  | PDict d => match d with [] => false | _ => true end
  end.

(** [v is None] *)
Definition is_none (v : pyval) : bool :=
  match v with
  | PNone => true
  | _ => false
  end.

(** Lists and dicts have no hash; looking one up in a dict raises [TypeError]. *)
Definition hashable (v : pyval) : bool :=
  match v with
  | PList _ | PDict _ => false
  | _ => true
  end.

(** [v.get(key, default)] on an arbitrary object: only a dict has the method. *)
Definition obj_get (v : pyval) (key : string) (default : pyval) : result pyval :=
  match v with
  | PDict d => Ok (dict_get d key default)
  | _ => Raise AttributeError
  end.

(** ** Dates and times *)

(** A [datetime]: the wall-clock reading in microseconds since
    0001-01-01T00:00:00, and the UTC offset in microseconds of an aware value
    ([None] for a naive one). *)
Record datetime : Type := mk_datetime {
  wall : Z;
  utcoffset : option Z
}.

Definition us_per_day : Z := 86400000000.

(** [dt.date()], as the number of days since 0001-01-01. *)
Definition date_of (dt : datetime) : Z := wall dt / us_per_day.

(** [dt.replace(tzinfo=timezone.utc)] *)
Definition replace_tzinfo_utc (dt : datetime) : datetime :=
  mk_datetime (wall dt) (Some 0).

(** [a - b], a [timedelta] counted in microseconds; mixing a naive and an
    aware operand raises [TypeError]. *)
Definition datetime_sub (a b : datetime) : result Z :=
  match utcoffset a, utcoffset b with
  | Some oa, Some ob => Ok ((wall a - oa) - (wall b - ob))
  | None, None => Ok (wall a - wall b)
  | _, _ => Raise TypeError
  end.

(** [td.total_seconds()] *)
Definition total_seconds (td : Z) : result float := int_truediv td 1000000.

(** ** The parsers of the Python runtime

    [int(str)], [float(str)] and [datetime.fromisoformat] are builtins whose
    accepted syntax depends on the interpreter version. The development is
    parametric in them; [None] stands for [ValueError]. *)
Record builtins : Type := mk_builtins {
  int_of_str : string -> option Z;
  float_of_str : string -> option float;
  fromisoformat : string -> option datetime
}.

(** [s.replace(old, new)] for a non-empty [old]: occurrences are replaced from
    left to right without overlap. [skip] counts the characters of a match
    still to be dropped. *)
Fixpoint replace_from (old new : string) (skip : nat) (s : string) : string :=
  match s with
  | EmptyString => EmptyString
  | String c rest =>
      match skip with
      | S k => replace_from old new k rest
      | O =>
          if String.prefix old s
          then String.append new (replace_from old new (Nat.pred (String.length old)) rest)
          else String c (replace_from old new O rest)
      end
  end.

Definition str_replace (s old new : string) : string := replace_from old new O s.

(** ** [storj_monitor/utils.py] *)

Section Utils.

Variable B : builtins.

(** [int(value)] *)
Definition py_int (value : pyval) : result Z :=
  match value with
  | PNone => Raise TypeError
  | PBool b => Ok (if b then 1 else 0)
  | PInt n => Ok n
  | PFloat f => trunc_float f
  | PStr s =>
      match int_of_str B s with
      | Some n => Ok n
      | None => Raise ValueError
      end
  | PList _ | PDict _ => Raise TypeError
  end.

(** [float(value)] *)
Definition py_float (value : pyval) : result float :=
  match value with
  | PNone => Raise TypeError
  | PBool b => Ok (if b then f_one else f_zero)
  | PInt n => float_of_Z n
  | PFloat f => Ok f
  | PStr s =>
      match float_of_str B s with
      | Some f => Ok f
      | None => Raise ValueError
      end
  | PList _ | PDict _ => Raise TypeError
  end.

Definition safe_int (value : pyval) (default : Z) : result Z :=
  try_except (py_int value) except_ValueError_TypeError (Ok default).

Definition safe_float (value : pyval) (default : float) : result float :=
  try_except (py_float value) except_ValueError_TypeError (Ok default).

(** The argument is whatever the caller read from the payload: only a [str]
    has the [replace] method the first line calls. *)
Definition timestamp_to_datetime (timestamp_str : pyval) : result datetime :=
  match timestamp_str with
  | PStr s =>
      let s1 := str_replace s "Z" "+00:00" in
      match fromisoformat B s1 with
      | Some dt => Ok dt
      | None =>
          match fromisoformat B (str_replace s1 "+00:00" "") with
          | Some dt => Ok (replace_tzinfo_utc dt)
          | None => Raise ValueError
          end
      end
  | _ => Raise AttributeError
  end.

(** [now] is the reading of [utc_now()], an aware datetime. *)
Definition calculate_uptime_seconds (now : datetime) (started_at : pyval) : result Z :=
  try_except
    (start_time <- timestamp_to_datetime started_at ;;
     delta <- datetime_sub now start_time ;;
     seconds <- total_seconds delta ;;
     trunc_float seconds)
    except_ValueError_TypeError
    (Ok 0).

End Utils.

(** ** Payloads and records *)

(** The two documents of a node, after pydantic validation
    ([storj_monitor/models.py]): the typed fields are strings, the entries of
    the lists are dicts with arbitrary values. *)
Record StorjNodeInfo : Type := mk_node_info {
  node_id : string;
  satellites : option (list dict);
  last_pinged : string;
  version : string;
  started_at : string;
  quic_status : string
}.

Record StorjSatelliteInfo : Type := mk_satellite_info {
  storage_daily : option (list dict);
  bandwidth_daily : option (list dict);
  audits : list dict
}.

(** [x or []] on an optional list. *)
Definition or_empty {A : Type} (x : option (list A)) : list A :=
  match x with
  | Some l => l
  | None => []
  end.

(** The dict that [extract_satellite_status] builds per satellite. *)
Module SatelliteStatus.
Record t : Type := mk {
  node_name : string;
  satellite_id : string;
  satellite_name : string;
  satellite_region : string;
  timestamp : datetime;
  is_vetted : bool;
  vetting_progress : float;
  vetted_at : option datetime;
  audit_score : float;
  suspension_score : float;
  online_score : float;
  joined_at : option datetime;
  current_month_egress : Z;
  current_month_ingress : Z
}.

(** The three assignments of [_update_satellite_scores]. *)
Definition set_scores (st : t) (a s o : float) : t :=
  mk (node_name st) (satellite_id st) (satellite_name st) (satellite_region st)
     (timestamp st) (is_vetted st) (vetting_progress st) (vetted_at st)
     a s o (joined_at st) (current_month_egress st) (current_month_ingress st).
End SatelliteStatus.

(** The dict that [extract_daily_satellite_metrics] builds per satellite and
    day. *)
Module DailySatellite.
Record t : Type := mk {
  node_name : string;
  satellite_id : string;
  date : Z;
  storage_used_bytes : Z;
  storage_at_rest_bytes : Z;
  ingress_usage_bytes : Z;
  ingress_repair_bytes : Z;
  egress_usage_bytes : Z;
  egress_repair_bytes : Z;
  egress_audit_bytes : Z;
  vetting_bandwidth_requirement : Z;
  vetting_bandwidth_completed : Z
}.

(** [existing_metric['storage_used_bytes'] = storage_bytes] followed by
    [existing_metric['storage_at_rest_bytes'] = storage_bytes]. *)
Definition set_storage (m : t) (storage_bytes : Z) : t :=
  mk (node_name m) (satellite_id m) (date m) storage_bytes storage_bytes
     (ingress_usage_bytes m) (ingress_repair_bytes m) (egress_usage_bytes m)
     (egress_repair_bytes m) (egress_audit_bytes m)
     (vetting_bandwidth_requirement m) (vetting_bandwidth_completed m).
End DailySatellite.

Module DailyBandwidthMetrics.
Record t : Type := mk {
  node_name : string;
  date : Z;
  ingress_usage_bytes : Z;
  ingress_repair_bytes : Z;
  egress_usage_bytes : Z;
  egress_repair_bytes : Z;
  egress_audit_bytes : Z;
  delete_bytes : Z
}.
End DailyBandwidthMetrics.

Module DailyStorageMetrics.
Record t : Type := mk {
  node_name : string;
  date : Z;
  at_rest_total_bytes : Z;
  average_usage_bytes : Z
}.
End DailyStorageMetrics.

Module HealthMetrics.
Record t : Type := mk {
  node_name : string;
  timestamp : datetime;
  version : string;
  uptime_seconds : Z;
  last_pinged : datetime;
  quic_status : string;
  audit_score : float;
  suspension_score : float;
  online_score : float;
  satellites_count : Z
}.
End HealthMetrics.

(** The loop shape shared by the extractions: [for entry in entries:] with a
    body that either reaches its [append] or leaves through [continue]
    ([None]); an exception ends the loop and the function. *)
Fixpoint collect {A : Type} (body : dict -> result (option A)) (entries : list dict)
    (metrics : list A) : result (list A) :=
  match entries with
  | [] => Ok metrics
  | entry :: rest =>
      r <- body entry ;;
      collect body rest
        (match r with
         | Some m => metrics ++ [m]
         | None => metrics
         end)
  end.

(** ** [collector/satellite_extractor.py] *)

Definition KNOWN_SATELLITES : list (string * (string * string)) :=
  [ ("12EayRS2V1kEsWESU9QMRseFhdxYxKicsiFmxrsLZHeLUtdps3S", ("us1", "North America"));
    ("12L9ZFwhzVpuEKMUNUqkaTLGzwY9G24tbiigLiXpmZWKwmcNDDs", ("eu1", "Europe"));
    ("121RTSDpyNZVcEU84Ticf2L1ntiuUimbWgfATz21tuvgk3vzoA6", ("ap1", "Asia Pacific"));
    ("1wFTAgs9DP5RSnCqKV1eLf6N9wtk4EAtmN5DpSxcs8EjT69tGE", ("saltlake", "North America"));
    ("12EayRS2V1kEsWESU9QMRseFhdxYxKicsiFHpkmn1LT3StBp1R", ("us1_legacy", "North America")) ].

(** Lookup in a dict built by the code itself, with [str] keys. *)
Fixpoint assoc_find {A : Type} (m : list (string * A)) (key : string) : option A :=
  match m with
  | [] => None
  | (k, v) :: rest => if String.eqb k key then Some v else assoc_find rest key
  end.

(** [satellite_id in KNOWN_SATELLITES], together with the entry found. The
    test hashes its left operand: a list or a dict raises [TypeError]; any
    other object that is not a [str] equals no key. *)
Definition known_satellite (satellite_id : pyval)
    : result (option (string * (string * string))) :=
  match satellite_id with
  | PStr s =>
      Ok (match assoc_find KNOWN_SATELLITES s with
          | Some info => Some (s, info)
          | None => None
          end)
  | PList _ | PDict _ => Raise TypeError
  | _ => Ok None
  end.

Definition gb_threshold : Z := 1024 * 1024 * 1024.

Section SatelliteExtractor.

Variable B : builtins.

Definition _calculate_vetting_progress (satellite_data : dict) (is_vetted : bool)
    : result float :=
  if is_vetted then Ok f_one
  else
    vetting_progress <-
      safe_float B (dict_get satellite_data "vettingProgress" (PFloat f_zero)) f_zero ;;
    if f_gtb vetting_progress f_zero then Ok (py_min vetting_progress f_one)
    else
      current_ingress <-
        safe_int B (dict_get satellite_data "currentMonthIngress" (PInt 0)) 0 ;;
      current_egress <-
        safe_int B (dict_get satellite_data "currentMonthEgress" (PInt 0)) 0 ;;
      let total_bandwidth := current_ingress + current_egress in
      if total_bandwidth >? 0 then
        progress0 <- int_truediv total_bandwidth (gb_threshold * 100) ;;
        Ok (py_min progress0 f_one)
      else Ok f_zero.

(** [try: x = timestamp_to_datetime(v) except (ValueError, TypeError): pass],
    with [x] preset to [None]. *)
Definition parse_or_none (v : pyval) : result (option datetime) :=
  try_except
    (dt <- timestamp_to_datetime B v ;; Ok (Some dt))
    except_ValueError_TypeError
    (Ok None).

(** The body of the loop of [extract_satellite_status]; [None] is the
    [continue] of an unknown satellite. *)
Definition satellite_status_of (node_name : string) (timestamp : datetime)
    (satellite_data : dict) : result (option SatelliteStatus.t) :=
  let satellite_id := dict_get satellite_data "id" (PStr "") in
  known <- known_satellite satellite_id ;;
  match known with
  | None => Ok None
  | Some (sid, (satellite_name, satellite_region)) =>
      let vetted_timestamp := dict_get satellite_data "vettedAt" PNone in
      let is_vetted := negb (is_none vetted_timestamp) in
      vetted_at <-
        (if is_vetted then parse_or_none vetted_timestamp else Ok None) ;;
      vetting_progress <-
        (if is_vetted then Ok f_one
         else _calculate_vetting_progress satellite_data is_vetted) ;;
      let join_timestamp := dict_get satellite_data "joinedAt" PNone in
      joined_at <-
        (if truthy join_timestamp then parse_or_none join_timestamp else Ok None) ;;
      current_month_egress <-
        safe_int B (dict_get satellite_data "currentMonthEgress" (PInt 0)) 0 ;;
      current_month_ingress <-
        safe_int B (dict_get satellite_data "currentMonthIngress" (PInt 0)) 0 ;;
      Ok (Some (SatelliteStatus.mk node_name sid satellite_name satellite_region
                  timestamp is_vetted vetting_progress vetted_at
                  f_one f_one f_one
                  joined_at current_month_egress current_month_ingress))
  end.

(** The first loop of [_update_satellite_scores]. [audit_map] is read only at
    the [str] identifiers of the statuses, so it is kept as a map from [str];
    an assignment goes to the front, where lookups start. A key of another
    hashable type is stored by Python but equals no identifier; an unhashable
    one raises [TypeError]. *)
Fixpoint build_audit_map (audits : list dict) (audit_map : list (string * dict))
    : result (list (string * dict)) :=
  match audits with
  | [] => Ok audit_map
  | audit :: rest =>
      let satellite_id := dict_get audit "satelliteID" PNone in
      if truthy satellite_id then
        match satellite_id with
        | PStr s => build_audit_map rest ((s, audit) :: audit_map)
        | PList _ | PDict _ => Raise TypeError
        | _ => build_audit_map rest audit_map
        end
      else build_audit_map rest audit_map
  end.

(** The body of the second loop. *)
Definition update_status (audit_map : list (string * dict)) (satellite_status : SatelliteStatus.t)
    : result SatelliteStatus.t :=
  match assoc_find audit_map (SatelliteStatus.satellite_id satellite_status) with
  | Some audit_data =>
      a <- safe_float B (dict_get audit_data "auditScore" (PFloat f_one)) f_zero ;;
      s <- safe_float B (dict_get audit_data "suspensionScore" (PFloat f_one)) f_zero ;;
      o <- safe_float B (dict_get audit_data "onlineScore" (PFloat f_one)) f_zero ;;
      Ok (SatelliteStatus.set_scores satellite_status a s o)
  | None => Ok satellite_status
  end.

Fixpoint update_loop (audit_map : list (string * dict))
    (satellite_statuses : list SatelliteStatus.t) : result (list SatelliteStatus.t) :=
  match satellite_statuses with
  | [] => Ok []
  | satellite_status :: rest =>
      st <- update_status audit_map satellite_status ;;
      rest' <- update_loop audit_map rest ;;
      Ok (st :: rest')
  end.

(** The statuses are mutated in place; the result is the list as the caller
    sees it afterwards. *)
Definition _update_satellite_scores (satellite_statuses : list SatelliteStatus.t)
    (audits : list dict) : result (list SatelliteStatus.t) :=
  audit_map <- build_audit_map audits [] ;;
  update_loop audit_map satellite_statuses.

(** [timestamp] is the reading of [utc_now()] the function starts with. *)
Definition extract_satellite_status (node_name : string) (timestamp : datetime)
    (node_info : StorjNodeInfo) (satellite_info : StorjSatelliteInfo)
    : result (list SatelliteStatus.t) :=
  satellite_statuses <-
    (match satellites node_info with
     | Some (e :: es) => collect (satellite_status_of node_name timestamp) (e :: es) []
     | _ => Ok []
     end) ;;
  match audits satellite_info with
  | [] => Ok satellite_statuses
  | _ :: _ => _update_satellite_scores satellite_statuses (audits satellite_info)
  end.

End SatelliteExtractor.

Section DailyExtraction.

Variable B : builtins.

(** [try: metric_date = timestamp_to_datetime(interval_start).date()] with the
    [except] clause of the caller; [None] is its [continue]. *)
Definition interval_date (classes : exn -> bool) (interval_start : pyval)
    : result (option Z) :=
  try_except
    (dt <- timestamp_to_datetime B interval_start ;; Ok (Some (date_of dt)))
    classes
    (Ok None).

(** [safe_int(obj.get(key, 0))] *)
Definition get_int (obj : pyval) (key : string) : result Z :=
  v <- obj_get obj key (PInt 0) ;; safe_int B v 0.

Definition tb_requirement : Z := 1024 * 1024 * 1024 * 1024.

(** The body of the bandwidth loop of [extract_daily_satellite_metrics];
    [None] is a [continue]. *)
Definition bandwidth_metric (node_name : string) (daily_bw : dict)
    : result (option DailySatellite.t) :=
  let interval_start := dict_get daily_bw "intervalStart" (PStr "") in
  if negb (truthy interval_start) then Ok None
  else
    parsed <- interval_date except_ValueError_TypeError interval_start ;;
    match parsed with
    | None => Ok None
    | Some metric_date =>
        let satellite_id := dict_get daily_bw "satelliteId" PNone in
        if negb (truthy satellite_id) then Ok None
        else
          known <- known_satellite satellite_id ;;
          match known with
          | None => Ok None
          | Some (sid, _) =>
              let egress := dict_get daily_bw "egress" (PDict []) in
              let ingress := dict_get daily_bw "ingress" (PDict []) in
              ingress_usage <- get_int ingress "usage" ;;
              ingress_repair <- get_int ingress "repair" ;;
              egress_usage <- get_int egress "usage" ;;
              egress_repair <- get_int egress "repair" ;;
              egress_audit <- get_int egress "audit" ;;
              completed_in <- get_int ingress "usage" ;;
              completed_out <- get_int egress "usage" ;;
              Ok (Some (DailySatellite.mk node_name sid metric_date 0 0
                          ingress_usage ingress_repair
                          egress_usage egress_repair egress_audit
                          tb_requirement (completed_in + completed_out)))
          end
    end.

(** The guards of the storage loop: the identifier and the date of an entry
    that gets past them. *)
Definition storage_key (daily_storage : dict) : result (option (string * Z)) :=
  let interval_start := dict_get daily_storage "intervalStart" (PStr "") in
  if negb (truthy interval_start) then Ok None
  else
    parsed <- interval_date except_ValueError_TypeError interval_start ;;
    match parsed with
    | None => Ok None
    | Some metric_date =>
        let satellite_id := dict_get daily_storage "satelliteId" PNone in
        if negb (truthy satellite_id) then Ok None
        else
          known <- known_satellite satellite_id ;;
          match known with
          | None => Ok None
          | Some (sid, _) => Ok (Some (sid, metric_date))
          end
    end.

Definition same_key (metric : DailySatellite.t) (satellite_id : string) (metric_date : Z)
    : bool :=
  String.eqb (DailySatellite.satellite_id metric) satellite_id
  && (DailySatellite.date metric =? metric_date).

(** The search for [existing_metric] and what follows it: the first metric of
    the list with the key is updated where it stands; without one, a metric
    with zero bandwidth is appended. *)
Fixpoint merge_storage (daily_metrics : list DailySatellite.t) (node_name : string)
    (satellite_id : string) (metric_date : Z) (storage_bytes : Z)
    : list DailySatellite.t :=
  match daily_metrics with
  | [] =>
      [DailySatellite.mk node_name satellite_id metric_date
         storage_bytes storage_bytes 0 0 0 0 0 tb_requirement 0]
  | metric :: rest =>
      if same_key metric satellite_id metric_date
      then DailySatellite.set_storage metric storage_bytes :: rest
      else metric :: merge_storage rest node_name satellite_id metric_date storage_bytes
  end.

Fixpoint storage_loop (node_name : string) (entries : list dict)
    (daily_metrics : list DailySatellite.t) : result (list DailySatellite.t) :=
  match entries with
  | [] => Ok daily_metrics
  | daily_storage :: rest =>
      key <- storage_key daily_storage ;;
      match key with
      | None => storage_loop node_name rest daily_metrics
      | Some (satellite_id, metric_date) =>
          storage_bytes <-
            safe_int B (dict_get daily_storage "atRestTotalBytes" (PInt 0)) 0 ;;
          storage_loop node_name rest
            (merge_storage daily_metrics node_name satellite_id metric_date storage_bytes)
      end
  end.

Definition extract_daily_satellite_metrics (node_name : string)
    (satellite_info : StorjSatelliteInfo) : result (list DailySatellite.t) :=
  daily_metrics <-
    collect (bandwidth_metric node_name) (or_empty (bandwidth_daily satellite_info)) [] ;;
  storage_loop node_name (or_empty (storage_daily satellite_info)) daily_metrics.

(** *** [collector/service.py]: the per-node daily extractions *)

Definition daily_bandwidth_of (node_name : string) (daily_bw : dict)
    : result (option DailyBandwidthMetrics.t) :=
  let interval_start := dict_get daily_bw "intervalStart" (PStr "") in
  if negb (truthy interval_start) then Ok None
  else
    parsed <- interval_date except_ValueError interval_start ;;
    match parsed with
    | None => Ok None
    | Some metric_date =>
        let egress := dict_get daily_bw "egress" (PDict []) in
        let ingress := dict_get daily_bw "ingress" (PDict []) in
        ingress_usage <- get_int ingress "usage" ;;
        ingress_repair <- get_int ingress "repair" ;;
        egress_usage <- get_int egress "usage" ;;
        egress_repair <- get_int egress "repair" ;;
        egress_audit <- get_int egress "audit" ;;
        delete <- safe_int B (dict_get daily_bw "delete" (PInt 0)) 0 ;;
        Ok (Some (DailyBandwidthMetrics.mk node_name metric_date
                    ingress_usage ingress_repair
                    egress_usage egress_repair egress_audit delete))
    end.

Definition extract_daily_bandwidth_metrics (node_name : string)
    (satellite_info : StorjSatelliteInfo) : result (list DailyBandwidthMetrics.t) :=
  collect (daily_bandwidth_of node_name) (or_empty (bandwidth_daily satellite_info)) [].

(** [v / 24] *)
Definition div24 (v : pyval) : result float :=
  match v with
  | PBool b => int_truediv (if b then 1 else 0) 24
  | PInt n => int_truediv n 24
  | PFloat f => float_truediv_int f 24
  | PNone | PStr _ | PList _ | PDict _ => Raise TypeError
  end.

(** [daily_storage.get('atRestTotal', 0) / 24 if daily_storage.get('atRestTotal') else 0] *)
Definition average_usage_arg (daily_storage : dict) : result pyval :=
  if truthy (dict_get daily_storage "atRestTotal" PNone)
  then q <- div24 (dict_get daily_storage "atRestTotal" (PInt 0)) ;; Ok (PFloat q)
  else Ok (PInt 0).

Definition daily_storage_of (node_name : string) (daily_storage : dict)
    : result (option DailyStorageMetrics.t) :=
  let interval_start := dict_get daily_storage "intervalStart" (PStr "") in
  if negb (truthy interval_start) then Ok None
  else
    parsed <- interval_date except_ValueError interval_start ;;
    match parsed with
    | None => Ok None
    | Some metric_date =>
        at_rest <- safe_int B (dict_get daily_storage "atRestTotalBytes" (PInt 0)) 0 ;;
        arg <- average_usage_arg daily_storage ;;
        average <- safe_int B arg 0 ;;
        Ok (Some (DailyStorageMetrics.mk node_name metric_date at_rest average))
    end.

Definition extract_daily_storage_metrics (node_name : string)
    (satellite_info : StorjSatelliteInfo) : result (list DailyStorageMetrics.t) :=
  collect (daily_storage_of node_name) (or_empty (storage_daily satellite_info)) [].

End DailyExtraction.

Section Health.

Variable B : builtins.

(** [[safe_float(audit.get(key, 1.0)) for audit in audits]] *)
Fixpoint scores_of (key : string) (audits : list dict) : result (list float) :=
  match audits with
  | [] => Ok []
  | audit :: rest =>
      x <- safe_float B (dict_get audit key (PFloat f_one)) f_zero ;;
      xs <- scores_of key rest ;;
      Ok (x :: xs)
  end.

(** [sum(scores)]: plain left-to-right accumulation from zero. *)
Definition py_sum (scores : list float) : float :=
  fold_left (SFadd prec emax) scores f_zero.

(** [sum(scores) / len(scores) if scores else 1.0] *)
Definition average_or_one (scores : list float) : result float :=
  match scores with
  | [] => Ok f_one
  | _ :: _ => float_truediv_int (py_sum scores) (Z.of_nat (List.length scores))
  end.

(** [timestamp] and [now] are the two readings of [utc_now()]: the one taken
    on entry and the one taken inside [calculate_uptime_seconds]. *)
Definition extract_health_metrics (node_name : string) (timestamp now : datetime)
    (node_info : StorjNodeInfo) (satellite_info : StorjSatelliteInfo)
    : result HealthMetrics.t :=
  scores <-
    (match audits satellite_info with
     | [] => Ok (f_one, f_one, f_one)
     | _ :: _ =>
         audit_scores <- scores_of "auditScore" (audits satellite_info) ;;
         suspension_scores <- scores_of "suspensionScore" (audits satellite_info) ;;
         online_scores <- scores_of "onlineScore" (audits satellite_info) ;;
         a <- average_or_one audit_scores ;;
         s <- average_or_one suspension_scores ;;
         o <- average_or_one online_scores ;;
         Ok (a, s, o)
     end) ;;
  let '(audit_score, suspension_score, online_score) := scores in
  uptime <- calculate_uptime_seconds B now (PStr (started_at node_info)) ;;
  pinged <- timestamp_to_datetime B (PStr (last_pinged node_info)) ;;
  Ok (HealthMetrics.mk node_name timestamp (version node_info) uptime pinged
        (quic_status node_info) audit_score suspension_score online_score
        (match satellites node_info with
         | Some l => Z.of_nat (List.length l)
         | None => 0
         end)).

End Health.

(** ** [collector/service.py]: the daily upserts of [store_metrics] *)

(** Modelled from the spec: the table declarations ([db/schema.sql] and
    [db/schema_v2.sql]) are not among the sources. The spec gives the keys:
    one row per (node, date) in [metrics_daily_bandwidth] and
    [metrics_daily_storage], one per (node, satellite, date) in
    [metrics_daily_satellite], one per (node, satellite) in [node_satellites].
    A table is the list of its rows, restricted to the columns the statements
    of [store_metrics] write; [INSERT OR REPLACE] deletes the rows whose key
    equals the key of the new row, then inserts it. *)
Section Upsert.

Context {Row Key : Type}.
Variable key_of : Row -> Key.
Variable key_eqb : Key -> Key -> bool.

Definition has_key (k : Key) (row : Row) : bool := key_eqb (key_of row) k.

Definition insert_or_replace (table : list Row) (row : Row) : list Row :=
  filter (fun r => negb (has_key (key_of row) r)) table ++ [row].

(** The table after [INSERT OR REPLACE] of [rows], one after the other. *)
Definition upsert_all (rows : list Row) (table : list Row) : list Row :=
  fold_left insert_or_replace rows table.

(** [for row in rows: await db.execute("INSERT OR REPLACE ...", row)]. A
    statement binds its parameters first: [binds row] tells whether the ints
    of the row fit; the first row that does not bind raises [OverflowError]
    and ends the loop and the function. *)
Definition upsert_loop (binds : Row -> bool) (rows : list Row) (table : list Row)
    : result (list Row) :=
  if forallb binds rows then Ok (upsert_all rows table) else Raise OverflowError.

End Upsert.

(** [for row in rows: await db.execute("INSERT INTO ...", row)] *)
Definition insert_loop {Row : Type} (binds : Row -> bool) (rows : list Row)
    (table : list Row) : result (list Row) :=
  if forallb binds rows then Ok (table ++ rows) else Raise OverflowError.

(** sqlite3 stores a Python int as a signed 64-bit INTEGER; binding an int
    outside of that range raises [OverflowError]. Strings, floats, dates,
    datetimes, booleans and [None] bind. *)
Definition int64 (n : Z) : bool := (- 2 ^ 63 <=? n) && (n <? 2 ^ 63).

Definition daily_bandwidth_binds (r : DailyBandwidthMetrics.t) : bool :=
  forallb int64
    [ DailyBandwidthMetrics.ingress_usage_bytes r;
      DailyBandwidthMetrics.ingress_repair_bytes r;
      DailyBandwidthMetrics.egress_usage_bytes r;
      DailyBandwidthMetrics.egress_repair_bytes r;
      DailyBandwidthMetrics.egress_audit_bytes r;
      DailyBandwidthMetrics.delete_bytes r ].

Definition daily_storage_binds (r : DailyStorageMetrics.t) : bool :=
  forallb int64
    [ DailyStorageMetrics.at_rest_total_bytes r;
      DailyStorageMetrics.average_usage_bytes r ].

Definition satellite_status_binds (r : SatelliteStatus.t) : bool :=
  forallb int64
    [ SatelliteStatus.current_month_egress r;
      SatelliteStatus.current_month_ingress r ].

Definition daily_satellite_binds (r : DailySatellite.t) : bool :=
  forallb int64
    [ DailySatellite.storage_used_bytes r;
      DailySatellite.storage_at_rest_bytes r;
      DailySatellite.ingress_usage_bytes r;
      DailySatellite.ingress_repair_bytes r;
      DailySatellite.egress_usage_bytes r;
      DailySatellite.egress_repair_bytes r;
      DailySatellite.egress_audit_bytes r;
      DailySatellite.vetting_bandwidth_requirement r;
      DailySatellite.vetting_bandwidth_completed r ].

Definition node_date_eqb (k1 k2 : string * Z) : bool :=
  String.eqb (fst k1) (fst k2) && (snd k1 =? snd k2).

Definition node_satellite_eqb (k1 k2 : string * string) : bool :=
  String.eqb (fst k1) (fst k2) && String.eqb (snd k1) (snd k2).

Definition node_satellite_date_eqb (k1 k2 : string * string * Z) : bool :=
  node_satellite_eqb (fst k1) (fst k2) && (snd k1 =? snd k2).

Definition daily_bandwidth_key (r : DailyBandwidthMetrics.t) : string * Z :=
  (DailyBandwidthMetrics.node_name r, DailyBandwidthMetrics.date r).

Definition daily_storage_key (r : DailyStorageMetrics.t) : string * Z :=
  (DailyStorageMetrics.node_name r, DailyStorageMetrics.date r).

Definition satellite_status_key (r : SatelliteStatus.t) : string * string :=
  (SatelliteStatus.node_name r, SatelliteStatus.satellite_id r).

Definition daily_satellite_key (r : DailySatellite.t) : string * string * Z :=
  (DailySatellite.node_name r, DailySatellite.satellite_id r, DailySatellite.date r).

(** The lists of [all_metrics] that are upserted. *)
Record all_metrics : Type := mk_all_metrics {
  daily_bandwidth : list DailyBandwidthMetrics.t;
  daily_storage : list DailyStorageMetrics.t;
  satellite_status : list SatelliteStatus.t;
  daily_satellite : list DailySatellite.t
}.

(** The tables they go to. *)
Record database : Type := mk_database {
  metrics_daily_bandwidth : list DailyBandwidthMetrics.t;
  metrics_daily_storage : list DailyStorageMetrics.t;
  node_satellites : list SatelliteStatus.t;
  metrics_daily_satellite : list DailySatellite.t
}.

(** What the database engine does with a transaction whose statements bind:
    it carries it through, or it raises an [sqlite3.Error] at the [connect],
    at an [execute] or at the [commit] (a locked or missing file, a full
    disk, a constraint of the schema, which is not among the sources). *)
Inductive engine : Type :=
| Sound
| Faulty.

(** The four upsert loops, in the order of the source. *)
Definition upsert_loops (m : all_metrics) (db : database) : result database :=
  bw <- upsert_loop daily_bandwidth_key node_date_eqb daily_bandwidth_binds
          (daily_bandwidth m) (metrics_daily_bandwidth db) ;;
  st <- upsert_loop daily_storage_key node_date_eqb daily_storage_binds
          (daily_storage m) (metrics_daily_storage db) ;;
  ss <- upsert_loop satellite_status_key node_satellite_eqb satellite_status_binds
          (satellite_status m) (node_satellites db) ;;
  ds <- upsert_loop daily_satellite_key node_satellite_date_eqb daily_satellite_binds
          (daily_satellite m) (metrics_daily_satellite db) ;;
  Ok (mk_database bw st ss ds).

(** [store_metrics], as far as the four upserted tables go (the whole of it
    is [store_cycle] below). All statements run in one transaction that the
    last line commits: [Some] is the database after the commit; [None] stands
    for an exception that leaves the [async with] block before it, after
    which the database is what it was. *)
Definition store_metrics (e : engine) (m : all_metrics) (db : database)
    : option database :=
  match e with
  | Faulty => None
  | Sound =>
      match upsert_loops m db with
      | Ok db' => Some db'
      | Raise _ => None
      end
  end.

(** The database as the next cycle finds it. *)
Definition after_store (e : engine) (m : all_metrics) (db : database) : database :=
  match store_metrics e m db with
  | Some db' => db'
  | None => db
  end.

(** ** A reference runtime

    A runtime to run the model on concrete payloads. Its parsers accept the
    plain ASCII forms, on which every CPython 3 agrees: [int] reads an optional
    sign and decimal digits, [float] the same with an optional fraction, and
    [fromisoformat] reads [YYYY-MM-DD], optionally followed by [THH:MM:SS] and
    then by an offset [+HH:MM] or [-HH:MM]. *)
Module Reference.

Definition digit_of (c : ascii) : option Z :=
  let n := Z.of_nat (nat_of_ascii c) in
  if (48 <=? n) && (n <=? 57) then Some (n - 48) else None.

(** Reads digits up to the end of the string: their value and their number. *)
Fixpoint read_digits (s : string) (acc : Z) (count : nat) : option (Z * nat) :=
  match s with
  | EmptyString => Some (acc, count)
  | String c rest =>
      match digit_of c with
      | Some d => read_digits rest (10 * acc + d) (S count)
      | None => None
      end
  end.

Definition split_sign (s : string) : bool * string :=
  match s with
  | String "-" rest => (true, rest)
  | String "+" rest => (false, rest)
  | _ => (false, s)
  end.

Definition int_of_str (s : string) : option Z :=
  let '(neg, body) := split_sign s in
  match read_digits body 0 O with
  | Some (n, S _) => Some (if neg then - n else n)
  | _ => None
  end.

(** The part of [s] before the first [sep], and the part after it. *)
Fixpoint split_at (sep : ascii) (s : string) : string * option string :=
  match s with
  | EmptyString => (EmptyString, None)
  | String c rest =>
      if Ascii.eqb c sep then (EmptyString, Some rest)
      else let '(before, after) := split_at sep rest in (String c before, after)
  end.

Definition float_of_str (s : string) : option float :=
  let '(neg, body) := split_sign s in
  let '(whole, fraction) := split_at "." body in
  match read_digits whole 0 O with
  | Some (n, S _) =>
      match read_digits (match fraction with Some f => f | None => "" end) n O with
      | Some (m, k) =>
          let x := SFdiv prec emax (exact_of_Z m) (exact_of_Z (10 ^ Z.of_nat k)) in
          Some (if neg then SFopp x else x)
      | None => None
      end
  | _ => None
  end.

(** Reads exactly [count] digits from the front of [s]. *)
Fixpoint take_digits (count : nat) (s : string) (acc : Z) : option (Z * string) :=
  match count with
  | O => Some (acc, s)
  | S k =>
      match s with
      | String c rest =>
          match digit_of c with
          | Some d => take_digits k rest (10 * acc + d)
          | None => None
          end
      | EmptyString => None
      end
  end.

(** Drops the character [c] from the front of [s]. *)
Definition expect (c : ascii) (s : string) : option string :=
  match s with
  | String c' rest => if Ascii.eqb c c' then Some rest else None
  | EmptyString => None
  end.

Definition is_leap (y : Z) : bool :=
  ((y mod 4 =? 0) && negb (y mod 100 =? 0)) || (y mod 400 =? 0).

Definition days_in_month (y m : Z) : Z :=
  if m =? 2 then (if is_leap y then 29 else 28)
  else if (m =? 4) || (m =? 6) || (m =? 9) || (m =? 11) then 30
  else 31.

Definition days_before_year (y : Z) : Z :=
  let p := y - 1 in p * 365 + p / 4 - p / 100 + p / 400.

Fixpoint days_before_month (y : Z) (m : nat) : Z :=
  match m with
  | O => 0
  | S k => days_before_month y k + days_in_month y (Z.of_nat (S k))
  end.

(** Days from 0001-01-01 to the given date, [None] for an invalid one. *)
Definition days_of_date (y m d : Z) : option Z :=
  if (1 <=? y) && (1 <=? m) && (m <=? 12) && (1 <=? d) && (d <=? days_in_month y m)
  then Some (days_before_year y + days_before_month y (Z.to_nat (m - 1)) + (d - 1))
  else None.

Definition opt_bind {A C : Type} (o : option A) (k : A -> option C) : option C :=
  match o with
  | Some a => k a
  | None => None
  end.

Definition read_date (s : string) : option (Z * string) :=
  opt_bind (take_digits 4 s 0) (fun '(y, s) =>
  opt_bind (expect "-" s) (fun s =>
  opt_bind (take_digits 2 s 0) (fun '(m, s) =>
  opt_bind (expect "-" s) (fun s =>
  opt_bind (take_digits 2 s 0) (fun '(d, s) =>
  opt_bind (days_of_date y m d) (fun days => Some (days, s))))))).

(** [HH:MM:SS] in seconds. *)
Definition read_time (s : string) : option (Z * string) :=
  opt_bind (take_digits 2 s 0) (fun '(h, s) =>
  opt_bind (expect ":" s) (fun s =>
  opt_bind (take_digits 2 s 0) (fun '(mi, s) =>
  opt_bind (expect ":" s) (fun s =>
  opt_bind (take_digits 2 s 0) (fun '(sec, s) =>
  if (h <? 24) && (mi <? 60) && (sec <? 60)
  then Some (h * 3600 + mi * 60 + sec, s) else None))))).

(** [+HH:MM] or [-HH:MM] in microseconds, up to the end of the string. *)
Definition read_offset (s : string) : option Z :=
  match s with
  | String c rest =>
      opt_bind (if Ascii.eqb c "+" then Some 1
                else if Ascii.eqb c "-" then Some (-1) else None) (fun sign =>
      opt_bind (take_digits 2 rest 0) (fun '(h, s) =>
      opt_bind (expect ":" s) (fun s =>
      opt_bind (take_digits 2 s 0) (fun '(mi, s) =>
      match s with
      | EmptyString =>
          if (h <? 24) && (mi <? 60)
          then Some (sign * (h * 3600 + mi * 60) * 1000000) else None
      | _ => None
      end))))
  | EmptyString => None
  end.

Definition fromisoformat (s : string) : option datetime :=
  opt_bind (read_date s) (fun '(days, s) =>
  match s with
  | EmptyString => Some (mk_datetime (days * us_per_day) None)
  | _ =>
      opt_bind (expect "T" s) (fun s =>
      opt_bind (read_time s) (fun '(secs, s) =>
      let w := days * us_per_day + secs * 1000000 in
      match s with
      | EmptyString => Some (mk_datetime w None)
      | _ => opt_bind (read_offset s) (fun off => Some (mk_datetime w (Some off)))
      end))
  end).

Definition runtime : builtins := mk_builtins int_of_str float_of_str fromisoformat.

End Reference.

(** ** Notions the properties are stated with *)

(** The identifier is a key of [KNOWN_SATELLITES]. *)
Definition registered (satellite_id : string) : bool :=
  match assoc_find KNOWN_SATELLITES satellite_id with
  | Some _ => true
  | None => false
  end.

Definition registered_value (v : pyval) : bool :=
  match v with
  | PStr s => registered s
  | _ => false
  end.

(** A satellite entry of the node-info document whose identifier is known. *)
Definition known_entry (satellite_data : dict) : bool :=
  registered_value (dict_get satellite_data "id" (PStr "")).

(** The coercion raised one of the classes meant by "fails to coerce":
    the value is no number and does not read as one. *)
Definition fails_to_coerce {A : Type} (r : result A) : bool :=
  match r with
  | Raise ValueError | Raise TypeError => true
  | _ => false
  end.

(** What the body of a loop appends, entry by entry. *)
Definition outputs {A : Type} (body : dict -> result (option A)) (entries : list dict)
    : list A :=
  flat_map (fun entry => match body entry with
                         | Ok (Some m) => [m]
                         | _ => []
                         end) entries.

(** What is fit for a timestamp field without tripping over its type: a [str],
    or a value the truth test in front of the parser turns away. *)
Definition str_or_falsy (v : pyval) : bool :=
  match v with
  | PStr _ => true
  | _ => negb (truthy v)
  end.

(** The invariant as the specification words it: vetted exactly when the
    progress equals [1.0]. *)
Definition vetted_iff_full_progress (r : SatelliteStatus.t) : Prop :=
  SatelliteStatus.is_vetted r = true
  <-> f_eqb (SatelliteStatus.vetting_progress r) f_one = true.

(** An identifier the membership test can take: one the truth test in front
    of it turns away, or one that hashes. *)
Definition falsy_or_hashable (v : pyval) : bool := negb (truthy v) || hashable v.

(** The documents with one of their lists replaced. *)
Definition with_satellites (ni : StorjNodeInfo) (entries : list dict) : StorjNodeInfo :=
  mk_node_info (node_id ni) (Some entries) (last_pinged ni) (version ni)
    (started_at ni) (quic_status ni).

Definition with_bandwidth_daily (si : StorjSatelliteInfo) (entries : list dict)
    : StorjSatelliteInfo :=
  mk_satellite_info (storage_daily si) (Some entries) (audits si).

Definition with_storage_daily (si : StorjSatelliteInfo) (entries : list dict)
    : StorjSatelliteInfo :=
  mk_satellite_info (Some entries) (bandwidth_daily si) (audits si).

(** *** The fallback of the vetting progress, in the words of the specification *)

(** Clamping to [[0, 1]]. *)
Definition clamp01 (x : float) : float := py_max f_zero (py_min x f_one).

Section FallbackSpec.

Variable B : builtins.

(** (b) and (c): [min(total / (1 GiB * 100), 1.0)] for a positive total of the
    current month, else [0.0]. *)
Definition bandwidth_estimate (satellite_data : dict) : result float :=
  ingress <- safe_int B (dict_get satellite_data "currentMonthIngress" (PInt 0)) 0 ;;
  egress <- safe_int B (dict_get satellite_data "currentMonthEgress" (PInt 0)) 0 ;;
  if 0 <? ingress + egress then
    ratio <- int_truediv (ingress + egress) (gb_threshold * 100) ;;
    Ok (py_min ratio f_one)
  else Ok f_zero.

(** (a) first: the explicit [vettingProgress], when present and positive,
    clamped; else the estimate. *)
Definition fallback_progress (satellite_data : dict) : result float :=
  if dict_has satellite_data "vettingProgress" then
    explicit <- safe_float B (dict_get satellite_data "vettingProgress" PNone) f_zero ;;
    if f_gtb explicit f_zero then Ok (clamp01 explicit)
    else bandwidth_estimate satellite_data
  else bandwidth_estimate satellite_data.

End FallbackSpec.

(** [now - started_at] in whole seconds:
    [int(delta.total_seconds())] for a difference of [delta] microseconds. *)
Definition whole_seconds (delta : Z) : result Z :=
  seconds <- total_seconds delta ;; trunc_float seconds.

(** The rows of a table with a given key. *)
Definition rows_with {Row Key : Type} (key_of : Row -> Key) (key_eqb : Key -> Key -> bool)
    (k : Key) (table : list Row) : list Row :=
  filter (has_key key_of key_eqb k) table.

(** The rows of the two (node, date) tables for a key. *)
Definition bandwidth_rows (db : database) (k : string * Z) : list DailyBandwidthMetrics.t :=
  rows_with daily_bandwidth_key node_date_eqb k (metrics_daily_bandwidth db).

Definition storage_rows (db : database) (k : string * Z) : list DailyStorageMetrics.t :=
  rows_with daily_storage_key node_date_eqb k (metrics_daily_storage db).

(** ** Sample payloads *)

Definition saltlake : string := "1wFTAgs9DP5RSnCqKV1eLf6N9wtk4EAtmN5DpSxcs8EjT69tGE".

(** 2025-09-14T23:00:00+00:00 *)
Definition sample_now : datetime := mk_datetime 63893487600000000 (Some 0).

(** A node-info document with the given satellite list, the other fields as
    in the fixture of [tests/test_integration.py]. *)
Definition node_with (entries : list dict) : StorjNodeInfo :=
  mk_node_info "node1_id" (Some entries) "2025-09-14T23:30:00Z" "1.136.4"
    "2025-09-14T20:00:00Z" "OK".

Definition satellite_info_with (audit_entries : list dict) : StorjSatelliteInfo :=
  mk_satellite_info None None audit_entries.

(** The end-to-end scenario of the specification: not vetted, 2000 GiB of
    ingress this month, no [vettingProgress]. *)
Definition busy_unvetted_entry : dict :=
  [ ("id", PStr saltlake); ("vettedAt", PNone);
    ("currentMonthIngress", PInt 2147483648000); ("currentMonthEgress", PInt 0) ].

(** A satellite that reports 5 GiB of traffic and no [vettedAt] at all. *)
Definition fresh_entry : dict :=
  [ ("id", PStr saltlake);
    ("currentMonthIngress", PInt 4294967296); ("currentMonthEgress", PInt 1073741824) ].

Definition vetted_entry : dict :=
  [ ("id", PStr saltlake); ("vettedAt", PStr "2025-08-01T12:00:00Z") ].

(** [vettedAt] as a Unix time instead of a string. *)
Definition epoch_vetted_entry : dict :=
  [ ("id", PStr saltlake); ("vettedAt", PInt 1754049600) ].

(** One day of traffic and of storage for the same satellite, the byte counts
    of the fixture of [tests/test_integration.py]. *)
Definition bandwidth_entry : dict :=
  [ ("intervalStart", PStr "2025-09-14T00:00:00Z"); ("satelliteId", PStr saltlake);
    ("egress", PDict [("repair", PInt 10000000); ("audit", PInt 1000000);
                      ("usage", PInt 500000000)]);
    ("ingress", PDict [("repair", PInt 50000000); ("usage", PInt 1000000000)]);
    ("delete", PInt 100000) ].

Definition storage_entry : dict :=
  [ ("intervalStart", PStr "2025-09-14T00:00:00Z"); ("satelliteId", PStr saltlake);
    ("atRestTotal", PInt 1200000000000); ("atRestTotalBytes", PInt 50000000000) ].

(** Storage of the day after, without a bandwidth entry to go with it. *)
Definition next_day_storage_entry : dict :=
  [ ("intervalStart", PStr "2025-09-15T00:00:00Z"); ("satelliteId", PStr saltlake);
    ("atRestTotalBytes", PInt 51000000000) ].

Definition daily_info : StorjSatelliteInfo :=
  mk_satellite_info (Some [storage_entry; next_day_storage_entry])
    (Some [bandwidth_entry]) [].

(** Entries of a satellite that is not in the registry. *)
Definition stranger_entry : dict :=
  [ ("id", PStr "12tRQrMTWUWwzwGh18i7Fqs67kmdhH9t6aToeiwbo5mfS2rUmo");
    ("vettedAt", PStr "2025-08-01T12:00:00Z") ].

Definition stranger_daily_entry : dict :=
  [ ("intervalStart", PStr "2025-09-14T00:00:00Z");
    ("satelliteId", PStr "12tRQrMTWUWwzwGh18i7Fqs67kmdhH9t6aToeiwbo5mfS2rUmo");
    ("atRestTotalBytes", PInt 7) ].

(** An entry whose identifier is a JSON array. *)
Definition array_id_entry : dict := [ ("id", PList []) ].

(** A daily entry whose interval start is a Unix time instead of a string. *)
Definition epoch_interval_entry : dict :=
  [ ("intervalStart", PInt 1726272000); ("satelliteId", PStr saltlake);
    ("atRestTotalBytes", PInt 50000000000) ].

Definition epoch_interval_info : StorjSatelliteInfo :=
  mk_satellite_info (Some [epoch_interval_entry]) (Some [epoch_interval_entry]) [].

(** An audit entry whose audit score is text, with a suspension score of
    [null] and no online score. *)
Definition garbled_audit : dict :=
  [ ("satelliteID", PStr saltlake); ("auditScore", PStr "n/a");
    ("suspensionScore", PNone) ].

(** A satellite entry whose egress counter is text. *)
Definition garbled_counter_entry : dict :=
  [ ("id", PStr saltlake); ("vettedAt", PStr "2025-08-01T12:00:00Z");
    ("currentMonthEgress", PStr "n/a"); ("currentMonthIngress", PInt 1024) ].

(** A start time in the future of [sample_now], one an hour before it, and
    the latter written without an offset. *)
Definition future_start : pyval := PStr "2099-01-01T00:00:00Z".
Definition hour_ago_start : pyval := PStr "2025-09-14T22:00:00Z".
Definition naive_hour_ago_start : pyval := PStr "2025-09-14T22:00:00".

(** The metric the bandwidth pass builds from [bandwidth_entry] for "node1";
    day 739507 is 2025-09-14. *)
Definition bandwidth_record : DailySatellite.t :=
  DailySatellite.mk "node1" saltlake 739507 0 0
    1000000000 50000000 500000000 10000000 1000000 tb_requirement 1500000000.

(** Two collections of the same node and day with different figures, and a
    row of another day. *)
Definition first_reading : DailyBandwidthMetrics.t :=
  DailyBandwidthMetrics.mk "node1" 739507 1000 50 500 10 1 100.
Definition second_reading : DailyBandwidthMetrics.t :=
  DailyBandwidthMetrics.mk "node1" 739507 2500 70 900 15 2 120.
Definition other_day_reading : DailyBandwidthMetrics.t :=
  DailyBandwidthMetrics.mk "node1" 739506 7 7 7 7 7 7.

Definition first_storage : DailyStorageMetrics.t :=
  DailyStorageMetrics.mk "node1" 739507 50000000000 50000000000.
Definition second_storage : DailyStorageMetrics.t :=
  DailyStorageMetrics.mk "node1" 739507 51000000000 50500000000.

Definition first_cycle : all_metrics :=
  mk_all_metrics [other_day_reading; first_reading] [first_storage] [] [].
Definition second_cycle : all_metrics :=
  mk_all_metrics [second_reading; other_day_reading] [second_storage] [] [].
Definition empty_database : database := mk_database [] [] [] [].

(** One cycle that writes the same (node, date) twice. *)
Definition double_cycle : all_metrics :=
  mk_all_metrics [first_reading; other_day_reading; second_reading]
    [first_storage; second_storage] [] [].

(** ** Further notions *)

(** [x <= y] on floats. *)
Definition f_leb (x y : float) : bool := SFleb x y.

(** The audit entry carries the identifier [sid]. *)
Definition audit_names (sid : string) (audit : dict) : bool :=
  match dict_get audit "satelliteID" PNone with
  | PStr s => String.eqb s sid
  | _ => false
  end.

(** The last entry of the audits list that carries [sid]. *)
Fixpoint last_audit_for (sid : string) (audit_entries : list dict) : option dict :=
  match audit_entries with
  | [] => None
  | audit :: rest =>
      match last_audit_for sid rest with
      | Some later => Some later
      | None => if audit_names sid audit then Some audit else None
      end
  end.

(** The three scores of a status. *)
Definition scores_of_status (r : SatelliteStatus.t) : float * float * float :=
  (SatelliteStatus.audit_score r, SatelliteStatus.suspension_score r,
   SatelliteStatus.online_score r).

(** The floats [0.87] and [0.99]. *)
Definition f_0_87 : float := S754_finite false 7836263351624663 (-53).
Definition f_0_99 : float := S754_finite false 8917127262193582 (-53).

(** Two audit entries for the same satellite, and the end-to-end audit entry
    of the specification as the later one. *)
Definition earlier_audit : dict :=
  [ ("satelliteID", PStr saltlake); ("auditScore", PFloat f_0_99);
    ("suspensionScore", PFloat f_0_99); ("onlineScore", PFloat f_0_87) ].
Definition later_audit : dict :=
  [ ("satelliteID", PStr saltlake); ("auditScore", PFloat f_0_87);
    ("suspensionScore", PFloat f_one); ("onlineScore", PFloat f_0_99) ].

(** An audit entry that names its satellite by URL only, as in the fixture
    of [tests/test_integration.py]. *)
Definition unnamed_audit : dict :=
  [ ("auditScore", PFloat f_0_99); ("suspensionScore", PFloat f_one);
    ("onlineScore", PFloat f_0_87); ("satelliteName", PStr "saltlake.tardigrade.io:7777") ].


(** The key of [x] is the key of one of [rows]. *)
Definition written {Row Key : Type} (key_of : Row -> Key) (key_eqb : Key -> Key -> bool)
    (rows : list Row) (x : Row) : bool :=
  existsb (fun r => has_key key_of key_eqb (key_of r) x) rows.

(** The rows of the two satellite tables for a key. *)
Definition status_rows (db : database) (k : string * string) : list SatelliteStatus.t :=
  rows_with satellite_status_key node_satellite_eqb k (node_satellites db).

Definition daily_satellite_rows (db : database) (k : string * string * Z)
    : list DailySatellite.t :=
  rows_with daily_satellite_key node_satellite_date_eqb k (metrics_daily_satellite db).

(** The statuses of a first and of a second look at the same node and
    satellite, and a status of another node. *)
Definition first_status : SatelliteStatus.t :=
  SatelliteStatus.mk "node1" saltlake "saltlake" "North America" sample_now
    false f_zero None f_one f_one f_one None 0 0.
Definition second_status : SatelliteStatus.t :=
  SatelliteStatus.mk "node1" saltlake "saltlake" "North America" sample_now
    true f_one None f_0_99 f_one f_0_87 None 1024 2048.
Definition other_node_status : SatelliteStatus.t :=
  SatelliteStatus.mk "node2" saltlake "saltlake" "North America" sample_now
    false f_zero None f_one f_one f_one None 0 0.

Definition next_day_record : DailySatellite.t :=
  DailySatellite.mk "node1" saltlake 739508 51000000000 51000000000
    0 0 0 0 0 tb_requirement 0.

Definition satellite_cycle : all_metrics :=
  mk_all_metrics [first_reading] [first_storage]
    [first_status; second_status] [bandwidth_record].

Definition stored_before : database :=
  mk_database [other_day_reading] [] [other_node_status] [next_day_record].

(** A status whose egress counter is [2 ^ 63], one more than sqlite3 binds,
    and a cycle that holds it next to rows that bind. *)
Definition oversized_status : SatelliteStatus.t :=
  SatelliteStatus.mk "node1" saltlake "saltlake" "North America" sample_now
    true f_one None f_one f_one f_one None (2 ^ 63) 0.

Definition oversized_cycle : all_metrics :=
  mk_all_metrics [first_reading] [first_storage] [oversized_status] [bandwidth_record].


(** The computation raises no exception outside of [allowed]. *)
Definition raises_only {A : Type} (allowed : list exn) (r : result A) : Prop :=
  forall e, r = Raise e -> In e allowed.

(** A month counter that json read from [1e999]. *)
Definition infinite_counter_entry : dict :=
  [ ("id", PStr saltlake); ("vettedAt", PStr "2025-08-01T12:00:00Z");
    ("currentMonthEgress", PFloat (S754_infinity false)) ].

(** A storage entry whose [atRestTotal] is text. *)
Definition text_total_entry : dict :=
  [ ("intervalStart", PStr "2025-09-14T00:00:00Z"); ("satelliteId", PStr saltlake);
    ("atRestTotal", PStr "1.2e12"); ("atRestTotalBytes", PInt 50000000000) ].

Definition text_total_info : StorjSatelliteInfo :=
  mk_satellite_info (Some [storage_entry; text_total_entry]) None [].

(** A node-info document whose [lastPinged] is not a timestamp. *)
Definition unpinged_node : StorjNodeInfo :=
  mk_node_info "node1_id" None "never" "1.136.4" "2025-09-14T20:00:00Z" "OK".

(** Satellite entries with a join date: one that parses, one that does not,
    and an empty one. *)
Definition joined_entry : dict :=
  [ ("id", PStr saltlake); ("joinedAt", PStr "2025-06-01T08:30:00Z") ].
Definition garbled_join_entry : dict :=
  [ ("id", PStr saltlake); ("joinedAt", PStr "last summer") ].
Definition unjoined_entry : dict :=
  [ ("id", PStr saltlake); ("joinedAt", PStr "") ].

(** ** [storj_monitor/utils.py]: [AsyncHTTPClient.fetch_json]

    One call of [fetch_json], with the network as an oracle: [server n] is
    what the [n]-th request of the call comes to. The effects are kept as a
    trace of requests and sleeps; the log lines are left out. *)

Module Fetch.

(** What [self._client.get(url)], [raise_for_status()] and [json()] give
    together: a decoded body, an exception of the classes the [except]
    clause names ([httpx.HTTPError], [httpx.RequestError]), or any other
    exception, such as the decoding error of a body that is not JSON. *)
Inductive response : Type :=
| Body (json : pyval)
| HttpError (code : Z)
| OtherError (what : string).

Inductive event : Type :=
| Get
| Sleep (seconds : Z).

(** How the call ends. [NothingToRaise] is the [TypeError] of
    [raise last_exception] with [last_exception] still [None]. *)
Inductive outcome : Type :=
| Returned (json : pyval)
| RaisedHttp (code : Z)
| RaisedOther (what : string)
| NotInitialized
| NothingToRaise.

Record client : Type := mk_client {
  initialized : bool;
  max_retries : Z;
  retry_delay : Z
}.

(** [for attempt in range(self.max_retries + 1)], from [attempt] on with
    [todo] rounds to go, and the [raise last_exception] behind the loop. *)
Fixpoint attempts (c : client) (server : nat -> response) (todo attempt : nat)
    (last_exception : option Z) : outcome * list event :=
  match todo with
  | O =>
      (match last_exception with
       | Some code => RaisedHttp code
       | None => NothingToRaise
       end, [])
  | S todo' =>
      match server attempt with
      | Body json => (Returned json, [Get])
      | OtherError what => (RaisedOther what, [Get])
      | HttpError code =>
          let (end_, trace) := attempts c server todo' (S attempt) (Some code) in
          (end_,
           if Z.of_nat attempt <? max_retries c
           then Get :: Sleep (retry_delay c) :: trace
           else Get :: trace)
      end
  end.

Definition fetch_json (c : client) (server : nat -> response) : outcome * list event :=
  if initialized c
  then attempts c server (Z.to_nat (max_retries c + 1)) 0 None
  else (NotInitialized, []).

(** [n] failed attempts, each followed by its sleep. *)
Fixpoint retries (c : client) (n : nat) : list event :=
  match n with
  | O => []
  | S n' => Get :: Sleep (retry_delay c) :: retries c n'
  end.

(** The client of the default configuration: 3 retries, 5 seconds apart. *)
Definition default_client : client := mk_client true 3 5.

(** A node that answers the third request, and one that is down. *)
Definition flaky_server (n : nat) : response :=
  match n with
  | 2%nat => Body (PDict [("nodeID", PStr "node1_id")])
  | _ => HttpError 503
  end.

Definition dead_server (n : nat) : response := HttpError (500 + Z.of_nat n).

End Fetch.

(** ** [storj_monitor/utils.py]: [human_readable_to_bytes] *)

(** [s.endswith(suffix)] *)
Fixpoint endswith (s suffix : string) : bool :=
  String.eqb s suffix
  || match s with
     | EmptyString => false
     | String _ rest => endswith rest suffix
     end.

(** [s[:-n]] *)
Definition drop_last (n : nat) (s : string) : string :=
  match n with
  | O => EmptyString
  | S _ => substring 0 (String.length s - n) s
  end.

(** [x * n] for a float [x] and an int [n]. *)
Definition float_mul_int (x : float) (n : Z) : result float :=
  fn <- float_of_Z n ;; Ok (SFmul prec emax x fn).

(** The dict [units], in the order of its items. *)
Definition units : list (string * Z) :=
  [ ("B", 1); ("KB", 1024); ("MB", 1024 ^ 2); ("GB", 1024 ^ 3);
    ("TB", 1024 ^ 4); ("PB", 1024 ^ 5) ].

Section SizeStrings.

Variable B : builtins.

(** The string methods [strip] and [upper]. *)
Variable strip : string -> string.
Variable upper : string -> string.

(** [int(float(text))] *)
Definition int_of_float_text (text : string) : result Z :=
  x <- py_float B (PStr text) ;; trunc_float x.

(** [int(float(number_str) * multiplier)] *)
Definition scaled (number_str : string) (multiplier : Z) : result Z :=
  x <- py_float B (PStr number_str) ;;
  y <- float_mul_int x multiplier ;;
  trunc_float y.

(** The loop over [units.items()] and the [raise] behind it, which both the
    [break] and the end of the loop lead to. *)
Fixpoint unit_loop (size_str : string) (items : list (string * Z)) : result Z :=
  match items with
  | [] => Raise ValueError
  | (unit, multiplier) :: rest =>
      if endswith size_str unit then
        let number_str := strip (drop_last (String.length unit) size_str) in
        try_except (scaled number_str multiplier) except_ValueError (Raise ValueError)
      else unit_loop size_str rest
  end.

Definition human_readable_to_bytes (size_str : string) : result Z :=
  let size_str := upper (strip size_str) in
  try_except (int_of_float_text size_str) except_ValueError (unit_loop size_str units).

End SizeStrings.

(** [strip] and [upper] on ASCII text, to run the model with. *)
Module Text.

Definition is_space (c : ascii) : bool :=
  let n := nat_of_ascii c in
  ((9 <=? n) && (n <=? 13) || (28 <=? n) && (n <=? 32))%nat.

Fixpoint lstrip (s : string) : string :=
  match s with
  | EmptyString => EmptyString
  | String c rest => if is_space c then lstrip rest else s
  end.

(** [s] without its trailing spaces; [None] when it holds nothing else. *)
Fixpoint rstrip_aux (s : string) : option string :=
  match s with
  | EmptyString => None
  | String c rest =>
      match rstrip_aux rest with
      | Some kept => Some (String c kept)
      | None => if is_space c then None else Some (String c EmptyString)
      end
  end.

Definition strip (s : string) : string :=
  match rstrip_aux (lstrip s) with
  | Some kept => kept
  | None => EmptyString
  end.

Definition upper_char (c : ascii) : ascii :=
  let n := nat_of_ascii c in
  if ((97 <=? n) && (n <=? 122))%nat then ascii_of_nat (n - 32) else c.

Fixpoint upper (s : string) : string :=
  match s with
  | EmptyString => EmptyString
  | String c rest => String (upper_char c) (upper rest)
  end.

End Text.

(** ** [collector/service.py]: a collection cycle *)

Module DiskMetrics.
Record t : Type := mk {
  node_name : string;
  timestamp : datetime;
  used_bytes : Z;
  available_bytes : Z;
  trash_bytes : Z;
  overused_bytes : Z
}.
End DiskMetrics.

Module BandwidthMetrics.
Record t : Type := mk {
  node_name : string;
  timestamp : datetime;
  used_bytes : Z;
  available_bytes : Z
}.
End BandwidthMetrics.

(** What [collect_node_data] returns: the validated documents of a node. The
    [diskSpace] and [bandwidth] fields of the node-info document are
    [Dict[str, int]]. *)
Module NodeData.
Record t : Type := mk {
  node_info : StorjNodeInfo;
  disk_space : list (string * Z);
  bandwidth : list (string * Z);
  satellite_info : StorjSatelliteInfo
}.
End NodeData.

(** [safe_int(d.get(key, 0))] on a [Dict[str, int]]: [safe_int] returns an
    int as it is. *)
Definition int_or_zero (d : list (string * Z)) (key : string) : Z :=
  match assoc_find d key with
  | Some n => n
  | None => 0
  end.

(** [timestamp] is the reading of [utc_now()]. *)
Definition extract_disk_metrics (node_name : string) (timestamp : datetime)
    (data : NodeData.t) : DiskMetrics.t :=
  let disk_space := NodeData.disk_space data in
  DiskMetrics.mk node_name timestamp
    (int_or_zero disk_space "used") (int_or_zero disk_space "available")
    (int_or_zero disk_space "trash") (int_or_zero disk_space "overused").

Definition extract_bandwidth_metrics (node_name : string) (timestamp : datetime)
    (data : NodeData.t) : BandwidthMetrics.t :=
  let bandwidth := NodeData.bandwidth data in
  BandwidthMetrics.mk node_name timestamp
    (int_or_zero bandwidth "used") (int_or_zero bandwidth "available").

(** The readings of [utc_now()] while one node is handled, in the order they
    are taken: by the disk, bandwidth and health extraction, inside
    [calculate_uptime_seconds], and by the status extraction. *)
Module Clock.
Record t : Type := mk {
  disk : datetime;
  bandwidth : datetime;
  health : datetime;
  uptime : datetime;
  status : datetime
}.
End Clock.

(** A configured node with what the cycle meets when it turns to it: the
    documents fetched, or [None] when [collect_node_data] raises (a request
    that fails for good, a document that does not validate), and the clock. *)
Module Job.
Record t : Type := mk {
  name : string;
  fetched : option NodeData.t;
  clock : Clock.t
}.
End Job.

(** The dict [all_metrics]: the seven lists and the node identifiers, which
    the source keeps in the same dict under the keys [f'{node.name}_node_id'];
    an assignment goes to the front, where lookups start. *)
Module Cycle.
Record t : Type := mk {
  node_ids : list (string * string);
  disk : list DiskMetrics.t;
  bandwidth : list BandwidthMetrics.t;
  health : list HealthMetrics.t;
  daily_bandwidth : list DailyBandwidthMetrics.t;
  daily_storage : list DailyStorageMetrics.t;
  satellite_status : list SatelliteStatus.t;
  daily_satellite : list DailySatellite.t
}.

Definition empty : t := mk [] [] [] [] [] [] [] [].
End Cycle.

Section CollectAll.

Variable B : builtins.

(** The body of the loop of [collect_all_metrics] for one node. Every
    statement of the [try] block changes [all_metrics] in place, so an
    exception leaves what was appended before it; [except Exception] catches
    every class. *)
Definition collect_from (job : Job.t) (m : Cycle.t) : Cycle.t :=
  match Job.fetched job with
  | None => m
  | Some data =>
      let node := Job.name job in
      let node_info := NodeData.node_info data in
      let satellite_info := NodeData.satellite_info data in
      let ids := (node, node_id node_info) :: Cycle.node_ids m in
      let disk := Cycle.disk m ++ [extract_disk_metrics node (Clock.disk (Job.clock job)) data] in
      let bandwidth :=
        Cycle.bandwidth m
        ++ [extract_bandwidth_metrics node (Clock.bandwidth (Job.clock job)) data] in
      match extract_health_metrics B node (Clock.health (Job.clock job))
              (Clock.uptime (Job.clock job)) node_info satellite_info with
      | Raise _ =>
          Cycle.mk ids disk bandwidth (Cycle.health m) (Cycle.daily_bandwidth m)
            (Cycle.daily_storage m) (Cycle.satellite_status m) (Cycle.daily_satellite m)
      | Ok h =>
          let health := Cycle.health m ++ [h] in
          match extract_daily_bandwidth_metrics B node satellite_info with
          | Raise _ =>
              Cycle.mk ids disk bandwidth health (Cycle.daily_bandwidth m)
                (Cycle.daily_storage m) (Cycle.satellite_status m)
                (Cycle.daily_satellite m)
          | Ok bw =>
              let daily_bandwidth := Cycle.daily_bandwidth m ++ bw in
              match extract_daily_storage_metrics B node satellite_info with
              | Raise _ =>
                  Cycle.mk ids disk bandwidth health daily_bandwidth
                    (Cycle.daily_storage m) (Cycle.satellite_status m)
                    (Cycle.daily_satellite m)
              | Ok st =>
                  let daily_storage := Cycle.daily_storage m ++ st in
                  match extract_satellite_status B node (Clock.status (Job.clock job))
                          node_info satellite_info with
                  | Raise _ =>
                      Cycle.mk ids disk bandwidth health daily_bandwidth daily_storage
                        (Cycle.satellite_status m) (Cycle.daily_satellite m)
                  | Ok statuses =>
                      let satellite_status := Cycle.satellite_status m ++ statuses in
                      match extract_daily_satellite_metrics B node satellite_info with
                      | Raise _ =>
                          Cycle.mk ids disk bandwidth health daily_bandwidth
                            daily_storage satellite_status (Cycle.daily_satellite m)
                      | Ok daily =>
                          Cycle.mk ids disk bandwidth health daily_bandwidth
                            daily_storage satellite_status
                            (Cycle.daily_satellite m ++ daily)
                      end
                  end
              end
          end
      end
  end.

(** [for node in self.settings.nodes:] *)
Definition collect_loop (jobs : list Job.t) : Cycle.t :=
  fold_left (fun m job => collect_from job m) jobs Cycle.empty.

End CollectAll.

(** The tables [store_metrics] writes: [nodes], as far as the [UPDATE] shows
    it (a name and a nullable node id); the three tables with a plain
    [INSERT], restricted to the columns written; the four upserted tables. *)
Module Store.
Record t : Type := mk {
  nodes : list (string * option string);
  metrics_disk : list DiskMetrics.t;
  metrics_bandwidth : list BandwidthMetrics.t;
  metrics_health : list HealthMetrics.t;
  upserted : database
}.
End Store.

(** [UPDATE nodes SET node_id = ? WHERE name = ? AND node_id IS NULL] *)
Definition update_node_id (value : option string) (name : string)
    (rows : list (string * option string)) : list (string * option string) :=
  map (fun row =>
         match row with
         | (n, None) => if String.eqb n name then (n, value) else row
         | (_, Some _) => row
         end) rows.

(** The first loop of [store_metrics], over the configured nodes;
    [all_metrics.get(f'{node.name}_node_id')] is [None] for a node whose
    documents were not fetched. *)
Definition update_node_ids (names : list string) (ids : list (string * string))
    (rows : list (string * option string)) : list (string * option string) :=
  fold_left (fun rows name => update_node_id (assoc_find ids name) name rows) names rows.

Definition disk_binds (r : DiskMetrics.t) : bool :=
  forallb int64
    [ DiskMetrics.used_bytes r; DiskMetrics.available_bytes r;
      DiskMetrics.trash_bytes r; DiskMetrics.overused_bytes r ].

Definition bandwidth_binds (r : BandwidthMetrics.t) : bool :=
  forallb int64 [ BandwidthMetrics.used_bytes r; BandwidthMetrics.available_bytes r ].

Definition health_binds (r : HealthMetrics.t) : bool :=
  forallb int64 [ HealthMetrics.uptime_seconds r; HealthMetrics.satellites_count r ].

(** The statements of [store_metrics], in the order of the source: the
    update of [nodes], the three plain inserts, the four upserts. *)
Definition store_statements (names : list string) (m : Cycle.t) (db : Store.t)
    : result Store.t :=
  let nodes := update_node_ids names (Cycle.node_ids m) (Store.nodes db) in
  disk <- insert_loop disk_binds (Cycle.disk m) (Store.metrics_disk db) ;;
  bandwidth <- insert_loop bandwidth_binds (Cycle.bandwidth m) (Store.metrics_bandwidth db) ;;
  health <- insert_loop health_binds (Cycle.health m) (Store.metrics_health db) ;;
  upserted <-
    upsert_loops
      (mk_all_metrics (Cycle.daily_bandwidth m) (Cycle.daily_storage m)
         (Cycle.satellite_status m) (Cycle.daily_satellite m))
      (Store.upserted db) ;;
  Ok (Store.mk nodes disk bandwidth health upserted).

(** All of [store_metrics]. The statements run in one transaction, committed
    by the last line: [Some] is the database after the commit; [None] stands
    for an exception before it, which loses the update of [nodes] and every
    insert of the cycle. *)
Definition store_cycle (e : engine) (names : list string) (m : Cycle.t) (db : Store.t)
    : option Store.t :=
  match e with
  | Faulty => None
  | Sound =>
      match store_statements names m db with
      | Ok db' => Some db'
      | Raise _ => None
      end
  end.

(** [try: await self.store_metrics(all_metrics)] with its
    [except Exception], which logs: the database as the next cycle finds
    it. *)
Definition after_cycle (e : engine) (names : list string) (m : Cycle.t) (db : Store.t)
    : Store.t :=
  match store_cycle e names m db with
  | Some db' => db'
  | None => db
  end.

(** [collect_all_metrics], with the database before and after: the loop
    over the nodes, then the store, whose failure ends the cycle with the
    database being what it was. *)
Definition collect_all_metrics (e : engine) (B : builtins) (jobs : list Job.t)
    (db : Store.t) : Store.t :=
  after_cycle e (map Job.name jobs) (collect_loop B jobs) db.

(** What one job adds to the lists of the cycle. *)
Definition contribution (B : builtins) (job : Job.t) : Cycle.t :=
  collect_from B job Cycle.empty.

(** The rows that carry the node name [n], table by table. *)
Definition rows_of_node (n : string) (db : database)
    : list DailyBandwidthMetrics.t * list DailyStorageMetrics.t
      * list SatelliteStatus.t * list DailySatellite.t :=
  (filter (fun r => String.eqb (DailyBandwidthMetrics.node_name r) n)
     (metrics_daily_bandwidth db),
   filter (fun r => String.eqb (DailyStorageMetrics.node_name r) n)
     (metrics_daily_storage db),
   filter (fun r => String.eqb (SatelliteStatus.node_name r) n) (node_satellites db),
   filter (fun r => String.eqb (DailySatellite.node_name r) n)
     (metrics_daily_satellite db)).

(** Sample jobs: a node that answers, and a node that is down. *)
Definition sample_clock : Clock.t :=
  Clock.mk sample_now sample_now sample_now sample_now sample_now.

Definition sample_data : NodeData.t :=
  NodeData.mk (node_with [vetted_entry])
    [("used", 1500000000000); ("available", 500000000000); ("trash", 1000000)]
    [("used", 75000000000)]
    daily_info.

(** The same node with a [lastPinged] that does not parse. *)
Definition unpinged_data : NodeData.t :=
  NodeData.mk unpinged_node [("used", 1500000000000)] [("used", 75000000000)] daily_info.

Definition up_job : Job.t := Job.mk "node1" (Some sample_data) sample_clock.
Definition down_job : Job.t := Job.mk "node2" None sample_clock.
Definition unpinged_job : Job.t := Job.mk "node3" (Some unpinged_data) sample_clock.

(** The [nodes] table of a first start: two configured nodes, one of them
    with its id on record. *)
Definition sample_nodes : list (string * option string) :=
  [ ("node1", None); ("node2", Some "old_id_of_node2"); ("node3", None) ].

(** A database with rows of two nodes. *)
Definition two_node_database : database :=
  mk_database
    [first_reading; DailyBandwidthMetrics.mk "node2" 739507 1 2 3 4 5 6]
    [first_storage; DailyStorageMetrics.mk "node2" 739507 7 8]
    [first_status; other_node_status]
    [bandwidth_record;
     DailySatellite.mk "node2" saltlake 739507 0 0 1 2 3 4 5 tb_requirement 4].

Definition sample_store : Store.t := Store.mk sample_nodes [] [] [] two_node_database.

(** An entry of a daily list that gets past the guards of the extractions of
    the service: its interval start is truthy and gives a date. *)
Definition dated (B : builtins) (entry : dict) : bool :=
  truthy (dict_get entry "intervalStart" (PStr ""))
  && match interval_date B except_ValueError (dict_get entry "intervalStart" (PStr "")) with
     | Ok (Some _) => true
     | _ => false
     end.

(** Two bandwidth entries of the same day, as a satellite-info document that
    lists the traffic per satellite would hold them. *)
Definition second_bandwidth_entry : dict :=
  [ ("intervalStart", PStr "2025-09-14T00:00:00Z");
    ("egress", PDict [("usage", PInt 7)]); ("ingress", PDict [("usage", PInt 9)]) ].

Definition same_day_info : StorjSatelliteInfo :=
  mk_satellite_info (Some [storage_entry]) (Some [bandwidth_entry; second_bandwidth_entry]) [].

(** ** [storj_monitor/config.py]: [Settings.validate_nodes] *)

Module NodeConfig.
Record t : Type := mk {
  name : string;
  dashboard_url : string
}.
End NodeConfig.

(** [url.startswith(('http://', 'https://'))] *)
Definition http_url (url : string) : bool :=
  String.prefix "http://" url || String.prefix "https://" url.

(** [len(set(node_names))] is the number of distinct names. *)
Definition validate_nodes (nodes : list NodeConfig.t) : result unit :=
  match nodes with
  | [] => Raise ValueError
  | _ :: _ =>
      let node_names := map NodeConfig.name nodes in
      if negb (List.length node_names =? List.length (nodup string_dec node_names))%nat
      then Raise ValueError
      else if forallb (fun node => http_url (NodeConfig.dashboard_url node)) nodes
           then Ok tt
           else Raise ValueError
  end.

(** The nodes of the sample configuration, and the same with a name used
    twice. *)
Definition sample_nodes_config : list NodeConfig.t :=
  [ NodeConfig.mk "node1" "http://192.168.1.10:14002";
    NodeConfig.mk "node2" "https://storj.example.org" ].

Definition twice_named_config : list NodeConfig.t :=
  [ NodeConfig.mk "node1" "http://192.168.1.10:14002";
    NodeConfig.mk "node1" "http://192.168.1.11:14002" ].

(** ** A payload with a default in place of a value *)

(** [d[key] = v] on a decoded object: the item that [get] reads takes the new
    value where it stands; a key that is not there is added. *)
Fixpoint dict_put (d : dict) (key : string) (v : pyval) : dict :=
  match d with
  | [] => [(key, v)]
  | (k, x) :: rest =>
      if String.eqb k key then (k, v) :: rest else (k, x) :: dict_put rest key v
  end.

Definition with_audits (si : StorjSatelliteInfo) (entries : list dict)
    : StorjSatelliteInfo :=
  mk_satellite_info (storage_daily si) (bandwidth_daily si) entries.

(** The field [n] of a record holds [0] when the value that [obj] has at
    [key] does not coerce to an int. *)
Definition zero_on_failure (B : builtins) (obj : pyval) (key : string) (n : Z) : Prop :=
  forall g,
    obj = PDict g ->
    fails_to_coerce (py_int B (dict_get g key (PInt 0))) = true -> n = 0.

(** The same for the five counters that both daily extractions read from
    the [ingress] and [egress] objects of a bandwidth entry. *)
Definition bandwidth_defaults (B : builtins) (daily_bw : dict)
    (ingress_usage ingress_repair egress_usage egress_repair egress_audit : Z) : Prop :=
  zero_on_failure B (dict_get daily_bw "ingress" (PDict [])) "usage" ingress_usage
  /\ zero_on_failure B (dict_get daily_bw "ingress" (PDict [])) "repair" ingress_repair
  /\ zero_on_failure B (dict_get daily_bw "egress" (PDict [])) "usage" egress_usage
  /\ zero_on_failure B (dict_get daily_bw "egress" (PDict [])) "repair" egress_repair
  /\ zero_on_failure B (dict_get daily_bw "egress" (PDict [])) "audit" egress_audit.

(** A satellite entry whose [vettingProgress] is text, and a day of traffic
    and of storage with text, [null] and [NaN] where numbers belong. *)
Definition garbled_progress_entry : dict :=
  [ ("id", PStr saltlake); ("vettingProgress", PStr "n/a");
    ("currentMonthIngress", PInt 2147483648000) ].

Definition garbled_bandwidth_entry : dict :=
  [ ("intervalStart", PStr "2025-09-14T00:00:00Z"); ("satelliteId", PStr saltlake);
    ("egress", PDict [("usage", PStr "n/a")]);
    ("ingress", PDict [("usage", PInt 9)]);
    ("delete", PNone) ].

Definition garbled_storage_entry : dict :=
  [ ("intervalStart", PStr "2025-09-14T00:00:00Z"); ("satelliteId", PStr saltlake);
    ("atRestTotal", PFloat S754_nan); ("atRestTotalBytes", PStr "n/a") ].

Definition garbled_daily_info : StorjSatelliteInfo :=
  mk_satellite_info (Some [garbled_storage_entry]) (Some [garbled_bandwidth_entry]) [].

(** Two audit entries that [_update_satellite_scores] and the health
    extraction cannot tell apart: the same identifier, and the same result of
    [safe_float] for each score. *)
Definition alike (B : builtins) (a a' : dict) : Prop :=
  dict_get a "satelliteID" PNone = dict_get a' "satelliteID" PNone
  /\ forall key,
      In key ["auditScore"; "suspensionScore"; "onlineScore"] ->
      safe_float B (dict_get a key (PFloat f_one)) f_zero
      = safe_float B (dict_get a' key (PFloat f_one)) f_zero.

Definition alike_maps (B : builtins) (m m' : list (string * dict)) : Prop :=
  Forall2 (fun p q => fst p = fst q /\ alike B (snd p) (snd q)) m m'.

(** A second bandwidth entry for the satellite and the day of
    [bandwidth_entry], with the metric the bandwidth pass builds from it. *)
Definition repeated_bandwidth_entry : dict :=
  [ ("intervalStart", PStr "2025-09-14T12:00:00Z"); ("satelliteId", PStr saltlake);
    ("egress", PDict [("usage", PInt 9)]); ("ingress", PDict [("usage", PInt 7)]) ].

Definition repeated_record : DailySatellite.t :=
  DailySatellite.mk "node1" saltlake 739507 0 0 7 0 9 0 0 tb_requirement 16.

Definition repeated_info : StorjSatelliteInfo :=
  mk_satellite_info (Some [storage_entry])
    (Some [bandwidth_entry; repeated_bandwidth_entry]) [].

(** * Properties *)

(** ** The error monad and the loops *)

Lemma bind_Ok_inv {A C : Type} (c : result A) (k : A -> result C) (b : C) :
  bind c k = Ok b -> exists a, c = Ok a /\ k a = Ok b.
Proof.
  destruct c as [a | e]; simpl; intros H.
  - exists a. split; [reflexivity | exact H].
  - discriminate H.
Qed.

(** Splits a hypothesis [x <- c ;; k = Ok b] into the two steps. *)
Ltac bind_inv H :=
  let a := fresh "a" in
  let Ha := fresh "Ha" in
  apply bind_Ok_inv in H; destruct H as [a [Ha H]].

Lemma collect_acc {A : Type} (body : dict -> result (option A)) (entries : list dict) :
  forall acc rs,
    collect body entries acc = Ok rs -> rs = acc ++ outputs body entries.
Proof.
  induction entries as [| entry rest IH]; simpl; intros acc rs H.
  - injection H as <-. now rewrite app_nil_r.
  - destruct (body entry) as [[m |] | e]; simpl in H.
    + apply IH in H. now rewrite H, <- app_assoc.
    + apply IH in H. exact H.
    + discriminate H.
Qed.

Lemma collect_all_ok {A : Type} (body : dict -> result (option A)) (entries : list dict) :
  forall acc rs,
    collect body entries acc = Ok rs ->
    Forall (fun entry => exists o, body entry = Ok o) entries.
Proof.
  induction entries as [| entry rest IH]; simpl; intros acc rs H.
  - constructor.
  - destruct (body entry) as [o | e] eqn:E; simpl in H.
    + constructor; [now exists o | eapply IH; exact H].
    + discriminate H.
Qed.

(** An entry on which the body reaches [continue] leaves no trace. *)
Lemma collect_skip {A : Type} (body : dict -> result (option A)) (entry : dict) :
  body entry = Ok None ->
  forall before after acc,
    collect body (before ++ entry :: after) acc = collect body (before ++ after) acc.
Proof.
  intros Hskip before.
  induction before as [| e rest IH]; simpl; intros after acc.
  - now rewrite Hskip.
  - destruct (body e) as [o | x]; simpl; [apply IH | reflexivity].
Qed.

Lemma collect_Forall {A : Type} (body : dict -> result (option A)) (P : A -> Prop) :
  (forall entry m, body entry = Ok (Some m) -> P m) ->
  forall entries acc rs,
    Forall P acc -> collect body entries acc = Ok rs -> Forall P rs.
Proof.
  intros Hbody entries.
  induction entries as [| entry rest IH]; simpl; intros acc rs Hacc H.
  - now injection H as <-.
  - destruct (body entry) as [[m |] | e] eqn:E; simpl in H.
    + eapply IH; [| exact H]. apply Forall_app. split; [exact Hacc |].
      constructor; [eapply Hbody; exact E | constructor].
    + eapply IH; eassumption.
    + discriminate H.
Qed.

(** The records in the order of the entries that yield one. *)
Lemma collect_Forall2 {A : Type} (body : dict -> result (option A))
    (keeps : dict -> bool) :
  (forall entry, body entry = Ok None -> keeps entry = false) ->
  (forall entry m, body entry = Ok (Some m) -> keeps entry = true) ->
  forall entries rs,
    collect body entries [] = Ok rs ->
    Forall2 (fun entry m => body entry = Ok (Some m)) (filter keeps entries) rs.
Proof.
  intros Hnone Hsome entries rs H.
  pose proof (collect_all_ok _ _ _ _ H) as Hall.
  apply collect_acc in H. simpl in H. subst rs.
  induction Hall as [| entry rest [o Ho] _ IH]; simpl.
  - constructor.
  - rewrite Ho. destruct o as [m |].
    + rewrite (Hsome _ _ Ho). simpl. constructor; [exact Ho | exact IH].
    + rewrite (Hnone _ Ho). exact IH.
Qed.

(** ** [extract_satellite_status], entry by entry *)

Section StatusFacts.

Variable B : builtins.

Lemma known_satellite_Some (v : pyval) sid info :
  known_satellite v = Ok (Some (sid, info)) ->
  v = PStr sid /\ assoc_find KNOWN_SATELLITES sid = Some info.
Proof.
  destruct v; unfold known_satellite; try discriminate.
  destruct (assoc_find KNOWN_SATELLITES s) eqn:E; [| discriminate].
  intros H. injection H as <- <-. now split.
Qed.

Lemma known_satellite_None (v : pyval) :
  known_satellite v = Ok None -> registered_value v = false.
Proof.
  destruct v; unfold known_satellite, registered_value, registered;
    try discriminate; try reflexivity.
  destruct (assoc_find KNOWN_SATELLITES s); [discriminate | reflexivity].
Qed.

(** An identifier that hashes and is no key of the registry fails the
    membership test without an error. *)
Lemma known_satellite_unregistered (v : pyval) :
  hashable v = true -> registered_value v = false -> known_satellite v = Ok None.
Proof.
  destruct v; unfold known_satellite, registered_value, registered, hashable;
    try discriminate; try reflexivity.
  intros _. destruct (assoc_find KNOWN_SATELLITES s); [discriminate | reflexivity].
Qed.

(** Everything the loop body fixes about the status it appends. *)
Lemma satellite_status_of_Some node ts d r :
  satellite_status_of B node ts d = Ok (Some r) ->
  dict_get d "id" (PStr "") = PStr (SatelliteStatus.satellite_id r)
  /\ registered (SatelliteStatus.satellite_id r) = true
  /\ SatelliteStatus.is_vetted r = negb (is_none (dict_get d "vettedAt" PNone))
  /\ (if SatelliteStatus.is_vetted r
      then parse_or_none B (dict_get d "vettedAt" PNone)
      else Ok None) = Ok (SatelliteStatus.vetted_at r)
  /\ (if SatelliteStatus.is_vetted r then Ok f_one
      else _calculate_vetting_progress B d false) = Ok (SatelliteStatus.vetting_progress r)
  /\ safe_int B (dict_get d "currentMonthEgress" (PInt 0)) 0
       = Ok (SatelliteStatus.current_month_egress r)
  /\ safe_int B (dict_get d "currentMonthIngress" (PInt 0)) 0
       = Ok (SatelliteStatus.current_month_ingress r).
Proof.
  unfold satellite_status_of. intros H.
  bind_inv H. destruct a as [[sid [name region]] |]; [| discriminate H].
  apply known_satellite_Some in Ha. destruct Ha as [Hid Hreg].
  bind_inv H. bind_inv H. bind_inv H. bind_inv H. bind_inv H.
  injection H as <-.
  cbn [SatelliteStatus.satellite_id SatelliteStatus.is_vetted
       SatelliteStatus.vetted_at SatelliteStatus.vetting_progress
       SatelliteStatus.current_month_egress SatelliteStatus.current_month_ingress].
  destruct (is_none (dict_get d "vettedAt" PNone)); cbn [negb] in *.
  all: repeat split; try assumption.
  all: unfold registered; now rewrite Hreg.
Qed.

Lemma satellite_status_of_known node ts d r :
  satellite_status_of B node ts d = Ok (Some r) -> known_entry d = true.
Proof.
  intros H. apply satellite_status_of_Some in H.
  destruct H as [Hid [Hreg _]]. unfold known_entry. now rewrite Hid.
Qed.

Lemma satellite_status_of_None node ts d :
  satellite_status_of B node ts d = Ok None -> known_entry d = false.
Proof.
  unfold satellite_status_of, known_entry. intros H.
  bind_inv H. destruct a as [[sid [name region]] |].
  - repeat bind_inv H. discriminate H.
  - now apply known_satellite_None.
Qed.

(** The entry of an unknown satellite takes the [continue]. *)
Lemma satellite_status_of_unregistered node ts d :
  hashable (dict_get d "id" (PStr "")) = true ->
  known_entry d = false ->
  satellite_status_of B node ts d = Ok None.
Proof.
  unfold satellite_status_of, known_entry. intros Hh Hu.
  now rewrite (known_satellite_unregistered _ Hh Hu).
Qed.

(** The score pass touches the three scores only. *)
Lemma update_status_fields amap st r :
  update_status B amap st = Ok r ->
  SatelliteStatus.satellite_id r = SatelliteStatus.satellite_id st
  /\ SatelliteStatus.is_vetted r = SatelliteStatus.is_vetted st
  /\ SatelliteStatus.vetting_progress r = SatelliteStatus.vetting_progress st
  /\ SatelliteStatus.vetted_at r = SatelliteStatus.vetted_at st
  /\ SatelliteStatus.current_month_egress r = SatelliteStatus.current_month_egress st
  /\ SatelliteStatus.current_month_ingress r = SatelliteStatus.current_month_ingress st.
Proof.
  unfold update_status.
  destruct (assoc_find amap (SatelliteStatus.satellite_id st)); intros H.
  - repeat bind_inv H. injection H as <-. simpl. repeat split.
  - injection H as <-. repeat split.
Qed.

Lemma update_loop_Forall2 amap sts rs :
  update_loop B amap sts = Ok rs ->
  Forall2 (fun st r => update_status B amap st = Ok r) sts rs.
Proof.
  revert rs. induction sts as [| st rest IH]; simpl; intros rs H.
  - injection H as <-. constructor.
  - bind_inv H. bind_inv H. injection H as <-.
    constructor; [assumption | now apply IH].
Qed.

Lemma update_loop_empty_map sts : update_loop B [] sts = Ok sts.
Proof.
  induction sts as [| st rest IH]; simpl; [reflexivity |].
  unfold update_status. simpl. now rewrite IH.
Qed.

(** The shape of a successful extraction: one status per known entry, in
    order, each the status of the loop body after the score pass over the
    audit map. *)
Lemma extract_satellite_status_inv node ts ni si rs :
  extract_satellite_status B node ts ni si = Ok rs ->
  exists amap,
    build_audit_map (audits si) [] = Ok amap
    /\ Forall2 (fun d r => exists r0,
                  satellite_status_of B node ts d = Ok (Some r0)
                  /\ update_status B amap r0 = Ok r)
         (filter known_entry (or_empty (satellites ni))) rs.
Proof.
  unfold extract_satellite_status. intros H. bind_inv H.
  assert (Hloop : Forall2 (fun d r0 => satellite_status_of B node ts d = Ok (Some r0))
                    (filter known_entry (or_empty (satellites ni))) a).
  { destruct (satellites ni) as [[| e es] |]; simpl or_empty.
    - injection Ha as <-. constructor.
    - apply collect_Forall2 with (keeps := known_entry) in Ha; [exact Ha | |].
      + intros entry. apply satellite_status_of_None.
      + intros entry m. apply satellite_status_of_known.
    - injection Ha as <-. constructor. }
  destruct (audits si) as [| au aus] eqn:Eau.
  - injection H as <-. exists []. split; [reflexivity |].
    eapply Forall2_impl; [| exact Hloop].
    intros d r0 Hd. exists r0. split; [exact Hd | reflexivity].
  - unfold _update_satellite_scores in H. bind_inv H.
    exists a0. split; [exact Ha0 |].
    apply update_loop_Forall2 in H.
    clear Ha Ha0 Eau. revert rs H.
    induction Hloop as [| d r0 ds rs0 Hd _ IH]; intros rs H.
    + inversion H. constructor.
    + inversion H as [| ? r ? rs' Hr Hrest]; subst.
      constructor; [exists r0; now split | now apply IH].
Qed.

End StatusFacts.

(** ** Vetting status and progress *)

Section VettingFacts.

Variable B : builtins.

Lemma dict_get_absent (d : dict) key v :
  dict_has d key = false -> dict_get d key v = v.
Proof.
  induction d as [| [k x] rest IH]; simpl; [reflexivity |].
  destruct (String.eqb k key); simpl; [discriminate | exact IH].
Qed.

Lemma dict_get_present (d : dict) key v w :
  dict_has d key = true -> dict_get d key v = dict_get d key w.
Proof.
  induction d as [| [k x] rest IH]; simpl; [discriminate |].
  destruct (String.eqb k key); simpl; [reflexivity | exact IH].
Qed.

(** A positive value is left alone by the lower bound of the clamp. *)
Lemma clamp01_positive (x : float) :
  f_gtb x f_zero = true -> clamp01 x = py_min x f_one.
Proof.
  intros Hx. unfold clamp01, py_max.
  assert (H : f_gtb (py_min x f_one) f_zero = true).
  { unfold py_min. destruct (f_ltb f_one x); [reflexivity | exact Hx]. }
  now rewrite H.
Qed.

(** The heuristic of the code is the fallback of the specification, errors
    included. *)
Lemma calculate_vetting_progress_fallback (d : dict) :
  _calculate_vetting_progress B d false = fallback_progress B d.
Proof.
  unfold _calculate_vetting_progress, fallback_progress, bandwidth_estimate.
  destruct (dict_has d "vettingProgress") eqn:Hhas.
  - rewrite (dict_get_present d "vettingProgress" (PFloat f_zero) PNone Hhas).
    destruct (safe_float B (dict_get d "vettingProgress" PNone) f_zero) as [x | e];
      simpl; [| reflexivity].
    destruct (f_gtb x f_zero) eqn:Hx.
    + now rewrite clamp01_positive.
    + destruct (safe_int B (dict_get d "currentMonthIngress" (PInt 0)) 0); simpl;
        [| reflexivity].
      destruct (safe_int B (dict_get d "currentMonthEgress" (PInt 0)) 0); simpl;
        [| reflexivity].
      now rewrite Z.gtb_ltb.
  - rewrite (dict_get_absent d "vettingProgress" _ Hhas). simpl.
    destruct (safe_int B (dict_get d "currentMonthIngress" (PInt 0)) 0); simpl;
      [| reflexivity].
    destruct (safe_int B (dict_get d "currentMonthEgress" (PInt 0)) 0); simpl;
      [| reflexivity].
    now rewrite Z.gtb_ltb.
Qed.

End VettingFacts.

(** C1, as the specification states it, fails: the end-to-end scenario of the
    specification itself yields a status that is not vetted and whose
    progress equals [1.0]. *)
Lemma vetted_iff_full_progress_refuted :
  ~ (forall B node ts ni si rs,
        extract_satellite_status B node ts ni si = Ok rs ->
        Forall vetted_iff_full_progress rs).
Proof.
  intros H.
  specialize (H Reference.runtime "node1" sample_now
                (node_with [busy_unvetted_entry]) (satellite_info_with []) _ eq_refl).
  inversion H as [| r rs Hr _]; subst.
  destruct Hr as [_ Hr]. discriminate (Hr eq_refl).
Qed.

(** C1 (amended): in every status that [extract_satellite_status] returns,
    [is_vetted] implies that [vetting_progress] is [1.0]. The converse does not
    hold: the fallback of a satellite that is not vetted reaches [1.0] too. *)
Theorem vetted_implies_full_progress :
  forall B node ts ni si rs,
    extract_satellite_status B node ts ni si = Ok rs ->
    Forall (fun r => SatelliteStatus.is_vetted r = true ->
                     SatelliteStatus.vetting_progress r = f_one) rs.
Proof.
  intros B node ts ni si rs H.
  apply extract_satellite_status_inv in H. destruct H as [amap [_ H]].
  induction H as [| d r ds rs' [r0 [Hbody Hupd]] _ IH]; constructor; [| exact IH].
  apply update_status_fields in Hupd.
  destruct Hupd as [_ [Hv [Hp _]]]. rewrite Hv, Hp. intros Hvet.
  apply satellite_status_of_Some in Hbody.
  destruct Hbody as [_ [_ [_ [_ [Hprog _]]]]].
  rewrite Hvet in Hprog. now injection Hprog as <-.
Qed.

Lemma vetted_implies_full_progress_witness :
  exists rs,
    extract_satellite_status Reference.runtime "node1" sample_now
      (node_with [vetted_entry; busy_unvetted_entry]) (satellite_info_with []) = Ok rs
    /\ Forall (fun r => SatelliteStatus.is_vetted r = true ->
                        SatelliteStatus.vetting_progress r = f_one) rs.
Proof.
  eexists. split.
  - vm_compute. reflexivity.
  - apply (vetted_implies_full_progress Reference.runtime "node1" sample_now
             (node_with [vetted_entry; busy_unvetted_entry]) (satellite_info_with [])).
    vm_compute. reflexivity.
Defined.

(** C2: a known satellite entry without [vettedAt] (absent, or [null], which
    [get] does not tell apart) gets a status with [is_vetted] false whose
    progress is the fallback of the specification: the explicit
    [vettingProgress] if present and positive, clamped to [[0, 1]]; else
    [min((ingress + egress) / (1 GiB * 100), 1.0)] for a positive total; else
    [0.0]. The statuses stand in the order of the known entries. *)
Theorem unvetted_progress_is_fallback :
  forall B node ts ni si rs,
    extract_satellite_status B node ts ni si = Ok rs ->
    Forall2 (fun d r =>
               dict_get d "vettedAt" PNone = PNone ->
               SatelliteStatus.is_vetted r = false
               /\ fallback_progress B d = Ok (SatelliteStatus.vetting_progress r))
      (filter known_entry (or_empty (satellites ni))) rs.
Proof.
  intros B node ts ni si rs H.
  apply extract_satellite_status_inv in H. destruct H as [amap [_ H]].
  eapply Forall2_impl; [| exact H].
  intros d r [r0 [Hbody Hupd]] Habsent.
  apply update_status_fields in Hupd.
  destruct Hupd as [_ [Hv [Hp _]]]. rewrite Hv, Hp.
  apply satellite_status_of_Some in Hbody.
  destruct Hbody as [_ [_ [Hvet [_ [Hprog _]]]]].
  rewrite Habsent in Hvet. simpl in Hvet. rewrite Hvet in Hprog.
  split; [exact Hvet |].
  now rewrite <- calculate_vetting_progress_fallback.
Qed.

Lemma unvetted_progress_is_fallback_witness :
  exists rs,
    extract_satellite_status Reference.runtime "node1" sample_now
      (node_with [fresh_entry; busy_unvetted_entry]) (satellite_info_with []) = Ok rs
    /\ Forall2 (fun d r =>
                  dict_get d "vettedAt" PNone = PNone ->
                  SatelliteStatus.is_vetted r = false
                  /\ fallback_progress Reference.runtime d
                     = Ok (SatelliteStatus.vetting_progress r))
         (filter known_entry
            (or_empty (satellites (node_with [fresh_entry; busy_unvetted_entry])))) rs.
Proof.
  eexists. split.
  - vm_compute. reflexivity.
  - apply (unvetted_progress_is_fallback Reference.runtime "node1" sample_now
             (node_with [fresh_entry; busy_unvetted_entry]) (satellite_info_with [])).
    vm_compute. reflexivity.
Defined.

(** ** [extract_daily_satellite_metrics], entry by entry *)

Section DailyFacts.

Variable B : builtins.

(** A [str] either parses or raises [ValueError]; nothing else. *)
Lemma timestamp_of_str (s : string) :
  (exists dt, timestamp_to_datetime B (PStr s) = Ok dt)
  \/ timestamp_to_datetime B (PStr s) = Raise ValueError.
Proof.
  unfold timestamp_to_datetime.
  destruct (fromisoformat B (str_replace s "Z" "+00:00")) as [dt |].
  - left. now exists dt.
  - destruct (fromisoformat B _) as [dt |]; [left; eexists; reflexivity | now right].
Qed.

(** Anything else has no [replace] method. *)
Lemma timestamp_of_non_str (v : pyval) :
  (forall s, v <> PStr s) -> timestamp_to_datetime B v = Raise AttributeError.
Proof.
  intros H. destruct v; try reflexivity. now destruct (H s).
Qed.

(** On a string, both [except] clauses of the callers see every failure. *)
Lemma interval_date_of_str classes (s : string) :
  classes ValueError = true ->
  exists o, interval_date B classes (PStr s) = Ok o.
Proof.
  intros Hc. unfold interval_date.
  destruct (timestamp_of_str s) as [[dt ->] | ->]; simpl.
  - eexists; reflexivity.
  - rewrite Hc. eexists; reflexivity.
Qed.

Lemma bandwidth_metric_Some node d m :
  bandwidth_metric B node d = Ok (Some m) ->
  registered (DailySatellite.satellite_id m) = true
  /\ dict_get d "satelliteId" PNone = PStr (DailySatellite.satellite_id m)
  /\ interval_date B except_ValueError_TypeError (dict_get d "intervalStart" (PStr ""))
     = Ok (Some (DailySatellite.date m))
  /\ DailySatellite.storage_used_bytes m = 0
  /\ DailySatellite.storage_at_rest_bytes m = 0.
Proof.
  unfold bandwidth_metric. intros H.
  destruct (truthy (dict_get d "intervalStart" (PStr ""))); simpl in H; [| discriminate H].
  bind_inv H. destruct a as [metric_date |]; [| discriminate H].
  destruct (truthy (dict_get d "satelliteId" PNone)); simpl in H; [| discriminate H].
  bind_inv H. destruct a as [[sid info] |]; [| discriminate H].
  apply known_satellite_Some in Ha0. destruct Ha0 as [Hid Hreg].
  repeat bind_inv H. injection H as <-.
  cbn [DailySatellite.satellite_id DailySatellite.date
       DailySatellite.storage_used_bytes DailySatellite.storage_at_rest_bytes].
  repeat split; try assumption.
  unfold registered. now rewrite Hreg.
Qed.

Lemma storage_key_Some d sid metric_date :
  storage_key B d = Ok (Some (sid, metric_date)) ->
  registered sid = true.
Proof.
  unfold storage_key. intros H.
  destruct (truthy (dict_get d "intervalStart" (PStr ""))); simpl in H; [| discriminate H].
  bind_inv H. destruct a as [date0 |]; [| discriminate H].
  destruct (truthy (dict_get d "satelliteId" PNone)); simpl in H; [| discriminate H].
  bind_inv H. destruct a as [[sid0 info] |]; [| discriminate H].
  apply known_satellite_Some in Ha0. destruct Ha0 as [_ Hreg].
  injection H as <- <-. unfold registered. now rewrite Hreg.
Qed.

(** The guards shared by the two loops, on an entry whose satellite is not
    in the registry. *)
Lemma guards_unregistered (d : dict) :
  str_or_falsy (dict_get d "intervalStart" (PStr "")) = true ->
  falsy_or_hashable (dict_get d "satelliteId" PNone) = true ->
  registered_value (dict_get d "satelliteId" PNone) = false ->
  (forall node, bandwidth_metric B node d = Ok None) /\ storage_key B d = Ok None.
Proof.
  intros Hstart Hid Hunreg.
  unfold bandwidth_metric, storage_key.
  destruct (truthy (dict_get d "intervalStart" (PStr ""))) eqn:Ht; simpl;
    [| now split].
  destruct (dict_get d "intervalStart" (PStr "")) as [| | | | s | |];
    try (unfold str_or_falsy in Hstart; rewrite Ht in Hstart; discriminate Hstart).
  destruct (interval_date_of_str except_ValueError_TypeError s eq_refl) as [o ->].
  simpl. destruct o as [metric_date |]; [| now split].
  unfold falsy_or_hashable in Hid.
  destruct (truthy (dict_get d "satelliteId" PNone)); simpl in *; [| now split].
  rewrite (known_satellite_unregistered _ Hid Hunreg). simpl. now split.
Qed.

Lemma storage_loop_skip node (d : dict) :
  storage_key B d = Ok None ->
  forall before after acc,
    storage_loop B node (before ++ d :: after) acc
    = storage_loop B node (before ++ after) acc.
Proof.
  intros Hskip before.
  induction before as [| e rest IH]; simpl; intros after acc.
  - now rewrite Hskip.
  - destruct (storage_key B e) as [[[sid md] |] | x]; simpl; try reflexivity.
    + destruct (safe_int B (dict_get e "atRestTotalBytes" (PInt 0)) 0); simpl;
        [apply IH | reflexivity].
    + apply IH.
Qed.

Lemma merge_storage_Forall (P : DailySatellite.t -> Prop) node sid md bytes :
  (forall m, P m -> P (DailySatellite.set_storage m bytes)) ->
  P (DailySatellite.mk node sid md bytes bytes 0 0 0 0 0 tb_requirement 0) ->
  forall acc, Forall P acc -> Forall P (merge_storage acc node sid md bytes).
Proof.
  intros Hset Hnew acc Hacc.
  induction Hacc as [| m rest Hm Hrest IH]; simpl.
  - now constructor.
  - destruct (same_key m sid md); constructor; auto.
Qed.

(** An invariant of the metrics that the update of an existing metric and the
    appended storage-only metric both respect holds at the end of the storage
    loop. *)
Lemma storage_loop_Forall (P : DailySatellite.t -> Prop) node :
  (forall m bytes, P m -> P (DailySatellite.set_storage m bytes)) ->
  (forall sid md bytes,
      registered sid = true ->
      P (DailySatellite.mk node sid md bytes bytes 0 0 0 0 0 tb_requirement 0)) ->
  forall entries acc ms,
    Forall P acc -> storage_loop B node entries acc = Ok ms -> Forall P ms.
Proof.
  intros Hset Hnew entries.
  induction entries as [| d rest IH]; simpl; intros acc ms Hacc H.
  - now injection H as <-.
  - bind_inv H. destruct a as [[sid md] |].
    + bind_inv H. eapply IH; [| exact H].
      apply merge_storage_Forall; auto.
      apply Hnew. eapply storage_key_Some; exact Ha.
    + eapply IH; eassumption.
Qed.

Lemma extract_daily_satellite_Forall (P : DailySatellite.t -> Prop) node si ms :
  (forall d m, bandwidth_metric B node d = Ok (Some m) -> P m) ->
  (forall m bytes, P m -> P (DailySatellite.set_storage m bytes)) ->
  (forall sid md bytes,
      registered sid = true ->
      P (DailySatellite.mk node sid md bytes bytes 0 0 0 0 0 tb_requirement 0)) ->
  extract_daily_satellite_metrics B node si = Ok ms -> Forall P ms.
Proof.
  intros Hbw Hset Hnew H. unfold extract_daily_satellite_metrics in H.
  bind_inv H.
  eapply storage_loop_Forall; [exact Hset | exact Hnew | | exact H].
  eapply collect_Forall; [exact Hbw | constructor | exact Ha].
Qed.

(** Where the storage fields of a metric come from: they are equal, and
    either still the [0] of the bandwidth pass or the at-rest bytes of a
    storage entry of the same satellite and day. *)
Lemma storage_loop_source (from_entry : dict -> Prop) node entries :
  (forall st, In st entries -> from_entry st) ->
  let sourced m :=
    DailySatellite.storage_used_bytes m = DailySatellite.storage_at_rest_bytes m
    /\ (DailySatellite.storage_used_bytes m = 0
        \/ exists st,
            from_entry st
            /\ storage_key B st
               = Ok (Some (DailySatellite.satellite_id m, DailySatellite.date m))
            /\ safe_int B (dict_get st "atRestTotalBytes" (PInt 0)) 0
               = Ok (DailySatellite.storage_used_bytes m)) in
  forall acc ms,
    Forall sourced acc -> storage_loop B node entries acc = Ok ms -> Forall sourced ms.
Proof.
  intros Hfrom sourced.
  induction entries as [| d rest IH]; simpl; intros acc ms Hacc H.
  - now injection H as <-.
  - bind_inv H. destruct a as [[sid md] |].
    + bind_inv H.
      apply (IH (fun st Hst => Hfrom st (or_intror Hst)) _ _) in H; [exact H |].
      clear H. induction Hacc as [| m ms' Hm Hms' IHacc]; simpl.
      * constructor; [| constructor]. split; [reflexivity |].
        right. exists d. simpl. repeat split; auto. apply Hfrom. now left.
      * destruct (same_key m sid md) eqn:Ek.
        -- constructor; [| assumption]. split; [reflexivity |].
           right. exists d. simpl.
           unfold same_key in Ek. apply andb_true_iff in Ek. destruct Ek as [Es Ed].
           apply String.eqb_eq in Es. apply Z.eqb_eq in Ed. rewrite Es, Ed.
           repeat split; auto. apply Hfrom. now left.
        -- constructor; assumption.
    + apply (IH (fun st Hst => Hfrom st (or_intror Hst)) _ _ Hacc H).
Qed.

End DailyFacts.

(** C10: in every record that [extract_daily_satellite_metrics] returns the
    two storage fields are equal. They are both [0], as the bandwidth pass set
    them, or both the at-rest byte count of a storage entry of the same
    satellite and day, which the storage pass wrote into the two fields
    together. *)
Theorem storage_fields_agree :
  forall B node si ms,
    extract_daily_satellite_metrics B node si = Ok ms ->
    Forall (fun m =>
              DailySatellite.storage_used_bytes m = DailySatellite.storage_at_rest_bytes m
              /\ (DailySatellite.storage_used_bytes m = 0
                  \/ exists st,
                      In st (or_empty (storage_daily si))
                      /\ storage_key B st
                         = Ok (Some (DailySatellite.satellite_id m, DailySatellite.date m))
                      /\ safe_int B (dict_get st "atRestTotalBytes" (PInt 0)) 0
                         = Ok (DailySatellite.storage_used_bytes m))) ms.
Proof.
  intros B node si ms H. unfold extract_daily_satellite_metrics in H.
  bind_inv H.
  apply (storage_loop_source B (fun st => In st (or_empty (storage_daily si)))
           node (or_empty (storage_daily si)) (fun st Hst => Hst) a ms);
    [| exact H].
  eapply collect_Forall; [| constructor | exact Ha].
  intros d m Hm. apply bandwidth_metric_Some in Hm.
  destruct Hm as [_ [_ [_ [Hu Hr]]]]. rewrite Hu, Hr. auto.
Qed.

Lemma storage_fields_agree_witness :
  exists ms,
    extract_daily_satellite_metrics Reference.runtime "node1" daily_info = Ok ms
    /\ Forall (fun m =>
                 DailySatellite.storage_used_bytes m = DailySatellite.storage_at_rest_bytes m
                 /\ (DailySatellite.storage_used_bytes m = 0
                     \/ exists st,
                         In st (or_empty (storage_daily daily_info))
                         /\ storage_key Reference.runtime st
                            = Ok (Some (DailySatellite.satellite_id m, DailySatellite.date m))
                         /\ safe_int Reference.runtime
                              (dict_get st "atRestTotalBytes" (PInt 0)) 0
                            = Ok (DailySatellite.storage_used_bytes m))) ms.
Proof.
  eexists. split.
  - vm_compute. reflexivity.
  - apply (storage_fields_agree Reference.runtime "node1" daily_info).
    vm_compute. reflexivity.
Defined.

(** ** Satellites outside the registry *)

Section RegistryFacts.

Variable B : builtins.

Lemma status_pass_collect node ts (sats : option (list dict)) :
  match sats with
  | Some (e :: es) => collect (satellite_status_of B node ts) (e :: es) []
  | _ => Ok []
  end = collect (satellite_status_of B node ts) (or_empty sats) [].
Proof. destruct sats as [[| e es] |]; reflexivity. Qed.

Lemma extract_satellite_status_registered node ts ni si rs :
  extract_satellite_status B node ts ni si = Ok rs ->
  Forall (fun r => registered (SatelliteStatus.satellite_id r) = true) rs.
Proof.
  intros H. apply extract_satellite_status_inv in H. destruct H as [amap [_ H]].
  induction H as [| d r ds rs' [r0 [Hbody Hupd]] _ IH]; constructor; [| exact IH].
  apply update_status_fields in Hupd. destruct Hupd as [-> _].
  apply satellite_status_of_Some in Hbody. tauto.
Qed.

Lemma extract_daily_satellite_registered node si ms :
  extract_daily_satellite_metrics B node si = Ok ms ->
  Forall (fun m => registered (DailySatellite.satellite_id m) = true) ms.
Proof.
  intros H.
  eapply extract_daily_satellite_Forall; [| | | exact H].
  - intros d m Hm. apply bandwidth_metric_Some in Hm. tauto.
  - intros m bytes Hm. exact Hm.
  - intros sid md bytes Hreg. exact Hreg.
Qed.

Lemma status_entry_dropped node ts ni si entry before after :
  hashable (dict_get entry "id" (PStr "")) = true ->
  known_entry entry = false ->
  extract_satellite_status B node ts (with_satellites ni (before ++ entry :: after)) si
  = extract_satellite_status B node ts (with_satellites ni (before ++ after)) si.
Proof.
  intros Hh Hu. unfold extract_satellite_status.
  rewrite !status_pass_collect. simpl.
  now rewrite (collect_skip _ _ (satellite_status_of_unregistered B node ts entry Hh Hu)).
Qed.

Lemma daily_entry_dropped node si entry before after :
  str_or_falsy (dict_get entry "intervalStart" (PStr "")) = true ->
  falsy_or_hashable (dict_get entry "satelliteId" PNone) = true ->
  registered_value (dict_get entry "satelliteId" PNone) = false ->
  extract_daily_satellite_metrics B node (with_bandwidth_daily si (before ++ entry :: after))
  = extract_daily_satellite_metrics B node (with_bandwidth_daily si (before ++ after))
  /\ extract_daily_satellite_metrics B node (with_storage_daily si (before ++ entry :: after))
     = extract_daily_satellite_metrics B node (with_storage_daily si (before ++ after)).
Proof.
  intros Hs Hi Hu.
  destruct (guards_unregistered B entry Hs Hi Hu) as [Hbw Hst].
  unfold extract_daily_satellite_metrics. simpl. split.
  - now rewrite (collect_skip _ _ (Hbw node)).
  - destruct (collect (bandwidth_metric B node) (or_empty (bandwidth_daily si)) []);
      simpl; [| reflexivity].
    now apply storage_loop_skip.
Qed.

End RegistryFacts.

(** C3, as stated, fails: the identifier of an entry can be any JSON value,
    and the membership test raises [TypeError] on an array, which is not in
    the registry either. *)
Lemma unknown_satellite_raises :
  known_entry array_id_entry = false
  /\ extract_satellite_status Reference.runtime "node1" sample_now
       (node_with [array_id_entry]) (satellite_info_with []) = Raise TypeError.
Proof. split; reflexivity. Qed.

(** C3 (amended): no record returned by [extract_satellite_status] or
    [extract_daily_satellite_metrics] carries a satellite identifier from
    outside [KNOWN_SATELLITES]. An entry whose identifier is a hashable value
    (a string, a number, a boolean, [null]) that is not in the registry is
    dropped without an error: the result, errors of other entries included,
    is that of the document without the entry. In the daily lists this holds
    for an entry whose interval start is a string or falsy and whose
    identifier is hashable or falsy. *)
Theorem unknown_satellites_dropped :
  forall B node ts ni si entry daily_entry before after,
    (forall rs,
        extract_satellite_status B node ts ni si = Ok rs ->
        Forall (fun r => registered (SatelliteStatus.satellite_id r) = true) rs)
    /\ (forall ms,
        extract_daily_satellite_metrics B node si = Ok ms ->
        Forall (fun m => registered (DailySatellite.satellite_id m) = true) ms)
    /\ (hashable (dict_get entry "id" (PStr "")) = true ->
        known_entry entry = false ->
        extract_satellite_status B node ts
          (with_satellites ni (before ++ entry :: after)) si
        = extract_satellite_status B node ts (with_satellites ni (before ++ after)) si)
    /\ (str_or_falsy (dict_get daily_entry "intervalStart" (PStr "")) = true ->
        falsy_or_hashable (dict_get daily_entry "satelliteId" PNone) = true ->
        registered_value (dict_get daily_entry "satelliteId" PNone) = false ->
        extract_daily_satellite_metrics B node
          (with_bandwidth_daily si (before ++ daily_entry :: after))
        = extract_daily_satellite_metrics B node
            (with_bandwidth_daily si (before ++ after))
        /\ extract_daily_satellite_metrics B node
             (with_storage_daily si (before ++ daily_entry :: after))
           = extract_daily_satellite_metrics B node
               (with_storage_daily si (before ++ after))).
Proof.
  intros B node ts ni si entry daily_entry before after.
  split; [| split; [| split]].
  - intros rs. apply extract_satellite_status_registered.
  - intros ms. apply extract_daily_satellite_registered.
  - apply status_entry_dropped.
  - apply daily_entry_dropped.
Qed.

Lemma unknown_satellites_dropped_witness :
  (exists rs,
      extract_satellite_status Reference.runtime "node1" sample_now
        (node_with [stranger_entry; vetted_entry]) (satellite_info_with []) = Ok rs
      /\ Forall (fun r => registered (SatelliteStatus.satellite_id r) = true) rs)
  /\ (exists ms,
      extract_daily_satellite_metrics Reference.runtime "node1" daily_info = Ok ms
      /\ Forall (fun m => registered (DailySatellite.satellite_id m) = true) ms)
  /\ (hashable (dict_get stranger_entry "id" (PStr "")) = true
      /\ known_entry stranger_entry = false
      /\ extract_satellite_status Reference.runtime "node1" sample_now
           (with_satellites (node_with []) ([vetted_entry] ++ stranger_entry :: [fresh_entry]))
           (satellite_info_with [])
         = extract_satellite_status Reference.runtime "node1" sample_now
             (with_satellites (node_with []) ([vetted_entry] ++ [fresh_entry]))
             (satellite_info_with []))
  /\ (str_or_falsy (dict_get stranger_daily_entry "intervalStart" (PStr "")) = true
      /\ falsy_or_hashable (dict_get stranger_daily_entry "satelliteId" PNone) = true
      /\ registered_value (dict_get stranger_daily_entry "satelliteId" PNone) = false
      /\ extract_daily_satellite_metrics Reference.runtime "node1"
           (with_storage_daily daily_info
              ([storage_entry] ++ stranger_daily_entry :: [next_day_storage_entry]))
         = extract_daily_satellite_metrics Reference.runtime "node1"
             (with_storage_daily daily_info ([storage_entry] ++ [next_day_storage_entry]))).
Proof.
  split; [| split; [| split]].
  - eexists. split; [vm_compute; reflexivity |].
    apply (proj1 (unknown_satellites_dropped Reference.runtime "node1" sample_now
                    (node_with [stranger_entry; vetted_entry]) (satellite_info_with [])
                    stranger_entry stranger_daily_entry [] [])).
    vm_compute. reflexivity.
  - eexists. split; [vm_compute; reflexivity |].
    apply (proj1 (proj2 (unknown_satellites_dropped Reference.runtime "node1" sample_now
                           (node_with []) daily_info
                           stranger_entry stranger_daily_entry [] []))).
    vm_compute. reflexivity.
  - split; [reflexivity | split; [reflexivity |]].
    apply (proj1 (proj2 (proj2 (unknown_satellites_dropped Reference.runtime "node1"
                                  sample_now (node_with []) (satellite_info_with [])
                                  stranger_entry stranger_daily_entry
                                  [vetted_entry] [fresh_entry]))));
      reflexivity.
  - split; [reflexivity | split; [reflexivity | split; [reflexivity |]]].
    apply (proj2 (proj2 (proj2 (unknown_satellites_dropped Reference.runtime "node1"
                                  sample_now (node_with []) daily_info
                                  stranger_entry stranger_daily_entry
                                  [storage_entry] [next_day_storage_entry]))));
      reflexivity.
Defined.

(** ** Timestamps that are not strings *)

(** C9 (the code contradicts it): a known satellite whose [vettedAt] holds a
    number in place of a string. The [except (ValueError, TypeError)] around
    the parser does not see the [AttributeError] of [timestamp_str.replace],
    so the extraction raises and returns no status at all. *)
Theorem numeric_vetted_at_raises :
  forall B node ts si,
    extract_satellite_status B node ts (node_with [epoch_vetted_entry]) si
    = Raise AttributeError.
Proof. intros B node ts si. reflexivity. Qed.

(** What C9 says does hold for a [vettedAt] that is a string: when it does not
    parse, the status is vetted with full progress and no [vetted_at]. *)
Lemma unparseable_vetted_at_string :
  forall B node ts ni si rs,
    extract_satellite_status B node ts ni si = Ok rs ->
    Forall2 (fun d r =>
               forall s,
                 dict_get d "vettedAt" PNone = PStr s ->
                 timestamp_to_datetime B (PStr s) = Raise ValueError ->
                 SatelliteStatus.is_vetted r = true
                 /\ SatelliteStatus.vetting_progress r = f_one
                 /\ SatelliteStatus.vetted_at r = None)
      (filter known_entry (or_empty (satellites ni))) rs.
Proof.
  intros B node ts ni si rs H.
  apply extract_satellite_status_inv in H. destruct H as [amap [_ H]].
  eapply Forall2_impl; [| exact H].
  intros d r [r0 [Hbody Hupd]] s Hs Hfail.
  apply update_status_fields in Hupd.
  destruct Hupd as [_ [Hv [Hp [Ha _]]]]. rewrite Hv, Hp, Ha.
  apply satellite_status_of_Some in Hbody.
  destruct Hbody as [_ [_ [Hvet [Hat [Hprog _]]]]].
  rewrite Hs in Hvet, Hat. simpl in Hvet. rewrite Hvet in Hat, Hprog.
  unfold parse_or_none in Hat. rewrite Hfail in Hat. simpl in Hat.
  injection Hat as <-. injection Hprog as <-. auto.
Qed.

(** C7 (the code contradicts it): an interval start that is a number, not a
    string. It passes the truth test, [timestamp_str.replace] raises
    [AttributeError], and neither [except ValueError] (service) nor
    [except (ValueError, TypeError)] (satellite extractor) catches it: each of
    the three extractions raises instead of skipping the entry. *)
Theorem numeric_interval_start_raises :
  forall B node,
    extract_daily_bandwidth_metrics B node epoch_interval_info = Raise AttributeError
    /\ extract_daily_storage_metrics B node epoch_interval_info = Raise AttributeError
    /\ extract_daily_satellite_metrics B node epoch_interval_info = Raise AttributeError.
Proof. intros B node. repeat split. Qed.

(** What C7 says does hold for a missing or falsy interval start and for a
    string that does not parse: the entry is skipped by all the loops. *)
Lemma unusable_interval_start_skipped :
  forall B node d,
    truthy (dict_get d "intervalStart" (PStr "")) = false
    \/ (exists s, dict_get d "intervalStart" (PStr "") = PStr s
                  /\ timestamp_to_datetime B (PStr s) = Raise ValueError) ->
    daily_bandwidth_of B node d = Ok None
    /\ daily_storage_of B node d = Ok None
    /\ bandwidth_metric B node d = Ok None
    /\ storage_key B d = Ok None.
Proof.
  intros B node d H.
  unfold daily_bandwidth_of, daily_storage_of, bandwidth_metric, storage_key.
  destruct H as [Hf | [s [Hs Hfail]]].
  - rewrite Hf. simpl. repeat split.
  - rewrite Hs. destruct (truthy (PStr s)); simpl; [| repeat split].
    unfold interval_date. rewrite Hfail. simpl. repeat split.
Qed.

(** ** Numeric fields that do not coerce *)

Section CoercionFacts.

Variable B : builtins.

Lemma safe_int_default (v : pyval) (default : Z) :
  fails_to_coerce (py_int B v) = true -> safe_int B v default = Ok default.
Proof.
  unfold safe_int, try_except.
  destruct (py_int B v) as [n | []]; simpl; intros H; try discriminate H; reflexivity.
Qed.

Lemma safe_float_default (v : pyval) (default : float) :
  fails_to_coerce (py_float B v) = true -> safe_float B v default = Ok default.
Proof.
  unfold safe_float, try_except.
  destruct (py_float B v) as [x | []]; simpl; intros H; try discriminate H; reflexivity.
Qed.

(** The scores of a status whose satellite has an audit entry. *)
Lemma update_status_scores amap st r audit :
  update_status B amap st = Ok r ->
  assoc_find amap (SatelliteStatus.satellite_id st) = Some audit ->
  safe_float B (dict_get audit "auditScore" (PFloat f_one)) f_zero
    = Ok (SatelliteStatus.audit_score r)
  /\ safe_float B (dict_get audit "suspensionScore" (PFloat f_one)) f_zero
    = Ok (SatelliteStatus.suspension_score r)
  /\ safe_float B (dict_get audit "onlineScore" (PFloat f_one)) f_zero
    = Ok (SatelliteStatus.online_score r).
Proof.
  unfold update_status. intros H Hfind. rewrite Hfind in H.
  repeat bind_inv H. injection H as <-. simpl. auto.
Qed.

Lemma scores_of_Forall2 key (entries : list dict) xs :
  scores_of B key entries = Ok xs ->
  Forall2 (fun audit x =>
             safe_float B (dict_get audit key (PFloat f_one)) f_zero = Ok x)
    entries xs.
Proof.
  revert xs. induction entries as [| audit rest IH]; simpl; intros xs H.
  - injection H as <-. constructor.
  - bind_inv H. bind_inv H. injection H as <-.
    constructor; [assumption | now apply IH].
Qed.

End CoercionFacts.

(** C4, as stated, fails for the scores: an audit score that does not coerce
    is stored as [0.0], not as [1.0]. *)
Lemma garbled_score_is_zero :
  fails_to_coerce (py_float Reference.runtime (dict_get garbled_audit "auditScore" (PFloat f_one)))
  = true
  /\ exists r,
      extract_satellite_status Reference.runtime "node1" sample_now
        (node_with [vetted_entry]) (satellite_info_with [garbled_audit]) = Ok [r]
      /\ SatelliteStatus.audit_score r = f_zero
      /\ f_eqb (SatelliteStatus.audit_score r) f_one = false.
Proof.
  split; [reflexivity |].
  eexists. split; [vm_compute; reflexivity |].
  split; reflexivity.
Qed.

(** The amended claim is proved at the end of this file, after the facts
    about the daily records it draws on. *)

(** ** Uptime *)

(** The quotient of two integers rounds to a number: the mantissa stays
    non-negative through the shifts and the rounding. *)
Lemma shr_1_nonneg (mrs : shr_record) :
  0 <= shr_m mrs -> 0 <= shr_m (shr_1 mrs).
Proof.
  destruct mrs as [m r s]. simpl.
  destruct m as [| p | p]; [| destruct p | destruct p]; simpl; lia.
Qed.

Lemma iter_shr_1_nonneg (p : positive) :
  forall mrs, 0 <= shr_m mrs -> 0 <= shr_m (iter_pos shr_1 p mrs).
Proof.
  induction p as [p IH | p IH |]; simpl; intros mrs H.
  - apply IH, IH, shr_1_nonneg, H.
  - apply IH, IH, H.
  - apply shr_1_nonneg, H.
Qed.

Lemma shr_fexp_nonneg (m e : Z) (l : location) :
  0 <= m -> 0 <= shr_m (fst (shr_fexp prec emax m e l)).
Proof.
  intros H. unfold shr_fexp, shr.
  assert (H0 : 0 <= shr_m (shr_record_of_loc m l)).
  { destruct l as [| []]; exact H. }
  destruct (fexp prec emax (Zdigits2 m + e) - e) as [| p | p]; simpl;
    [exact H0 | apply iter_shr_1_nonneg, H0 | exact H0].
Qed.

Lemma round_nearest_even_nonneg (m : Z) (l : location) :
  0 <= m -> 0 <= round_nearest_even m l.
Proof.
  intros H. destruct l as [| []]; simpl; try lia.
  destruct (Z.even m); lia.
Qed.

Lemma binary_round_aux_not_nan (s : bool) (m e : Z) (l : location) :
  0 <= m -> binary_round_aux prec emax s m e l <> S754_nan.
Proof.
  intros H. unfold binary_round_aux.
  pose proof (shr_fexp_nonneg m e l H) as H1.
  destruct (shr_fexp prec emax m e l) as [mrs' e']. simpl in H1.
  pose proof (shr_fexp_nonneg _ e' loc_Exact
                (round_nearest_even_nonneg _ (loc_of_shr_record mrs') H1)) as H2.
  destruct (shr_fexp prec emax _ e' loc_Exact) as [mrs'' e'']. simpl in H2.
  destruct (shr_m mrs'') as [| p | p]; try discriminate.
  - destruct (e'' <=? emax - prec); discriminate.
  - lia.
Qed.

Lemma SFdiv_integers_not_nan (a b : Z) :
  b <> 0 -> SFdiv prec emax (exact_of_Z a) (exact_of_Z b) <> S754_nan.
Proof.
  intros Hb.
  destruct a as [| pa | pa], b as [| pb | pb]; try (now destruct Hb); try discriminate.
  all: unfold exact_of_Z, SFdiv.
  all: destruct (SFdiv_core_binary prec emax (Z.pos pa) 0 (Z.pos pb) 0)
         as [[mz ez] lz] eqn:E.
  all: apply binary_round_aux_not_nan.
  all: unfold SFdiv_core_binary in E.
  all: match type of E with
       | (let '(q0, r0) := Z.div_eucl ?n ?d in _) = _ =>
           assert (Hn : 0 <= n);
           [ | pose proof (Z_div_mod n d ltac:(lia)) as Hdm;
               destruct (Z.div_eucl n d) as [q0 r0]; injection E as <- _ _; nia ]
       end.
  all: match goal with
       | |- 0 <= match ?s with _ => _ end =>
           destruct s; try lia; apply Z.shiftl_nonneg; lia
       end.
Qed.

(** [a / b] yields a finite float or raises [OverflowError]. *)
Lemma int_truediv_cases (a b : Z) :
  b <> 0 ->
  int_truediv a b = Raise OverflowError
  \/ exists x, int_truediv a b = Ok x
               /\ x <> S754_nan /\ (forall s, x <> S754_infinity s).
Proof.
  intros Hb. unfold int_truediv.
  destruct (Z.eqb_spec b 0) as [-> | _]; [now destruct Hb |].
  pose proof (SFdiv_integers_not_nan a b Hb) as Hnan.
  destruct (SFdiv prec emax (exact_of_Z a) (exact_of_Z b)) as [s | s | | s m e];
    simpl.
  - right. eexists. repeat split; discriminate.
  - now left.
  - now destruct Hnan.
  - right. eexists. repeat split; discriminate.
Qed.

Lemma whole_seconds_cases (delta : Z) :
  whole_seconds delta = Raise OverflowError \/ exists n, whole_seconds delta = Ok n.
Proof.
  unfold whole_seconds, total_seconds.
  destruct (int_truediv_cases delta 1000000 ltac:(lia)) as [-> | [x [-> [Hnan Hinf]]]].
  - now left.
  - right. simpl. destruct x as [s | s | | s m e].
    + now exists 0.
    + now destruct (Hinf s).
    + now destruct Hnan.
    + eexists. reflexivity.
Qed.

(** *** The float division against the integer quotient *)

Lemma shr_1_value (mrs : shr_record) :
  0 <= shr_m mrs -> shr_m (shr_1 mrs) = shr_m mrs / 2.
Proof.
  destruct mrs as [m r s]. simpl. intros H.
  destruct m as [| p | p]; [reflexivity | | lia].
  destruct p as [p | p |]; simpl.
  - rewrite Pos2Z.inj_xI. apply Z.div_unique with (r := 1); lia.
  - rewrite Pos2Z.inj_xO. apply Z.div_unique with (r := 0); lia.
  - reflexivity.
Qed.

Lemma iter_shr_1_value (p : positive) :
  forall mrs, 0 <= shr_m mrs ->
    shr_m (iter_pos shr_1 p mrs) = shr_m mrs / 2 ^ Z.pos p.
Proof.
  induction p as [p IH | p IH |]; intros mrs H; cbn [iter_pos].
  - rewrite IH, IH, shr_1_value by
      (try apply iter_shr_1_nonneg; try apply shr_1_nonneg; assumption).
    rewrite !Z.div_div by (try apply Z.pow_pos_nonneg; lia).
    f_equal. change 2 with (2 ^ 1) at 1.
    rewrite <- !Z.pow_add_r by lia. f_equal. lia.
  - rewrite IH, IH by (try apply iter_shr_1_nonneg; assumption).
    rewrite !Z.div_div by (try apply Z.pow_pos_nonneg; lia).
    f_equal. rewrite <- Z.pow_add_r by lia. f_equal. lia.
  - rewrite shr_1_value by assumption. reflexivity.
Qed.

Lemma shr_value (mrs : shr_record) (e n : Z) :
  0 <= shr_m mrs ->
  snd (shr mrs e n) = e + Z.max 0 n
  /\ shr_m (fst (shr mrs e n)) = shr_m mrs / 2 ^ Z.max 0 n.
Proof.
  intros H. unfold shr. destruct n as [| p | p]; simpl.
  - split; [lia | now rewrite Z.div_1_r].
  - split; [lia |]. rewrite iter_shr_1_value by assumption. f_equal.
  - split; [lia | now rewrite Z.div_1_r].
Qed.

Lemma digits2_pos_size (p : positive) : digits2_pos p = Pos.size p.
Proof. induction p; simpl; congruence. Qed.

Lemma Zdigits2_bound (m k : Z) : 0 <= k -> 0 <= m < 2 ^ k -> Zdigits2 m <= k.
Proof.
  intros Hk [H0 H]. destruct m as [| p | p]; simpl; [lia | | lia].
  rewrite digits2_pos_size.
  pose proof (Pos.size_le p) as Hs.
  destruct (Z.le_gt_cases (Z.pos (Pos.size p)) k) as [|Hgt]; [assumption | exfalso].
  assert (2 ^ (k + 1) <= 2 ^ Z.pos (Pos.size p)) by (apply Z.pow_le_mono_r; lia).
  assert (2 ^ Z.pos (Pos.size p) <= 2 * Z.pos p).
  { change (2 * Z.pos p) with (Z.pos p~0). rewrite <- Pos2Z.inj_pow. 
    apply Pos2Z.pos_le_pos. exact Hs. }
  rewrite Z.pow_add_r in * by lia. lia.
Qed.

Lemma Zdigits2_nonneg m : 0 <= Zdigits2 m.
Proof. destruct m; simpl; lia. Qed.

Lemma round_nearest_even_cases (m : Z) (l : location) :
  round_nearest_even m l = m \/ round_nearest_even m l = m + 1.
Proof.
  destruct l as [| []]; simpl; auto. destruct (Z.even m); auto.
Qed.

Lemma shr_fexp_value (m e : Z) (l : location) :
  0 <= m ->
  let k := Z.max 0 (fexp prec emax (Zdigits2 m + e) - e) in
  snd (shr_fexp prec emax m e l) = e + k
  /\ shr_m (fst (shr_fexp prec emax m e l)) = m / 2 ^ k.
Proof.
  intros H k. unfold shr_fexp.
  assert (Hm : shr_m (shr_record_of_loc m l) = m) by (destruct l as [| []]; reflexivity).
  pose proof (shr_value (shr_record_of_loc m l) e
                (fexp prec emax (Zdigits2 m + e) - e)) as Hv.
  rewrite Hm in Hv. apply Hv. exact H.
Qed.

(** The shift that brings a mantissa below [2 ^ d] to the format. *)
Lemma fexp_shift_bound (m e d : Z) :
  0 <= m < 2 ^ d -> 53 <= d -> -1074 <= e ->
  0 <= Z.max 0 (fexp prec emax (Zdigits2 m + e) - e) <= d - 53.
Proof.
  intros Hm Hd He.
  pose proof (Zdigits2_bound m d ltac:(lia) Hm) as Hb.
  unfold fexp, emin, prec, emax. lia.
Qed.

(** Rounding a mantissa with [N] fractional bits whose fraction is not
    among the top ones, then truncating, gives the integer part. *)
Lemma binary_round_aux_floor (s : bool) (m N : Z) (l : location) :
  0 <= m < 2 ^ 54 -> 3 <= N <= 1074 -> m mod 2 ^ N + 2 < 2 ^ N ->
  trunc_float (binary_round_aux prec emax s m (- N) l)
  = Ok (if s then - (m / 2 ^ N) else m / 2 ^ N).
Proof.
  intros Hm HN Hfrac. unfold binary_round_aux.
  pose proof (shr_fexp_value m (- N) l ltac:(lia)) as [He1 Hm1].
  pose proof (fexp_shift_bound m (- N) 54 Hm ltac:(lia) ltac:(lia)) as Hk1.
  set (k1 := Z.max 0 (fexp prec emax (Zdigits2 m + - N) - - N)) in *.
  destruct (shr_fexp prec emax m (- N) l) as [mrs1 e1]. simpl in He1, Hm1.
  assert (H2N : 0 < 2 ^ N) by (apply Z.pow_pos_nonneg; lia).
  assert (H2k1 : 0 < 2 ^ k1) by (apply Z.pow_pos_nonneg; lia).
  assert (Hm1b : 0 <= shr_m mrs1 <= m).
  { rewrite Hm1. split; [apply Z.div_pos; lia |].
    apply Z.div_le_upper_bound; [lia |]. nia. }
  set (m1r := round_nearest_even (shr_m mrs1) (loc_of_shr_record mrs1)).
  assert (Hm1r : 0 <= m1r < 2 ^ 55).
  { unfold m1r.
    destruct (round_nearest_even_cases (shr_m mrs1) (loc_of_shr_record mrs1)) as [-> | ->].
    - change (2 ^ 55) with (2 * 2 ^ 54). lia.
    - change (2 ^ 55) with (2 * 2 ^ 54). lia. }
  pose proof (shr_fexp_value m1r e1 loc_Exact ltac:(lia)) as [He2 Hm2].
  pose proof (fexp_shift_bound m1r e1 55 Hm1r ltac:(lia) ltac:(lia)) as Hk2.
  set (k2 := Z.max 0 (fexp prec emax (Zdigits2 m1r + e1) - e1)) in *.
  destruct (shr_fexp prec emax m1r e1 loc_Exact) as [mrs2 e2]. simpl in He2, Hm2.
  assert (H2k2 : 0 < 2 ^ k2) by (apply Z.pow_pos_nonneg; lia).
  (* the integer part survives the shifts and the rounding *)
  assert (Hfloor : shr_m mrs2 / 2 ^ (- e2) = m / 2 ^ N).
  { rewrite Hm2, Z.div_div by (try apply Z.pow_pos_nonneg; lia).
    rewrite <- Z.pow_add_r by lia.
    replace (k2 + - e2) with (N - k1) by lia.
    assert (Hstep : shr_m mrs1 / 2 ^ (N - k1) = m / 2 ^ N).
    { rewrite Hm1, Z.div_div by (try apply Z.pow_pos_nonneg; lia).
      rewrite <- Z.pow_add_r by lia. f_equal. f_equal. lia. }
    unfold m1r.
    destruct (round_nearest_even_cases (shr_m mrs1) (loc_of_shr_record mrs1)) as [-> | ->];
      [exact Hstep |].
    rewrite <- Hstep.
    assert (HD : 0 < 2 ^ (N - k1)) by (apply Z.pow_pos_nonneg; lia).
    assert (Hmod : shr_m mrs1 mod 2 ^ (N - k1) + 1 < 2 ^ (N - k1)).
    { assert (Hk : k1 = 0 \/ k1 = 1) by lia.
      destruct Hk as [Hk | Hk]; rewrite Hk in *.
      - rewrite Z.sub_0_r. rewrite Hm1, Z.pow_0_r, Z.div_1_r. lia.
      - rewrite Hm1. change (2 ^ 1) with 2.
        assert (E : 2 ^ N = 2 * 2 ^ (N - 1)).
        { replace N with (1 + (N - 1)) at 1 by lia. now rewrite Z.pow_add_r by lia. }
        rewrite E in Hfrac.
        pose proof (Z.div_mod m (2 * 2 ^ (N - 1)) ltac:(lia)) as Hdm.
        pose proof (Z.mod_pos_bound m (2 * 2 ^ (N - 1)) ltac:(lia)) as Hmb.
        set (Q := m / (2 * 2 ^ (N - 1))) in *.
        set (f := m mod (2 * 2 ^ (N - 1))) in *.
        set (D := 2 ^ (N - 1)) in *.
        assert (Hm2' : m / 2 = Q * D + f / 2).
        { rewrite Hdm. replace (2 * D * Q + f) with (f + (Q * D) * 2) by lia.
          rewrite Z.div_add by lia. lia. }
        rewrite Hm2'.
        replace (Q * D + f / 2) with (f / 2 + Q * D) by lia.
        rewrite Z.mod_add by lia.
        assert (0 <= f / 2 <= D - 2).
        { split; [apply Z.div_pos; lia |].
          apply Z.lt_succ_r. apply Z.div_lt_upper_bound; lia. }
        rewrite Z.mod_small by lia. lia. }
    pose proof (Z.div_mod (shr_m mrs1) (2 ^ (N - k1)) ltac:(lia)) as Hdm.
    pose proof (Z.mod_pos_bound (shr_m mrs1) (2 ^ (N - k1)) ltac:(lia)) as Hmb.
    symmetry.
    apply Z.div_unique with (r := shr_m mrs1 mod 2 ^ (N - k1) + 1); lia. }
  assert (Hm2b : 0 <= shr_m mrs2).
  { rewrite Hm2. apply Z.div_pos; lia. }
  destruct (shr_m mrs2) as [| p | p] eqn:Ep; [| | lia].
  - simpl. rewrite Z.div_0_l in Hfloor by (apply Z.pow_nonzero; lia).
    rewrite <- Hfloor. now destruct s.
  - assert (Hle : (e2 <=? emax - prec) = true).
    { apply Z.leb_le. unfold emax, prec. lia. }
    rewrite Hle. simpl.
    rewrite Z.shiftl_div_pow2 by lia. now rewrite Hfloor.
Qed.

Lemma Zdigits2_gt (p : positive) : Z.pos p < 2 ^ Zdigits2 (Z.pos p).
Proof.
  unfold Zdigits2. rewrite digits2_pos_size.
  rewrite <- Pos2Z.inj_pow. apply Pos2Z.pos_lt_pos. apply Pos.size_gt.
Qed.

(** The core of the division of a number of microseconds by [10 ^ 6]. *)
Lemma SFdiv_core_microseconds (p : positive) :
  Z.pos p < 2 ^ 52 ->
  exists q N l,
    SFdiv_core_binary prec emax (Z.pos p) 0 1000000 0 = (q, - N, l)
    /\ 21 <= N <= 72
    /\ 0 <= q < 2 ^ 54
    /\ q mod 2 ^ N + 2 < 2 ^ N
    /\ q / 2 ^ N = Z.pos p / 1000000.
Proof.
  intros Hp.
  pose proof (Zdigits2_bound (Z.pos p) 52 ltac:(lia) ltac:(lia)) as Hd.
  pose proof (Zdigits2_gt p) as Hgt.
  assert (Hd0 : 1 <= Zdigits2 (Z.pos p)) by (simpl; lia).
  unfold SFdiv_core_binary.
  change (Zdigits2 1000000) with 20.
  set (d := Zdigits2 (Z.pos p)) in *.
  assert (He : Z.min (fexp prec emax (d + 0 - (20 + 0))) (0 - 0) = - (73 - d)).
  { unfold fexp, emin, prec, emax. lia. }
  rewrite He.
  set (N := 73 - d) in *.
  replace (0 - 0 - - N) with N by lia.
  assert (HN : 21 <= N <= 72) by (unfold N; lia).
  assert (H2N : 0 < 2 ^ N) by (apply Z.pow_pos_nonneg; lia).
  assert (Hshift : match N with
                   | 0 => Z.pos p
                   | Z.pos _ => Z.shiftl (Z.pos p) N
                   | Z.neg _ => 0
                   end = Z.pos p * 2 ^ N).
  { destruct N as [| n | n] eqn:EN; try lia. rewrite Z.shiftl_mul_pow2 by lia. reflexivity. }
  rewrite Hshift.
  pose proof (Z_div_mod (Z.pos p * 2 ^ N) 1000000 ltac:(lia)) as Hdm.
  destruct (Z.div_eucl (Z.pos p * 2 ^ N) 1000000) as [q r] eqn:E.
  destruct Hdm as [Hq Hr].
  exists q, N, (new_location 1000000 r). split; [reflexivity |].
  split; [exact HN |].
  (* the quotient in terms of the whole seconds and the remaining microseconds *)
  pose proof (Z.div_mod (Z.pos p) 1000000 ltac:(lia)) as Hpq.
  pose proof (Z.mod_pos_bound (Z.pos p) 1000000 ltac:(lia)) as Hpr.
  set (Q := Z.pos p / 1000000) in *.
  set (R := Z.pos p mod 1000000) in *.
  assert (HQ0 : 0 <= Q) by (apply Z.div_pos; lia).
  set (f := (R * 2 ^ N) / 1000000).
  assert (Hq' : q = Q * 2 ^ N + f).
  { assert (Hqd : q = (Z.pos p * 2 ^ N) / 1000000).
    { apply Z.div_unique with (r := r); lia. }
    rewrite Hqd, Hpq.
    replace ((1000000 * Q + R) * 2 ^ N) with (R * 2 ^ N + (Q * 2 ^ N) * 1000000) by ring.
    rewrite Z.div_add by lia. unfold f. lia. }
  assert (H2b : 2 * 1000000 < 2 ^ N).
  { assert (2 ^ 21 <= 2 ^ N) by (apply Z.pow_le_mono_r; lia).
    change (2 ^ 21) with 2097152 in *. lia. }
  assert (Hf : 0 <= f /\ f + 2 < 2 ^ N).
  { unfold f. split; [apply Z.div_pos; nia |].
    assert ((R * 2 ^ N) / 1000000 < 2 ^ N - 2); [| lia].
    apply Z.div_lt_upper_bound; [lia |]. nia. }
  assert (Hmod : q mod 2 ^ N = f).
  { rewrite Hq'. replace (Q * 2 ^ N + f) with (f + Q * 2 ^ N) by lia.
    rewrite Z.mod_add by lia. apply Z.mod_small. lia. }
  assert (Hdiv : q / 2 ^ N = Q).
  { rewrite Hq'. replace (Q * 2 ^ N + f) with (f + Q * 2 ^ N) by lia.
    rewrite Z.div_add by lia. rewrite Z.div_small by lia. lia. }
  split; [| split; [rewrite Hmod; lia | exact Hdiv]].
  split; [lia |].
  (* q < 2 ^ 54 *)
  assert (Hp73 : Z.pos p * 2 ^ N < 2 ^ 73).
  { replace 73 with (d + N) by (unfold N; lia).
    rewrite Z.pow_add_r by lia. apply Z.mul_lt_mono_pos_r; lia. }
  assert (q * 1000000 <= Z.pos p * 2 ^ N) by lia.
  assert (2 ^ 73 < 2 ^ 54 * 1000000) by (vm_compute; reflexivity).
  nia.
Qed.

(** Below [2 ^ 52] microseconds, some 142 years, the rounding of the
    division never reaches the next integer: the uptime is the integer
    quotient, truncated toward zero. *)
Lemma whole_seconds_quot (delta : Z) :
  Z.abs delta < 2 ^ 52 -> whole_seconds delta = Ok (Z.quot delta 1000000).
Proof.
  intros Hd. unfold whole_seconds, total_seconds, int_truediv.
  change (1000000 =? 0) with false. cbv iota.
  destruct delta as [| p | p].
  - reflexivity.
  - destruct (SFdiv_core_microseconds p ltac:(lia)) as [q [N [l [Hcore [HN [Hq [Hfrac Hdiv]]]]]]].
    assert (Hres : SFdiv prec emax (exact_of_Z (Z.pos p)) (exact_of_Z 1000000)
                   = binary_round_aux prec emax false q (- N) l).
    { unfold SFdiv, exact_of_Z. rewrite Hcore. reflexivity. }
    rewrite Hres.
    pose proof (binary_round_aux_floor false q N l Hq ltac:(lia) Hfrac) as Ht.
    destruct (binary_round_aux prec emax false q (- N) l) as [s | s | | s m e];
      simpl in Ht |- *; try discriminate Ht.
    + rewrite Ht. f_equal. rewrite Hdiv. symmetry. apply Z.quot_div_nonneg; lia.
    + rewrite Ht. f_equal. rewrite Hdiv. symmetry. apply Z.quot_div_nonneg; lia.
  - destruct (SFdiv_core_microseconds p ltac:(lia)) as [q [N [l [Hcore [HN [Hq [Hfrac Hdiv]]]]]]].
    assert (Hres : SFdiv prec emax (exact_of_Z (Z.neg p)) (exact_of_Z 1000000)
                   = binary_round_aux prec emax true q (- N) l).
    { unfold SFdiv, exact_of_Z. rewrite Hcore. reflexivity. }
    rewrite Hres.
    pose proof (binary_round_aux_floor true q N l Hq ltac:(lia) Hfrac) as Ht.
    assert (Hquot : Z.quot (Z.neg p) 1000000 = - (q / 2 ^ N)).
    { rewrite Hdiv. change (Z.neg p) with (- Z.pos p).
      rewrite Z.quot_opp_l by lia. f_equal. apply Z.quot_div_nonneg; lia. }
    destruct (binary_round_aux prec emax true q (- N) l) as [s | s | | s m e];
      simpl in Ht |- *; try discriminate Ht.
    + rewrite Ht. now rewrite Hquot.
    + rewrite Ht. now rewrite Hquot.
Qed.

(** C8, as stated, fails: nothing clamps the difference, and a start time in
    the future gives a negative uptime. *)
Lemma future_start_negative_uptime :
  calculate_uptime_seconds Reference.runtime sample_now future_start = Ok (-2313018000)
  /\ -2313018000 < 0.
Proof. split; [vm_compute; reflexivity | lia]. Qed.

(** The slip next to it, kept out of the amended statement: a start time
    written without an offset parses at the first attempt and stays naive, the
    subtraction from the aware [now] raises [TypeError], and the uptime of a
    node started an hour ago is reported as [0]. *)
Lemma naive_start_gives_zero :
  (exists start, timestamp_to_datetime Reference.runtime naive_hour_ago_start = Ok start
                 /\ utcoffset start = None)
  /\ calculate_uptime_seconds Reference.runtime sample_now naive_hour_ago_start = Ok 0.
Proof.
  split; [eexists; split; vm_compute; reflexivity | vm_compute; reflexivity].
Qed.

(** C8 (amended): for a [started_at] string that parses to an aware datetime,
    [calculate_uptime_seconds] returns [int((now - started_at).total_seconds())]:
    the difference in whole seconds, truncated toward zero and not clamped.
    For a difference below [2 ^ 52] microseconds (some 142 years) this is the
    integer quotient of the microseconds by [10 ^ 6], hence negative as soon
    as the start lies a second or more after [now]. For a string that does
    not parse the function returns [0] and raises nothing. *)
Theorem uptime_of_string :
  forall B now s,
    (forall start off_now off_start,
        timestamp_to_datetime B (PStr s) = Ok start ->
        utcoffset now = Some off_now ->
        utcoffset start = Some off_start ->
        calculate_uptime_seconds B now (PStr s)
        = whole_seconds ((wall now - off_now) - (wall start - off_start))
        /\ (Z.abs ((wall now - off_now) - (wall start - off_start)) < 2 ^ 52 ->
            calculate_uptime_seconds B now (PStr s)
            = Ok (Z.quot ((wall now - off_now) - (wall start - off_start)) 1000000)
            /\ ((wall now - off_now) - (wall start - off_start) <= - 1000000 ->
                Z.quot ((wall now - off_now) - (wall start - off_start)) 1000000 < 0)))
    /\ (forall e,
        timestamp_to_datetime B (PStr s) = Raise e ->
        calculate_uptime_seconds B now (PStr s) = Ok 0).
Proof.
  intros B now s. split.
  - intros start off_now off_start Hparse Hnow Hstart.
    set (delta := wall now - off_now - (wall start - off_start)).
    assert (Hcalc : calculate_uptime_seconds B now (PStr s) = whole_seconds delta).
    { unfold calculate_uptime_seconds. rewrite Hparse. simpl.
      unfold datetime_sub. rewrite Hnow, Hstart. simpl.
      fold delta. fold (whole_seconds delta).
      destruct (whole_seconds_cases delta) as [-> | [n ->]]; reflexivity. }
    split; [exact Hcalc |].
    intros Hsmall. split.
    + rewrite Hcalc. now apply whole_seconds_quot.
    + intros Hneg.
      replace delta with (- (- delta)) by lia.
      rewrite Z.quot_opp_l by lia.
      rewrite Z.quot_div_nonneg by lia.
      assert (1 <= - delta / 1000000) by (apply Z.div_le_lower_bound; lia).
      lia.
  - intros e Hparse.
    destruct (timestamp_of_str B s) as [[dt Hdt] | Hv].
    + rewrite Hdt in Hparse. discriminate Hparse.
    + unfold calculate_uptime_seconds. rewrite Hv. reflexivity.
Qed.

Lemma uptime_of_string_witness :
  (timestamp_to_datetime Reference.runtime hour_ago_start
   = Ok (mk_datetime 63893484000000000 (Some 0))
   /\ utcoffset sample_now = Some 0
   /\ calculate_uptime_seconds Reference.runtime sample_now hour_ago_start = Ok 3600)
  /\ (timestamp_to_datetime Reference.runtime future_start
      = Ok (mk_datetime 66206505600000000 (Some 0))
      /\ calculate_uptime_seconds Reference.runtime sample_now future_start
         = Ok (Z.quot (-2313018000000000) 1000000)
      /\ Z.quot (-2313018000000000) 1000000 < 0)
  /\ (timestamp_to_datetime Reference.runtime (PStr "invalid") = Raise ValueError
      /\ calculate_uptime_seconds Reference.runtime sample_now (PStr "invalid") = Ok 0).
Proof.
  split; [| split].
  - split; [vm_compute; reflexivity |].
    split; [reflexivity |].
    apply (proj1 (proj2 (proj1 (uptime_of_string Reference.runtime sample_now
                                  "2025-09-14T22:00:00Z")
                           (mk_datetime 63893484000000000 (Some 0)) 0 0
                           ltac:(vm_compute; reflexivity) eq_refl eq_refl)
                    ltac:(vm_compute; reflexivity))).
  - split; [vm_compute; reflexivity |].
    pose proof (proj2 (proj1 (uptime_of_string Reference.runtime sample_now
                                "2099-01-01T00:00:00Z")
                         (mk_datetime 66206505600000000 (Some 0)) 0 0
                         ltac:(vm_compute; reflexivity) eq_refl eq_refl)
                  ltac:(vm_compute; reflexivity)) as [Hq Hn].
    split; [exact Hq | apply Hn; vm_compute; discriminate].
  - split; [vm_compute; reflexivity |].
    apply (proj2 (uptime_of_string Reference.runtime sample_now "invalid") ValueError).
    vm_compute. reflexivity.
Defined.

(** ** Merging the bandwidth and the storage of a day *)

Section MergeFacts.

Variable B : builtins.

Lemma same_key_set_storage m bytes sid md :
  same_key (DailySatellite.set_storage m bytes) sid md = same_key m sid md.
Proof. reflexivity. Qed.

Lemma set_storage_twice m b1 b2 :
  DailySatellite.set_storage (DailySatellite.set_storage m b1) b2
  = DailySatellite.set_storage m b2.
Proof. reflexivity. Qed.

Lemma same_key_other m sid md sid' md' :
  same_key m sid' md' = true -> (sid', md') <> (sid, md) -> same_key m sid md = false.
Proof.
  unfold same_key. intros H Hne.
  apply andb_true_iff in H. destruct H as [Hs Hd].
  apply String.eqb_eq in Hs. apply Z.eqb_eq in Hd.
  apply andb_false_iff.
  destruct (String.eqb_spec (DailySatellite.satellite_id m) sid) as [Es | Es];
    [| now left].
  right. apply Z.eqb_neq. intros Ed. apply Hne. congruence.
Qed.

(** A storage entry of another satellite or day leaves the metrics of the key
    as they are. *)
Lemma merge_storage_other_key node sid md sid' md' bytes :
  (sid', md') <> (sid, md) ->
  forall acc,
    filter (fun r => same_key r sid md) (merge_storage acc node sid' md' bytes)
    = filter (fun r => same_key r sid md) acc.
Proof.
  intros Hne acc. induction acc as [| m rest IH]; simpl.
  - assert (H : same_key (DailySatellite.mk node sid' md' bytes bytes 0 0 0 0 0
                            tb_requirement 0) sid md = false).
    { eapply same_key_other; [| exact Hne].
      unfold same_key. simpl. now rewrite String.eqb_refl, Z.eqb_refl. }
    now rewrite H.
  - destruct (same_key m sid' md') eqn:E; simpl.
    + rewrite same_key_set_storage.
      now rewrite (same_key_other _ _ _ _ _ E Hne).
    + destruct (same_key m sid md); [now rewrite IH | exact IH].
Qed.

(** A storage entry of the key updates the first metric of the key. *)
Lemma merge_storage_hit node sid md bytes m rest :
  forall acc,
    filter (fun r => same_key r sid md) acc = m :: rest ->
    filter (fun r => same_key r sid md) (merge_storage acc node sid md bytes)
    = DailySatellite.set_storage m bytes :: rest.
Proof.
  induction acc as [| x xs IH]; simpl; intros H; [discriminate H |].
  destruct (same_key x sid md) eqn:E; simpl.
  - rewrite same_key_set_storage, E. injection H as -> ->. reflexivity.
  - rewrite E. now apply IH.
Qed.

(** Without a metric of the key, the storage entry appends the only one. *)
Lemma merge_storage_miss node sid md bytes :
  forall acc,
    filter (fun r => same_key r sid md) acc = [] ->
    filter (fun r => same_key r sid md) (merge_storage acc node sid md bytes)
    = [DailySatellite.mk node sid md bytes bytes 0 0 0 0 0 tb_requirement 0].
Proof.
  induction acc as [| x xs IH]; simpl; intros H.
  - unfold same_key. simpl. now rewrite String.eqb_refl, Z.eqb_refl.
  - destruct (same_key x sid md) eqn:E; [discriminate H |].
    simpl. rewrite E. now apply IH.
Qed.

Lemma storage_loop_app node l1 l2 :
  forall acc,
    storage_loop B node (l1 ++ l2) acc
    = (ms <- storage_loop B node l1 acc ;; storage_loop B node l2 ms).
Proof.
  induction l1 as [| e rest IH]; simpl; intros acc; [reflexivity |].
  destruct (storage_key B e) as [[[sid md] |] | x]; simpl; try reflexivity.
  - destruct (safe_int B (dict_get e "atRestTotalBytes" (PInt 0)) 0); simpl;
      [apply IH | reflexivity].
  - apply IH.
Qed.

(** Storage entries of other keys do not touch the metrics of the key. *)
Lemma storage_loop_other_keys node sid md entries :
  (forall e, In e entries -> storage_key B e <> Ok (Some (sid, md))) ->
  forall acc ms,
    storage_loop B node entries acc = Ok ms ->
    filter (fun r => same_key r sid md) ms = filter (fun r => same_key r sid md) acc.
Proof.
  induction entries as [| e rest IH]; simpl; intros Hother acc ms H.
  - now injection H as <-.
  - bind_inv H. destruct a as [[sid' md'] |].
    + bind_inv H.
      rewrite (IH (fun e' He' => Hother e' (or_intror He')) _ _ H).
      apply merge_storage_other_key.
      intros Heq. apply (Hother e (or_introl eq_refl)). now rewrite Ha, Heq.
    + apply (IH (fun e' He' => Hother e' (or_intror He')) _ _ H).
Qed.

(** Whatever storage entries come, a single metric of the key stays single
    and keeps its bandwidth fields. *)
Lemma storage_loop_single node sid md entries :
  forall acc ms m,
    storage_loop B node entries acc = Ok ms ->
    filter (fun r => same_key r sid md) acc = [m] ->
    exists m',
      filter (fun r => same_key r sid md) ms = [m']
      /\ forall bytes, DailySatellite.set_storage m' bytes
                       = DailySatellite.set_storage m bytes.
Proof.
  induction entries as [| e rest IH]; simpl; intros acc ms m H Hacc.
  - injection H as <-. exists m. now split.
  - bind_inv H. destruct a as [[sid' md'] |].
    + bind_inv H.
      destruct (string_dec sid' sid) as [Es | Es];
        [destruct (Z.eq_dec md' md) as [Ed | Ed] |].
      * subst sid' md'.
        destruct (IH _ _ (DailySatellite.set_storage m a) H
                    (merge_storage_hit node sid md a m [] acc Hacc)) as [m' [Hf Hs]].
        exists m'. split; [exact Hf |].
        intros bytes. now rewrite Hs, set_storage_twice.
      * apply (IH _ _ m H). rewrite merge_storage_other_key; [exact Hacc | congruence].
      * apply (IH _ _ m H). rewrite merge_storage_other_key; [exact Hacc | congruence].
    + apply (IH _ _ m H Hacc).
Qed.

Lemma outputs_app {A : Type} (body : dict -> result (option A)) l1 l2 :
  outputs body (l1 ++ l2) = outputs body l1 ++ outputs body l2.
Proof. unfold outputs. apply flat_map_app. Qed.

(** Entries whose metrics have other keys contribute nothing to the key. *)
Lemma outputs_other_keys node sid md entries :
  (forall e m', In e entries -> bandwidth_metric B node e = Ok (Some m') ->
                same_key m' sid md = false) ->
  filter (fun r => same_key r sid md) (outputs (bandwidth_metric B node) entries) = [].
Proof.
  induction entries as [| e rest IH]; simpl; intros H; [reflexivity |].
  rewrite filter_app, IH; [| intros e' m' He'; apply H; now right].
  rewrite app_nil_r.
  destruct (bandwidth_metric B node e) as [[m' |] | x] eqn:E; try reflexivity.
  simpl. now rewrite (H e m' (or_introl eq_refl) E).
Qed.

(** What the loop body copies from a bandwidth entry. *)
Lemma bandwidth_metric_fields node d m :
  bandwidth_metric B node d = Ok (Some m) ->
  DailySatellite.node_name m = node
  /\ get_int B (dict_get d "ingress" (PDict [])) "usage"
     = Ok (DailySatellite.ingress_usage_bytes m)
  /\ get_int B (dict_get d "ingress" (PDict [])) "repair"
     = Ok (DailySatellite.ingress_repair_bytes m)
  /\ get_int B (dict_get d "egress" (PDict [])) "usage"
     = Ok (DailySatellite.egress_usage_bytes m)
  /\ get_int B (dict_get d "egress" (PDict [])) "repair"
     = Ok (DailySatellite.egress_repair_bytes m)
  /\ get_int B (dict_get d "egress" (PDict [])) "audit"
     = Ok (DailySatellite.egress_audit_bytes m).
Proof.
  unfold bandwidth_metric. intros H.
  destruct (truthy (dict_get d "intervalStart" (PStr ""))); simpl in H; [| discriminate H].
  bind_inv H. destruct a as [metric_date |]; [| discriminate H].
  destruct (truthy (dict_get d "satelliteId" PNone)); simpl in H; [| discriminate H].
  bind_inv H. destruct a as [[sid info] |]; [| discriminate H].
  repeat bind_inv H. injection H as <-. simpl. auto 10.
Qed.

End MergeFacts.

(** C5, as stated, fails when two bandwidth entries yield the key: each of
    them is appended, the storage pass updates the first record only, and
    the key has two records, the second without storage. *)
Lemma repeated_bandwidth_entry_two_records :
  bandwidth_metric Reference.runtime "node1" bandwidth_entry = Ok (Some bandwidth_record)
  /\ bandwidth_metric Reference.runtime "node1" repeated_bandwidth_entry
     = Ok (Some repeated_record)
  /\ storage_key Reference.runtime storage_entry = Ok (Some (saltlake, 739507))
  /\ exists ms,
      extract_daily_satellite_metrics Reference.runtime "node1" repeated_info = Ok ms
      /\ filter (fun r => same_key r saltlake 739507) ms
         = [DailySatellite.set_storage bandwidth_record 50000000000; repeated_record]
      /\ map DailySatellite.storage_at_rest_bytes ms = [50000000000; 0].
Proof.
  split; [vm_compute; reflexivity |].
  split; [vm_compute; reflexivity |].
  split; [vm_compute; reflexivity |].
  eexists. split; [vm_compute; reflexivity |].
  split; reflexivity.
Qed.

(** C5 (amended): a document in which exactly one bandwidth entry yields a
    record for a known satellite and a day,
    and with storage entries for the same satellite and day, gives exactly
    one record for that key. The record carries the bandwidth fields read
    from the bandwidth entry and, in both storage fields, the at-rest bytes
    of the last of these storage entries: the storage pass updates the record
    of the bandwidth pass and appends none. *)
Theorem bandwidth_and_storage_merge :
  forall B node si bw_before bw bw_after st_before st st_after m bytes ms,
    bandwidth_daily si = Some (bw_before ++ bw :: bw_after) ->
    storage_daily si = Some (st_before ++ st :: st_after) ->
    bandwidth_metric B node bw = Ok (Some m) ->
    storage_key B st
    = Ok (Some (DailySatellite.satellite_id m, DailySatellite.date m)) ->
    safe_int B (dict_get st "atRestTotalBytes" (PInt 0)) 0 = Ok bytes ->
    (forall e m', In e (bw_before ++ bw_after) ->
                  bandwidth_metric B node e = Ok (Some m') ->
                  same_key m' (DailySatellite.satellite_id m) (DailySatellite.date m) = false) ->
    (forall e, In e st_after ->
               storage_key B e
               <> Ok (Some (DailySatellite.satellite_id m, DailySatellite.date m))) ->
    extract_daily_satellite_metrics B node si = Ok ms ->
    filter (fun r => same_key r (DailySatellite.satellite_id m) (DailySatellite.date m)) ms
    = [DailySatellite.set_storage m bytes]
    /\ DailySatellite.storage_at_rest_bytes (DailySatellite.set_storage m bytes) = bytes
    /\ get_int B (dict_get bw "ingress" (PDict [])) "usage"
       = Ok (DailySatellite.ingress_usage_bytes (DailySatellite.set_storage m bytes))
    /\ get_int B (dict_get bw "egress" (PDict [])) "usage"
       = Ok (DailySatellite.egress_usage_bytes (DailySatellite.set_storage m bytes)).
Proof.
  intros B node si bw_before bw bw_after st_before st st_after m bytes ms
         Hbw Hst Hm Hkey Hbytes Hbw_other Hst_after H.
  pose proof (bandwidth_metric_fields B node bw m Hm) as [_ [Hiu [_ [Heu _]]]].
  split; [| split; [reflexivity | split; assumption]].
  unfold extract_daily_satellite_metrics in H. rewrite Hbw, Hst in H. simpl in H.
  bind_inv H. apply collect_acc in Ha. simpl in Ha. subst a.
  set (sid := DailySatellite.satellite_id m) in *.
  set (md := DailySatellite.date m) in *.
  assert (Hone : filter (fun r => same_key r sid md)
                   (outputs (bandwidth_metric B node) (bw_before ++ bw :: bw_after)) = [m]).
  { assert (Hb : filter (fun r => same_key r sid md)
                   (outputs (bandwidth_metric B node) bw_before) = []).
    { apply outputs_other_keys. intros e m' He. apply Hbw_other.
      apply in_or_app. now left. }
    assert (Ha : filter (fun r => same_key r sid md)
                   (outputs (bandwidth_metric B node) bw_after) = []).
    { apply outputs_other_keys. intros e m' He. apply Hbw_other.
      apply in_or_app. now right. }
    assert (Hk : same_key m sid md = true).
    { unfold same_key, sid, md. now rewrite String.eqb_refl, Z.eqb_refl. }
    change (bw :: bw_after) with ([bw] ++ bw_after).
    rewrite !outputs_app, !filter_app, Hb, Ha.
    unfold outputs. cbn [flat_map]. rewrite Hm. cbn [app filter].
    now rewrite Hk. }
  rewrite storage_loop_app in H. bind_inv H.
  destruct (storage_loop_single B node sid md _ _ _ m Ha Hone) as [m1 [Hm1 Hsame]].
  simpl in H. rewrite Hkey in H. simpl in H. rewrite Hbytes in H. simpl in H.
  rewrite (storage_loop_other_keys B node sid md st_after Hst_after _ _ H).
  rewrite (merge_storage_hit node sid md bytes m1 [] a Hm1).
  now rewrite Hsame.
Qed.

Lemma bandwidth_and_storage_merge_witness :
  bandwidth_metric Reference.runtime "node1" bandwidth_entry = Ok (Some bandwidth_record)
  /\ storage_key Reference.runtime storage_entry = Ok (Some (saltlake, 739507))
  /\ (exists ms,
        extract_daily_satellite_metrics Reference.runtime "node1" daily_info = Ok ms
        /\ List.length ms = 2%nat
        /\ filter (fun r => same_key r saltlake 739507) ms
           = [DailySatellite.set_storage bandwidth_record 50000000000]).
Proof.
  split; [vm_compute; reflexivity |].
  split; [vm_compute; reflexivity |].
  eexists. split; [vm_compute; reflexivity |].
  split; [reflexivity |].
  apply (bandwidth_and_storage_merge Reference.runtime "node1" daily_info
           [] bandwidth_entry [] [] storage_entry [next_day_storage_entry]
           bandwidth_record 50000000000).
  - reflexivity.
  - reflexivity.
  - vm_compute. reflexivity.
  - vm_compute. reflexivity.
  - vm_compute. reflexivity.
  - intros e m' [].
  - intros e [<- | []]. vm_compute. discriminate.
  - vm_compute. reflexivity.
Defined.

(** ** Daily aggregates are replaced *)

Section UpsertFacts.

Context {Row Key : Type}.
Variable key_of : Row -> Key.
Variable key_eqb : Key -> Key -> bool.
Hypothesis key_eqb_eq : forall k1 k2, key_eqb k1 k2 = true <-> k1 = k2.

Lemma has_key_true k row : has_key key_of key_eqb k row = true <-> key_of row = k.
Proof. unfold has_key. apply key_eqb_eq. Qed.

Lemma has_key_false k row : has_key key_of key_eqb k row = false <-> key_of row <> k.
Proof.
  rewrite <- has_key_true. destruct (has_key key_of key_eqb k row).
  - split; [discriminate | intros H; now destruct H].
  - split; [intros _ H; discriminate H | reflexivity].
Qed.

(** After a write the key of the written row has that row alone. *)
Lemma rows_with_insert_same table row :
  rows_with key_of key_eqb (key_of row) (insert_or_replace key_of key_eqb table row)
  = [row].
Proof.
  unfold rows_with, insert_or_replace. rewrite filter_app. simpl.
  rewrite (proj2 (has_key_true (key_of row) row) eq_refl).
  replace (filter (has_key key_of key_eqb (key_of row))
             (filter (fun r => negb (has_key key_of key_eqb (key_of row) r)) table))
    with (@nil Row); [reflexivity |].
  induction table as [| r rest IH]; simpl; [reflexivity |].
  destruct (has_key key_of key_eqb (key_of row) r) eqn:E; simpl;
    [exact IH | now rewrite E].
Qed.

(** A write leaves the rows of the other keys in place. *)
Lemma rows_with_insert_other table row k :
  key_of row <> k ->
  rows_with key_of key_eqb k (insert_or_replace key_of key_eqb table row)
  = rows_with key_of key_eqb k table.
Proof.
  intros Hne. unfold rows_with, insert_or_replace. rewrite filter_app. simpl.
  rewrite (proj2 (has_key_false k row) Hne), app_nil_r.
  induction table as [| r rest IH]; simpl; [reflexivity |].
  destruct (has_key key_of key_eqb k r) eqn:Ek.
  - assert (En : has_key key_of key_eqb (key_of row) r = false).
    { apply has_key_false. apply has_key_true in Ek. congruence. }
    rewrite En. simpl. now rewrite Ek, IH.
  - destruct (has_key key_of key_eqb (key_of row) r); simpl;
      [exact IH | now rewrite Ek, IH].
Qed.

Lemma rows_with_upsert_others rows k :
  (forall r, In r rows -> key_of r <> k) ->
  forall table,
    rows_with key_of key_eqb k (upsert_all key_of key_eqb rows table)
    = rows_with key_of key_eqb k table.
Proof.
  unfold upsert_all.
  induction rows as [| r rest IH]; simpl; intros H table; [reflexivity |].
  rewrite IH; [| intros r' Hr'; apply H; now right].
  apply rows_with_insert_other. apply H. now left.
Qed.

(** The last write of a key wins, whatever the table held and whatever was
    written before. *)
Lemma last_write_wins before row after table :
  (forall r, In r after -> key_of r <> key_of row) ->
  rows_with key_of key_eqb (key_of row)
    (upsert_all key_of key_eqb (before ++ row :: after) table)
  = [row].
Proof.
  intros Hafter. unfold upsert_all. rewrite fold_left_app. simpl.
  fold (upsert_all key_of key_eqb after
          (insert_or_replace key_of key_eqb (fold_left (insert_or_replace key_of key_eqb) before table) row)).
  rewrite rows_with_upsert_others; [| exact Hafter].
  apply rows_with_insert_same.
Qed.

End UpsertFacts.

Lemma node_date_eqb_eq (k1 k2 : string * Z) : node_date_eqb k1 k2 = true <-> k1 = k2.
Proof.
  destruct k1 as [n1 d1], k2 as [n2 d2]. unfold node_date_eqb. simpl.
  rewrite andb_true_iff, String.eqb_eq, Z.eqb_eq.
  split; [intros [-> ->]; reflexivity | intros H; injection H; auto].
Qed.

(** *** A store that goes through, and one that does not *)

Lemma upsert_loop_Ok {Row Key : Type} (key_of : Row -> Key) (key_eqb : Key -> Key -> bool)
    (binds : Row -> bool) rows table t :
  upsert_loop key_of key_eqb binds rows table = Ok t ->
  forallb binds rows = true /\ t = upsert_all key_of key_eqb rows table.
Proof.
  unfold upsert_loop. destruct (forallb binds rows); [| discriminate].
  intros H. injection H as <-. now split.
Qed.

(** The tables after a store that was committed. *)
Lemma store_metrics_Some e m db db' :
  store_metrics e m db = Some db' ->
  metrics_daily_bandwidth db'
  = upsert_all daily_bandwidth_key node_date_eqb
      (daily_bandwidth m) (metrics_daily_bandwidth db)
  /\ metrics_daily_storage db'
     = upsert_all daily_storage_key node_date_eqb
         (daily_storage m) (metrics_daily_storage db)
  /\ node_satellites db'
     = upsert_all satellite_status_key node_satellite_eqb
         (satellite_status m) (node_satellites db)
  /\ metrics_daily_satellite db'
     = upsert_all daily_satellite_key node_satellite_date_eqb
         (daily_satellite m) (metrics_daily_satellite db).
Proof.
  unfold store_metrics, upsert_loops. destruct e; [| discriminate].
  destruct (upsert_loop daily_bandwidth_key _ _ _ _) as [bw | x] eqn:E1;
    [| discriminate].
  destruct (upsert_loop daily_storage_key _ _ _ _) as [st | x] eqn:E2;
    [| discriminate].
  destruct (upsert_loop satellite_status_key _ _ _ _) as [ss | x] eqn:E3;
    [| discriminate].
  destruct (upsert_loop daily_satellite_key _ _ _ _) as [ds | x] eqn:E4;
    [| discriminate].
  cbn [bind]. intros H. injection H as <-.
  apply upsert_loop_Ok in E1, E2, E3, E4.
  cbn [metrics_daily_bandwidth metrics_daily_storage node_satellites
       metrics_daily_satellite].
  repeat split; tauto.
Qed.

(** A store is committed exactly when the engine carries it and every row
    binds; a row with an int outside of 64 bits loses the whole cycle. *)
Lemma store_metrics_committed e m db :
  (exists db', store_metrics e m db = Some db')
  <-> e = Sound
      /\ forallb daily_bandwidth_binds (daily_bandwidth m) = true
      /\ forallb daily_storage_binds (daily_storage m) = true
      /\ forallb satellite_status_binds (satellite_status m) = true
      /\ forallb daily_satellite_binds (daily_satellite m) = true.
Proof.
  unfold store_metrics, upsert_loops, upsert_loop. split.
  - intros [db' H]. destruct e; [| discriminate H]. split; [reflexivity |].
    destruct (forallb daily_bandwidth_binds _); [| discriminate H].
    destruct (forallb daily_storage_binds _); [| discriminate H].
    destruct (forallb satellite_status_binds _); [| discriminate H].
    destruct (forallb daily_satellite_binds _); [| discriminate H].
    repeat split.
  - intros [-> [-> [-> [-> ->]]]]. eexists. reflexivity.
Qed.

(** C6: a daily aggregate [A'] stored after an aggregate [A] of the same
    (node, date), in the same cycle or in a later one, leaves exactly one row
    for the key, and that row is [A']: the write replaces the row, whatever
    the table held before. [A'] is the last row of its cycle for the key. The
    same holds in [metrics_daily_storage]. A store is a call of
    [store_metrics] that reaches its [commit]; a call that raises before it
    leaves the database, and with it the rows of the key, as it was. *)
Theorem daily_aggregate_replaced :
  forall e1 e2 db m1 m2 db1,
    store_metrics e1 m1 db = Some db1 ->
    (forall A A' before between after,
        daily_bandwidth_key A = daily_bandwidth_key A' ->
        (forall r, In r after -> daily_bandwidth_key r <> daily_bandwidth_key A') ->
        (daily_bandwidth m1 = before ++ A :: between ++ A' :: after ->
         bandwidth_rows db1 (daily_bandwidth_key A) = [A'])
        /\ (forall db2,
               store_metrics e2 m2 db1 = Some db2 ->
               In A (daily_bandwidth m1) ->
               daily_bandwidth m2 = between ++ A' :: after ->
               bandwidth_rows db2 (daily_bandwidth_key A) = [A']))
    /\ (forall A A' before between after,
        daily_storage_key A = daily_storage_key A' ->
        (forall r, In r after -> daily_storage_key r <> daily_storage_key A') ->
        (daily_storage m1 = before ++ A :: between ++ A' :: after ->
         storage_rows db1 (daily_storage_key A) = [A'])
        /\ (forall db2,
               store_metrics e2 m2 db1 = Some db2 ->
               In A (daily_storage m1) ->
               daily_storage m2 = between ++ A' :: after ->
               storage_rows db2 (daily_storage_key A) = [A']))
    /\ (store_metrics e2 m2 db1 = None -> after_store e2 m2 db1 = db1).
Proof.
  intros e1 e2 db m1 m2 db1 H1.
  destruct (store_metrics_Some _ _ _ _ H1) as [Hbw1 [Hst1 _]].
  split; [| split; [| intros H; unfold after_store; now rewrite H]].
  - intros A A' before between after Hkey Hafter. rewrite Hkey. split.
    + intros Hrows. unfold bandwidth_rows. rewrite Hbw1, Hrows.
      replace (before ++ A :: between ++ A' :: after)
        with ((before ++ A :: between) ++ A' :: after)
        by (now rewrite <- app_assoc).
      apply (last_write_wins _ _ node_date_eqb_eq). exact Hafter.
    + intros db2 H2 _ Hrows.
      destruct (store_metrics_Some _ _ _ _ H2) as [Hbw2 _].
      unfold bandwidth_rows. rewrite Hbw2, Hrows.
      apply (last_write_wins _ _ node_date_eqb_eq). exact Hafter.
  - intros A A' before between after Hkey Hafter. rewrite Hkey. split.
    + intros Hrows. unfold storage_rows. rewrite Hst1, Hrows.
      replace (before ++ A :: between ++ A' :: after)
        with ((before ++ A :: between) ++ A' :: after)
        by (now rewrite <- app_assoc).
      apply (last_write_wins _ _ node_date_eqb_eq). exact Hafter.
    + intros db2 H2 _ Hrows.
      destruct (store_metrics_Some _ _ _ _ H2) as [_ [Hst2 _]].
      unfold storage_rows. rewrite Hst2, Hrows.
      apply (last_write_wins _ _ node_date_eqb_eq). exact Hafter.
Qed.

Lemma daily_aggregate_replaced_witness :
  exists db1 db2 db3,
    store_metrics Sound double_cycle empty_database = Some db1
    /\ store_metrics Sound first_cycle empty_database = Some db2
    /\ store_metrics Sound second_cycle db2 = Some db3
    /\ daily_bandwidth_key first_reading = daily_bandwidth_key second_reading
    /\ bandwidth_rows db1 (daily_bandwidth_key first_reading) = [second_reading]
    /\ bandwidth_rows db3 (daily_bandwidth_key first_reading) = [second_reading]
    /\ storage_rows db3 (daily_storage_key first_storage) = [second_storage]
    /\ store_metrics Sound oversized_cycle db2 = None
    /\ after_store Sound oversized_cycle db2 = db2.
Proof.
  do 3 eexists.
  split; [reflexivity |]. split; [reflexivity |]. split; [reflexivity |].
  split; [reflexivity |].
  split; [| split; [| split; [| split; [reflexivity |]]]].
  - apply (proj1 (proj1 (daily_aggregate_replaced Sound Sound empty_database
                           double_cycle second_cycle _ eq_refl)
                    first_reading second_reading [] [other_day_reading] []
                    eq_refl (fun r (H : In r []) => match H with end))).
    reflexivity.
  - apply (proj2 (proj1 (daily_aggregate_replaced Sound Sound empty_database
                           first_cycle second_cycle _ eq_refl)
                    first_reading second_reading [] [] [other_day_reading]
                    eq_refl
                    (fun r (H : In r [other_day_reading]) =>
                       match H with
                       | or_introl E =>
                           fun K => ltac:(subst r; vm_compute in K; discriminate K)
                       | or_intror F => match F with end
                       end)) _ eq_refl).
    + vm_compute. right. left. reflexivity.
    + reflexivity.
  - apply (proj2 (proj1 (proj2 (daily_aggregate_replaced Sound Sound empty_database
                                  first_cycle second_cycle _ eq_refl))
                    first_storage second_storage [] [] []
                    eq_refl (fun r (H : In r []) => match H with end)) _ eq_refl).
    + vm_compute. left. reflexivity.
    + reflexivity.
  - apply (proj2 (proj2 (daily_aggregate_replaced Sound Sound empty_database
                           first_cycle oversized_cycle _ eq_refl))).
    reflexivity.
Defined.

(** * Further properties of the collector *)

(** ** The statuses and their scores *)

Section StatusShape.

Variable B : builtins.

(** The identity fields of the status the loop body appends. *)
Lemma satellite_status_of_identity node ts d r :
  satellite_status_of B node ts d = Ok (Some r) ->
  SatelliteStatus.node_name r = node
  /\ SatelliteStatus.timestamp r = ts
  /\ assoc_find KNOWN_SATELLITES (SatelliteStatus.satellite_id r)
     = Some (SatelliteStatus.satellite_name r, SatelliteStatus.satellite_region r)
  /\ scores_of_status r = (f_one, f_one, f_one)
  /\ (if truthy (dict_get d "joinedAt" PNone)
      then parse_or_none B (dict_get d "joinedAt" PNone)
      else Ok None) = Ok (SatelliteStatus.joined_at r).
Proof.
  unfold satellite_status_of. intros H.
  bind_inv H. destruct a as [[sid [name region]] |]; [| discriminate H].
  apply known_satellite_Some in Ha. destruct Ha as [_ Hreg].
  bind_inv H. bind_inv H. bind_inv H. bind_inv H. bind_inv H.
  injection H as <-. unfold scores_of_status. simpl. auto.
Qed.

Lemma update_status_identity amap st r :
  update_status B amap st = Ok r ->
  SatelliteStatus.node_name r = SatelliteStatus.node_name st
  /\ SatelliteStatus.timestamp r = SatelliteStatus.timestamp st
  /\ SatelliteStatus.satellite_name r = SatelliteStatus.satellite_name st
  /\ SatelliteStatus.satellite_region r = SatelliteStatus.satellite_region st
  /\ SatelliteStatus.joined_at r = SatelliteStatus.joined_at st.
Proof.
  unfold update_status.
  destruct (assoc_find amap (SatelliteStatus.satellite_id st)); intros H.
  - repeat bind_inv H. injection H as <-. simpl. repeat split.
  - injection H as <-. repeat split.
Qed.

Lemma update_status_no_audit amap st r :
  update_status B amap st = Ok r ->
  assoc_find amap (SatelliteStatus.satellite_id st) = None ->
  r = st.
Proof.
  unfold update_status. intros H Hnone. rewrite Hnone in H. now injection H.
Qed.

Lemma registered_nonempty sid : registered sid = true -> String.eqb sid "" = false.
Proof.
  intros H. destruct (String.eqb_spec sid "") as [-> |]; [discriminate H | reflexivity].
Qed.

(** The audit map, read at a non-empty identifier: the last entry of the list
    that carries it, else what the map held before. *)
Lemma build_audit_map_find sid :
  String.eqb sid "" = false ->
  forall audit_entries acc amap,
    build_audit_map audit_entries acc = Ok amap ->
    assoc_find amap sid
    = match last_audit_for sid audit_entries with
      | Some audit => Some audit
      | None => assoc_find acc sid
      end.
Proof.
  intros Hsid audit_entries.
  induction audit_entries as [| audit rest IH]; simpl; intros acc amap H.
  - now injection H as <-.
  - unfold audit_names.
    destruct (dict_get audit "satelliteID" PNone) as [| b | n | f | s | l | dd] eqn:Eid;
      simpl in H.
    + rewrite (IH _ _ H). now destruct (last_audit_for sid rest).
    + destruct b; rewrite (IH _ _ H); now destruct (last_audit_for sid rest).
    + destruct (negb (n =? 0)); rewrite (IH _ _ H); now destruct (last_audit_for sid rest).
    + destruct f; simpl in H; rewrite (IH _ _ H); now destruct (last_audit_for sid rest).
    + destruct (String.eqb s "") eqn:Es; simpl in H; rewrite (IH _ _ H).
      * destruct (last_audit_for sid rest); [reflexivity |].
        destruct (String.eqb_spec s sid) as [-> |]; [| reflexivity].
        rewrite Hsid in Es. discriminate Es.
      * destruct (last_audit_for sid rest); [reflexivity |]. simpl.
        now destruct (String.eqb s sid).
    + destruct l; simpl in H; [| discriminate H].
      rewrite (IH _ _ H). now destruct (last_audit_for sid rest).
    + destruct dd; simpl in H; [| discriminate H].
      rewrite (IH _ _ H). now destruct (last_audit_for sid rest).
Qed.

End StatusShape.

(** X1: a successful [extract_satellite_status] returns exactly one status per
    satellite entry whose [id] is in the registry, in the order of the
    entries. Each status carries the node name and the timestamp it was
    called with, the identifier of its entry, and the name and region the
    registry gives for that identifier. *)
Theorem one_status_per_known_entry :
  forall B node ts ni si rs,
    extract_satellite_status B node ts ni si = Ok rs ->
    Forall2 (fun d r =>
               dict_get d "id" (PStr "") = PStr (SatelliteStatus.satellite_id r)
               /\ SatelliteStatus.node_name r = node
               /\ SatelliteStatus.timestamp r = ts
               /\ assoc_find KNOWN_SATELLITES (SatelliteStatus.satellite_id r)
                  = Some (SatelliteStatus.satellite_name r,
                          SatelliteStatus.satellite_region r))
      (filter known_entry (or_empty (satellites ni))) rs.
Proof.
  intros B node ts ni si rs H.
  apply extract_satellite_status_inv in H. destruct H as [amap [_ H]].
  eapply Forall2_impl; [| exact H].
  intros d r [r0 [Hbody Hupd]].
  pose proof (update_status_fields _ _ _ _ Hupd) as [Hid _].
  pose proof (update_status_identity _ _ _ _ Hupd) as [Hn [Ht [Hname [Hregion _]]]].
  pose proof (satellite_status_of_Some _ _ _ _ _ Hbody) as [Hd _].
  pose proof (satellite_status_of_identity _ _ _ _ _ Hbody) as [Hn0 [Ht0 [Hreg0 _]]].
  rewrite Hid, Hn, Ht, Hname, Hregion. auto.
Qed.

Lemma one_status_per_known_entry_witness :
  exists rs,
    extract_satellite_status Reference.runtime "node1" sample_now
      (node_with [stranger_entry; vetted_entry; fresh_entry]) (satellite_info_with []) = Ok rs
    /\ List.length rs = 2%nat
    /\ Forall2 (fun d r =>
               dict_get d "id" (PStr "") = PStr (SatelliteStatus.satellite_id r)
               /\ SatelliteStatus.node_name r = "node1"
               /\ SatelliteStatus.timestamp r = sample_now
               /\ assoc_find KNOWN_SATELLITES (SatelliteStatus.satellite_id r)
                  = Some (SatelliteStatus.satellite_name r,
                          SatelliteStatus.satellite_region r))
         [vetted_entry; fresh_entry] rs.
Proof.
  eexists. split; [vm_compute; reflexivity |]. split; [reflexivity |].
  apply (one_status_per_known_entry Reference.runtime "node1" sample_now
           (node_with [stranger_entry; vetted_entry; fresh_entry]) (satellite_info_with [])).
  vm_compute. reflexivity.
Defined.

(** The scores of every status, read off the audits list. *)
Lemma scores_by_last_audit :
  forall B node ts ni si rs,
    extract_satellite_status B node ts ni si = Ok rs ->
    Forall (fun r =>
              match last_audit_for (SatelliteStatus.satellite_id r) (audits si) with
              | None => scores_of_status r = (f_one, f_one, f_one)
              | Some audit =>
                  safe_float B (dict_get audit "auditScore" (PFloat f_one)) f_zero
                  = Ok (SatelliteStatus.audit_score r)
                  /\ safe_float B (dict_get audit "suspensionScore" (PFloat f_one)) f_zero
                     = Ok (SatelliteStatus.suspension_score r)
                  /\ safe_float B (dict_get audit "onlineScore" (PFloat f_one)) f_zero
                     = Ok (SatelliteStatus.online_score r)
              end) rs.
Proof.
  intros B node ts ni si rs H.
  apply extract_satellite_status_inv in H. destruct H as [amap [Hmap H]].
  induction H as [| d r ds rs' [r0 [Hbody Hupd]] _ IH]; constructor; [| exact IH].
  pose proof (update_status_fields _ _ _ _ Hupd) as [Hid _].
  pose proof (satellite_status_of_Some _ _ _ _ _ Hbody) as [_ [Hreg _]].
  pose proof (satellite_status_of_identity _ _ _ _ _ Hbody) as [_ [_ [_ [Hones _]]]].
  pose proof (build_audit_map_find _ (registered_nonempty _ Hreg) _ _ _ Hmap) as Hfind.
  rewrite Hid.
  destruct (last_audit_for (SatelliteStatus.satellite_id r0) (audits si)) as [audit |].
  - exact (update_status_scores _ _ _ _ _ Hupd Hfind).
  - simpl in Hfind. now rewrite (update_status_no_audit _ _ _ _ Hupd Hfind).
Qed.

(** X2: a satellite that no entry of the audits list names by [satelliteID]
    keeps the default scores: audit, suspension and online score are all
    [1.0]. *)
Theorem scores_default_without_audit :
  forall B node ts ni si rs,
    extract_satellite_status B node ts ni si = Ok rs ->
    Forall (fun r =>
              last_audit_for (SatelliteStatus.satellite_id r) (audits si) = None ->
              SatelliteStatus.audit_score r = f_one
              /\ SatelliteStatus.suspension_score r = f_one
              /\ SatelliteStatus.online_score r = f_one) rs.
Proof.
  intros B node ts ni si rs H.
  apply scores_by_last_audit in H.
  eapply Forall_impl; [| exact H].
  intros r Hr Hnone. cbv beta in Hr. rewrite Hnone in Hr.
  unfold scores_of_status in Hr. injection Hr as -> -> ->. auto.
Qed.

Lemma scores_default_without_audit_witness :
  exists rs,
    extract_satellite_status Reference.runtime "node1" sample_now
      (node_with [fresh_entry]) (satellite_info_with [unnamed_audit]) = Ok rs
    /\ Forall (fun r =>
              last_audit_for (SatelliteStatus.satellite_id r) [unnamed_audit] = None ->
              SatelliteStatus.audit_score r = f_one
              /\ SatelliteStatus.suspension_score r = f_one
              /\ SatelliteStatus.online_score r = f_one) rs.
Proof.
  eexists. split; [vm_compute; reflexivity |].
  apply (scores_default_without_audit Reference.runtime "node1" sample_now
           (node_with [fresh_entry]) (satellite_info_with [unnamed_audit])).
  vm_compute. reflexivity.
Defined.

(** X3: when several audit entries name the same satellite the last one of
    the list decides: the three scores of the status are the [safe_float] of
    its [auditScore], [suspensionScore] and [onlineScore], each read with
    [1.0] for a missing key. *)
Theorem last_audit_entry_wins :
  forall B node ts ni si rs,
    extract_satellite_status B node ts ni si = Ok rs ->
    Forall (fun r =>
              forall audit,
                last_audit_for (SatelliteStatus.satellite_id r) (audits si) = Some audit ->
                safe_float B (dict_get audit "auditScore" (PFloat f_one)) f_zero
                = Ok (SatelliteStatus.audit_score r)
                /\ safe_float B (dict_get audit "suspensionScore" (PFloat f_one)) f_zero
                   = Ok (SatelliteStatus.suspension_score r)
                /\ safe_float B (dict_get audit "onlineScore" (PFloat f_one)) f_zero
                   = Ok (SatelliteStatus.online_score r)) rs.
Proof.
  intros B node ts ni si rs H.
  apply scores_by_last_audit in H.
  eapply Forall_impl; [| exact H].
  intros r Hr audit Hlast. cbv beta in Hr. now rewrite Hlast in Hr.
Qed.

Lemma last_audit_entry_wins_witness :
  exists r,
    extract_satellite_status Reference.runtime "node1" sample_now
      (node_with [busy_unvetted_entry])
      (satellite_info_with [earlier_audit; unnamed_audit; later_audit]) = Ok [r]
    /\ last_audit_for (SatelliteStatus.satellite_id r)
         [earlier_audit; unnamed_audit; later_audit] = Some later_audit
    /\ SatelliteStatus.audit_score r = f_0_87
    /\ SatelliteStatus.suspension_score r = f_one
    /\ SatelliteStatus.online_score r = f_0_99.
Proof.
  eexists. split; [vm_compute; reflexivity |]. split; [reflexivity |].
  pose proof (last_audit_entry_wins Reference.runtime "node1" sample_now
                (node_with [busy_unvetted_entry])
                (satellite_info_with [earlier_audit; unnamed_audit; later_audit])
                _ ltac:(vm_compute; reflexivity)) as H.
  inversion H as [| r rs Hr _]; subst.
  destruct (Hr later_audit eq_refl) as [Ha [Hs Ho]].
  pose (value := fun x : result float => match x with Ok v => v | Raise _ => f_zero end).
  split; [exact (f_equal value (eq_sym Ha)) |].
  split; [exact (f_equal value (eq_sym Hs)) | exact (f_equal value (eq_sym Ho))].
Defined.
(** ** The range of the vetting progress *)

Lemma binary_round_aux_sign (s : bool) (m e : Z) (l : location) :
  0 <= m ->
  binary_round_aux prec emax s m e l = S754_zero s
  \/ binary_round_aux prec emax s m e l = S754_infinity s
  \/ exists p e', binary_round_aux prec emax s m e l = S754_finite s p e'.
Proof.
  intros H. pose proof (binary_round_aux_not_nan s m e l H) as Hnan.
  unfold binary_round_aux in *.
  destruct (shr_fexp prec emax m e l) as [mrs' e'].
  destruct (shr_fexp prec emax _ e' loc_Exact) as [mrs'' e''].
  destruct (shr_m mrs'') as [| p | p].
  - now left.
  - destruct (e'' <=? emax - prec); [right; right; now exists p, e'' | right; now left].
  - now destruct Hnan.
Qed.

(** The quotient of two positive integers is a non-negative number. *)
Lemma int_truediv_positive (a b : Z) (x : float) :
  0 < a -> 0 < b -> int_truediv a b = Ok x ->
  x = S754_zero false \/ exists p e, x = S754_finite false p e.
Proof.
  intros Ha Hb. unfold int_truediv.
  destruct (Z.eqb_spec b 0) as [-> | _]; [lia |].
  destruct a as [| pa | pa]; try lia. destruct b as [| pb | pb]; try lia.
  unfold exact_of_Z, SFdiv.
  destruct (SFdiv_core_binary prec emax (Z.pos pa) 0 (Z.pos pb) 0) as [[mz ez] lz] eqn:E.
  assert (Hmz : 0 <= mz).
  { unfold SFdiv_core_binary in E.
    match type of E with
    | (let '(q0, r0) := Z.div_eucl ?n ?d in _) = _ =>
        assert (Hn : 0 <= n);
        [ | pose proof (Z_div_mod n d ltac:(lia)) as Hdm;
            destruct (Z.div_eucl n d) as [q0 r0]; injection E as <- _ _; nia ]
    end.
    match goal with
    | |- 0 <= match ?s with _ => _ end =>
        destruct s; try lia; apply Z.shiftl_nonneg; lia
    end. }
  change (xorb false false) with false.
  destruct (binary_round_aux_sign false mz ez lz Hmz) as [-> | [-> | [p [e' ->]]]];
    cbn [overflow_check]; intros H.
  - injection H as <-. now left.
  - discriminate H.
  - injection H as <-. right. now exists p, e'.
Qed.

Lemma compare_cont_flip (p q : positive) :
  PosDef.Pos.compare_cont Eq p q = CompOpp (PosDef.Pos.compare_cont Eq q p).
Proof. symmetry. exact (Pos.compare_cont_antisym q p Eq). Qed.

(** On numbers, [<=] holds where the strict [>] fails. *)
Lemma SFleb_of_not_SFltb (x y : float) :
  x <> S754_nan -> y <> S754_nan -> SFltb y x = false -> SFleb x y = true.
Proof.
  unfold SFltb, SFleb.
  destruct x as [sx | sx | | sx mx ex]; destruct y as [sy | sy | | sy my ey];
    intros Hx Hy H; try (now destruct Hx); try (now destruct Hy);
    try (destruct sx; destruct sy; (reflexivity || discriminate H)).
  destruct sx; destruct sy; try reflexivity; try discriminate H;
    cbn [SFcompare] in *; rewrite (Z.compare_antisym ey ex);
    (destruct (ey ?= ex); cbn [CompOpp] in *; try reflexivity; try discriminate H);
    rewrite (compare_cont_flip mx my);
    (destruct (PosDef.Pos.compare_cont Eq my mx); cbn [CompOpp] in *;
      try reflexivity; discriminate H).
Qed.

Lemma f_leb_one_of_not_greater (x : float) :
  x <> S754_nan -> f_ltb f_one x = false -> f_leb x f_one = true.
Proof.
  intros Hx H. apply SFleb_of_not_SFltb; [exact Hx | discriminate | exact H].
Qed.

Lemma py_min_one_range (x : float) :
  x <> S754_nan -> f_leb f_zero x = true ->
  f_leb f_zero (py_min x f_one) = true /\ f_leb (py_min x f_one) f_one = true.
Proof.
  intros Hnan Hpos. unfold py_min.
  destruct (f_ltb f_one x) eqn:E.
  - split; reflexivity.
  - split; [exact Hpos | now apply f_leb_one_of_not_greater].
Qed.

Lemma calculate_vetting_progress_range B (d : dict) (is_vetted : bool) (p : float) :
  _calculate_vetting_progress B d is_vetted = Ok p ->
  f_leb f_zero p = true /\ f_leb p f_one = true.
Proof.
  unfold _calculate_vetting_progress.
  destruct is_vetted; intros H.
  - injection H as <-. split; reflexivity.
  - bind_inv H. destruct (f_gtb a f_zero) eqn:Hgt.
    + injection H as <-. apply py_min_one_range.
      * intros ->. discriminate Hgt.
      * unfold f_gtb, SFltb in Hgt. unfold f_leb, SFleb.
        destruct (SFcompare f_zero a) as [[| |] |]; try discriminate Hgt; reflexivity.
    + bind_inv H. bind_inv H.
      destruct (a0 + a1 >? 0) eqn:Htot.
      * bind_inv H. injection H as <-.
        apply Z.gtb_lt in Htot.
        assert (Hb : 0 < gb_threshold * 100) by reflexivity.
        destruct (int_truediv_positive _ _ _ Htot Hb Ha2) as [-> | [m [e ->]]].
        -- split; reflexivity.
        -- apply py_min_one_range; [discriminate | reflexivity].
      * injection H as <-. split; reflexivity.
Qed.

(** X4: the vetting progress of every status that [extract_satellite_status]
    returns lies between [0.0] and [1.0], both included, whatever the payload
    holds in [vettingProgress] and in the month counters (negative numbers,
    infinities and NaN included). *)
Theorem vetting_progress_in_unit_interval :
  forall B node ts ni si rs,
    extract_satellite_status B node ts ni si = Ok rs ->
    Forall (fun r =>
              f_leb f_zero (SatelliteStatus.vetting_progress r) = true
              /\ f_leb (SatelliteStatus.vetting_progress r) f_one = true) rs.
Proof.
  intros B node ts ni si rs H.
  apply extract_satellite_status_inv in H. destruct H as [amap [_ H]].
  induction H as [| d r ds rs' [r0 [Hbody Hupd]] _ IH]; constructor; [| exact IH].
  apply update_status_fields in Hupd. destruct Hupd as [_ [_ [-> _]]].
  apply satellite_status_of_Some in Hbody.
  destruct Hbody as [_ [_ [_ [_ [Hprog _]]]]].
  destruct (SatelliteStatus.is_vetted r0).
  - injection Hprog as <-. split; reflexivity.
  - eapply calculate_vetting_progress_range. exact Hprog.
Qed.

Lemma vetting_progress_in_unit_interval_witness :
  exists rs,
    extract_satellite_status Reference.runtime "node1" sample_now
      (node_with [busy_unvetted_entry; vetted_entry; fresh_entry])
      (satellite_info_with []) = Ok rs
    /\ List.length rs = 3%nat
    /\ Forall (fun r =>
              f_leb f_zero (SatelliteStatus.vetting_progress r) = true
              /\ f_leb (SatelliteStatus.vetting_progress r) f_one = true) rs.
Proof.
  eexists. split; [vm_compute; reflexivity |]. split; [reflexivity |].
  apply (vetting_progress_in_unit_interval Reference.runtime "node1" sample_now
           (node_with [busy_unvetted_entry; vetted_entry; fresh_entry])
           (satellite_info_with [])).
  vm_compute. reflexivity.
Defined.

(** ** What the safe coercions let through *)

(** X5: [safe_int] and [safe_float] are not total. The one exception either
    of them lets through is [OverflowError]: [safe_int] on an infinite float
    and on nothing else, [safe_float] on an int too large for a float and on
    nothing else. Every other value gives a number or the default. *)
Theorem safe_coercions_only_overflow :
  forall B (v : pyval) (default_int : Z) (default_float : float) (e : exn),
    (safe_int B v default_int = Raise e ->
     e = OverflowError /\ exists s, v = PFloat (S754_infinity s))
    /\ (safe_float B v default_float = Raise e ->
        e = OverflowError
        /\ exists n, v = PInt n /\ float_of_Z n = Raise OverflowError).
Proof.
  intros B v di df e. unfold safe_int, safe_float, try_except. split.
  - destruct v as [| b | n | f | s | l | d]; cbn [py_int]; try discriminate.
    + destruct f as [s | s | | s m x]; cbn [trunc_float except_ValueError_TypeError];
        try discriminate.
      intros H. injection H as <-. split; [reflexivity | now exists s].
    + destruct (int_of_str B s); discriminate.
  - destruct v as [| b | n | f | s | l | d]; cbn [py_float]; try discriminate.
    + unfold float_of_Z, overflow_check.
      destruct (binary_normalize prec emax n 0 false) as [s | s | | s m x] eqn:E;
        try discriminate.
      cbn [except_ValueError_TypeError]. intros H. injection H as <-.
      split; [reflexivity |]. exists n. split; [reflexivity |].
      unfold float_of_Z, overflow_check. now rewrite E.
    + destruct (float_of_str B s); discriminate.
Qed.

Lemma safe_coercions_only_overflow_witness :
  safe_int Reference.runtime (PFloat (S754_infinity true)) 0 = Raise OverflowError
  /\ safe_float Reference.runtime (PInt (2 ^ 1024)) f_zero = Raise OverflowError
  /\ (exists s, PFloat (S754_infinity true) = PFloat (S754_infinity s))
  /\ (exists n, PInt (2 ^ 1024) = PInt n /\ float_of_Z n = Raise OverflowError).
Proof.
  split; [reflexivity |]. split; [vm_compute; reflexivity |]. split.
  - apply (proj1 (safe_coercions_only_overflow Reference.runtime
                    (PFloat (S754_infinity true)) 0 f_zero OverflowError)).
    reflexivity.
  - apply (proj2 (safe_coercions_only_overflow Reference.runtime
                    (PInt (2 ^ 1024)) 0 f_zero OverflowError)).
    vm_compute. reflexivity.
Defined.

(** ** The daily records per satellite *)

Section DailyShape.

Variable B : builtins.

(** What the bandwidth pass puts in the vetting fields. *)
Lemma bandwidth_metric_vetting node d m :
  bandwidth_metric B node d = Ok (Some m) ->
  DailySatellite.vetting_bandwidth_requirement m = tb_requirement
  /\ DailySatellite.vetting_bandwidth_completed m
     = DailySatellite.ingress_usage_bytes m + DailySatellite.egress_usage_bytes m.
Proof.
  unfold bandwidth_metric. intros H.
  destruct (truthy (dict_get d "intervalStart" (PStr ""))); simpl in H; [| discriminate H].
  bind_inv H. destruct a as [metric_date |]; [| discriminate H].
  destruct (truthy (dict_get d "satelliteId" PNone)); simpl in H; [| discriminate H].
  bind_inv H. destruct a as [[sid info] |]; [| discriminate H].
  repeat bind_inv H. injection H as <-.
  cbn [DailySatellite.vetting_bandwidth_requirement
       DailySatellite.vetting_bandwidth_completed
       DailySatellite.ingress_usage_bytes DailySatellite.egress_usage_bytes].
  split; [reflexivity | congruence].
Qed.

Lemma daily_satellite_key_set_storage m bytes :
  daily_satellite_key (DailySatellite.set_storage m bytes) = daily_satellite_key m.
Proof. reflexivity. Qed.

(** The keys after a storage entry: those before it and, at most, its own. *)
Lemma merge_storage_keys node sid md bytes acc k :
  In k (map daily_satellite_key (merge_storage acc node sid md bytes)) ->
  In k (map daily_satellite_key acc) \/ k = (node, sid, md).
Proof.
  induction acc as [| m rest IH]; simpl.
  - intros [<- | []]. now right.
  - destruct (same_key m sid md); simpl.
    + intros [<- | H]; left; [now left | now right].
    + intros [<- | H]; [left; now left |].
      destruct (IH H) as [Hin | ->]; [left; now right | now right].
Qed.

Lemma merge_storage_NoDup node sid md bytes acc :
  Forall (fun m => DailySatellite.node_name m = node) acc ->
  NoDup (map daily_satellite_key acc) ->
  NoDup (map daily_satellite_key (merge_storage acc node sid md bytes)).
Proof.
  intros Hnode. induction Hnode as [| m rest Hm Hrest IH]; simpl; intros Hnd.
  - constructor; [intros [] | constructor].
  - inversion Hnd as [| k ks Hnotin Hnd']; subst.
    destruct (same_key m sid md) eqn:E; simpl.
    + rewrite daily_satellite_key_set_storage. now constructor.
    + constructor; [| now apply IH].
      intros Hin. apply merge_storage_keys in Hin. destruct Hin as [Hin | Heq].
      * now apply Hnotin.
      * unfold daily_satellite_key in Heq. injection Heq as Hs Hd.
        unfold same_key in E. rewrite Hs, Hd, String.eqb_refl, Z.eqb_refl in E.
        discriminate E.
Qed.

Lemma storage_loop_NoDup node entries :
  forall acc ms,
    Forall (fun m => DailySatellite.node_name m = node) acc ->
    NoDup (map daily_satellite_key acc) ->
    storage_loop B node entries acc = Ok ms ->
    NoDup (map daily_satellite_key ms).
Proof.
  induction entries as [| d rest IH]; simpl; intros acc ms Hnode Hnd H.
  - now injection H as <-.
  - bind_inv H. destruct a as [[sid md] |].
    + bind_inv H. eapply IH; [| | exact H].
      * apply merge_storage_Forall; [intros m Hm; exact Hm | reflexivity | exact Hnode].
      * now apply merge_storage_NoDup.
    + eapply IH; eassumption.
Qed.

End DailyShape.

(** X6: every record of [extract_daily_satellite_metrics] carries the node
    name the function was called with, a vetting requirement of 1 TiB
    ([2^40] bytes), and as completed vetting bandwidth the sum of its ingress
    and egress usage: the bandwidth pass stores that sum, a record of the
    storage pass alone has all three at [0], and the storage update of a
    record changes none of them. *)
Theorem daily_satellite_vetting_fields :
  forall B node si ms,
    extract_daily_satellite_metrics B node si = Ok ms ->
    Forall (fun m =>
              DailySatellite.node_name m = node
              /\ DailySatellite.vetting_bandwidth_requirement m = 2 ^ 40
              /\ DailySatellite.vetting_bandwidth_completed m
                 = DailySatellite.ingress_usage_bytes m
                   + DailySatellite.egress_usage_bytes m) ms.
Proof.
  intros B node si ms H.
  eapply (extract_daily_satellite_Forall B); [| | | exact H].
  - intros d m Hm.
    destruct (bandwidth_metric_fields B _ _ _ Hm) as [Hn _].
    destruct (bandwidth_metric_vetting B _ _ _ Hm) as [Hr Hc].
    repeat split; assumption.
  - intros m bytes Hm. exact Hm.
  - intros sid md bytes _. repeat split.
Qed.

Lemma daily_satellite_vetting_fields_witness :
  exists ms,
    extract_daily_satellite_metrics Reference.runtime "node1" daily_info = Ok ms
    /\ List.length ms = 2%nat
    /\ Forall (fun m =>
              DailySatellite.node_name m = "node1"
              /\ DailySatellite.vetting_bandwidth_requirement m = 2 ^ 40
              /\ DailySatellite.vetting_bandwidth_completed m
                 = DailySatellite.ingress_usage_bytes m
                   + DailySatellite.egress_usage_bytes m) ms.
Proof.
  eexists. split; [vm_compute; reflexivity |]. split; [reflexivity |].
  apply (daily_satellite_vetting_fields Reference.runtime "node1" daily_info).
  vm_compute. reflexivity.
Defined.

(** X7: the storage pass of [extract_daily_satellite_metrics] adds no
    duplicate key. When the records of the bandwidth pass have pairwise
    distinct (node, satellite, date) keys, so have all the records returned:
    a storage entry updates the record of its key or appends the only one. *)
Theorem daily_satellite_keys_unique :
  forall B node si ms0 ms,
    collect (bandwidth_metric B node) (or_empty (bandwidth_daily si)) [] = Ok ms0 ->
    NoDup (map daily_satellite_key ms0) ->
    extract_daily_satellite_metrics B node si = Ok ms ->
    NoDup (map daily_satellite_key ms).
Proof.
  intros B node si ms0 ms Hbw Hnd H.
  unfold extract_daily_satellite_metrics in H. rewrite Hbw in H. simpl in H.
  eapply storage_loop_NoDup; [| exact Hnd | exact H].
  eapply collect_Forall; [| constructor | exact Hbw].
  intros d m Hm. now destruct (bandwidth_metric_fields B _ _ _ Hm).
Qed.

Lemma daily_satellite_keys_unique_witness :
  exists ms,
    extract_daily_satellite_metrics Reference.runtime "node1" daily_info = Ok ms
    /\ map daily_satellite_key ms
       = [("node1", saltlake, 739507); ("node1", saltlake, 739508)]
    /\ NoDup (map daily_satellite_key ms).
Proof.
  eexists. split; [vm_compute; reflexivity |]. split; [reflexivity |].
  apply (daily_satellite_keys_unique Reference.runtime "node1" daily_info
           [bandwidth_record]).
  - vm_compute. reflexivity.
  - constructor; [intros [] | constructor].
  - vm_compute. reflexivity.
Defined.

(** ** The upserts of [store_metrics] as a whole *)

Section UpsertAlgebra.

Context {Row Key : Type}.
Variable key_of : Row -> Key.
Variable key_eqb : Key -> Key -> bool.
Hypothesis key_eqb_refl : forall k, key_eqb k k = true.

Lemma filter_all {A : Type} (l : list A) : filter (fun _ => true) l = l.
Proof. induction l as [| x xs IH]; simpl; [reflexivity | now rewrite IH]. Qed.

Lemma filter_twice {A : Type} (f g : A -> bool) (l : list A) :
  filter f (filter g l) = filter (fun x => g x && f x) l.
Proof.
  induction l as [| x xs IH]; simpl; [reflexivity |].
  destruct (g x); simpl; [destruct (f x) |]; now rewrite IH.
Qed.

Lemma filter_none {A : Type} (f : A -> bool) (l : list A) :
  Forall (fun x => f x = false) l -> filter f l = [].
Proof.
  induction 1 as [| x xs Hx _ IH]; simpl; [reflexivity | now rewrite Hx].
Qed.

Lemma upsert_all_snoc rows row table :
  upsert_all key_of key_eqb (rows ++ [row]) table
  = insert_or_replace key_of key_eqb (upsert_all key_of key_eqb rows table) row.
Proof. unfold upsert_all. now rewrite fold_left_app. Qed.

(** A table after the writes: its rows of the other keys, in place, then rows
    that depend on the writes alone. *)
Lemma upsert_all_shape rows :
  exists tail,
    Forall (fun x => written key_of key_eqb rows x = true) tail
    /\ forall table,
        upsert_all key_of key_eqb rows table
        = filter (fun x => negb (written key_of key_eqb rows x)) table ++ tail.
Proof.
  induction rows as [| row rows IH] using rev_ind.
  - exists []. split; [constructor |]. intros table. simpl.
    now rewrite filter_all, app_nil_r.
  - destruct IH as [tail [Htail Hshape]].
    exists (filter (fun x => negb (has_key key_of key_eqb (key_of row) x)) tail ++ [row]).
    split.
    + apply Forall_app. split.
      * apply Forall_forall. intros x Hx. apply filter_In in Hx. destruct Hx as [Hx _].
        unfold written. rewrite existsb_app.
        rewrite Forall_forall in Htail. unfold written in Htail.
        now rewrite (Htail x Hx).
      * constructor; [| constructor].
        unfold written. rewrite existsb_app. simpl. unfold has_key.
        now rewrite key_eqb_refl, orb_true_r.
    + intros table. rewrite upsert_all_snoc, Hshape.
      unfold insert_or_replace. rewrite filter_app, filter_twice, <- app_assoc.
      f_equal. apply filter_ext. intros x.
      unfold written. rewrite existsb_app. simpl.
      rewrite orb_false_r. now rewrite negb_orb.
Qed.

(** Writing the same rows a second time changes nothing. *)
Lemma upsert_all_twice rows table :
  upsert_all key_of key_eqb rows (upsert_all key_of key_eqb rows table)
  = upsert_all key_of key_eqb rows table.
Proof.
  destruct (upsert_all_shape rows) as [tail [Htail Hshape]].
  rewrite !Hshape. rewrite filter_app, filter_twice, <- app_assoc. f_equal.
  - apply filter_ext. intros x. now destruct (written key_of key_eqb rows x).
  - rewrite filter_none; [reflexivity |].
    eapply Forall_impl; [| exact Htail]. intros x Hx. cbv beta in Hx. now rewrite Hx.
Qed.

End UpsertAlgebra.

Lemma node_date_eqb_refl (k : string * Z) : node_date_eqb k k = true.
Proof. unfold node_date_eqb. now rewrite String.eqb_refl, Z.eqb_refl. Qed.

Lemma node_satellite_eqb_eq (k1 k2 : string * string) :
  node_satellite_eqb k1 k2 = true <-> k1 = k2.
Proof.
  destruct k1 as [n1 s1], k2 as [n2 s2]. unfold node_satellite_eqb. simpl.
  rewrite andb_true_iff, !String.eqb_eq.
  split; [intros [-> ->]; reflexivity | intros H; injection H; auto].
Qed.

Lemma node_satellite_date_eqb_eq (k1 k2 : string * string * Z) :
  node_satellite_date_eqb k1 k2 = true <-> k1 = k2.
Proof.
  destruct k1 as [p1 d1], k2 as [p2 d2]. unfold node_satellite_date_eqb. simpl.
  rewrite andb_true_iff, node_satellite_eqb_eq, Z.eqb_eq.
  split; [intros [-> ->]; reflexivity | intros H; injection H; auto].
Qed.

(** A cycle with an int that sqlite3 cannot bind stores nothing, its other
    rows included. *)
Lemma oversized_cycle_stores_nothing :
  store_metrics Sound oversized_cycle stored_before = None
  /\ after_store Sound oversized_cycle stored_before = stored_before.
Proof. split; reflexivity. Qed.

(** X8: [store_metrics] is idempotent on the four tables it upserts: storing
    the metrics of a cycle a second time leaves each table, rows and order,
    as the first store left it. A store that is committed is committed again
    on its own result, which it gives back; a store that raises leaves the
    database as it was both times. *)
Theorem store_metrics_idempotent :
  forall e m db,
    (forall db1, store_metrics e m db = Some db1 -> store_metrics e m db1 = Some db1)
    /\ after_store e m (after_store e m db) = after_store e m db.
Proof.
  intros e m db.
  assert (Hsome : forall db1, store_metrics e m db = Some db1 ->
                              store_metrics e m db1 = Some db1).
  { intros db1 H1.
    assert (Hc : exists db2, store_metrics e m db1 = Some db2).
    { apply store_metrics_committed. apply (store_metrics_committed e m db).
      now exists db1. }
    destruct Hc as [db2 H2]. rewrite H2. f_equal.
    destruct (store_metrics_Some _ _ _ _ H1) as [A1 [A2 [A3 A4]]].
    destruct (store_metrics_Some _ _ _ _ H2) as [B1 [B2 [B3 B4]]].
    rewrite A1 in B1. rewrite A2 in B2. rewrite A3 in B3. rewrite A4 in B4.
    rewrite upsert_all_twice in B1 by exact node_date_eqb_refl.
    rewrite upsert_all_twice in B2 by exact node_date_eqb_refl.
    rewrite upsert_all_twice in B3
      by (intros k; apply node_satellite_eqb_eq; reflexivity).
    rewrite upsert_all_twice in B4
      by (intros k; apply node_satellite_date_eqb_eq; reflexivity).
    destruct db1, db2. cbn in *. congruence. }
  split; [exact Hsome |].
  unfold after_store. destruct (store_metrics e m db) as [db1 |] eqn:E.
  - now rewrite (Hsome db1 eq_refl).
  - now rewrite E.
Qed.

Lemma store_metrics_idempotent_witness :
  exists db1,
    store_metrics Sound satellite_cycle stored_before = Some db1
    /\ store_metrics Sound satellite_cycle db1 = Some db1.
Proof.
  eexists. split; [reflexivity |].
  apply (proj1 (store_metrics_idempotent Sound satellite_cycle stored_before)).
  reflexivity.
Defined.

(** X9: [store_metrics] leaves alone the rows it has no replacement for. In
    each of the four upserted tables, the rows of a key that no row of the
    cycle carries are after the store what they were before it, whether the
    store was committed or not; so a node that failed in a cycle keeps the
    rows of the cycles before. *)
Theorem store_metrics_other_keys :
  forall e m db,
    (forall k, (forall r, In r (daily_bandwidth m) -> daily_bandwidth_key r <> k) ->
               bandwidth_rows (after_store e m db) k = bandwidth_rows db k)
    /\ (forall k, (forall r, In r (daily_storage m) -> daily_storage_key r <> k) ->
                  storage_rows (after_store e m db) k = storage_rows db k)
    /\ (forall k, (forall r, In r (satellite_status m) -> satellite_status_key r <> k) ->
                  status_rows (after_store e m db) k = status_rows db k)
    /\ (forall k, (forall r, In r (daily_satellite m) -> daily_satellite_key r <> k) ->
                  daily_satellite_rows (after_store e m db) k = daily_satellite_rows db k).
Proof.
  intros e m db. unfold after_store.
  destruct (store_metrics e m db) as [db' |] eqn:E; [| repeat split].
  destruct (store_metrics_Some _ _ _ _ E) as [A1 [A2 [A3 A4]]].
  unfold bandwidth_rows, storage_rows, status_rows, daily_satellite_rows.
  rewrite A1, A2, A3, A4.
  repeat split; intros k Hk.
  - now apply (rows_with_upsert_others _ _ node_date_eqb_eq).
  - now apply (rows_with_upsert_others _ _ node_date_eqb_eq).
  - now apply (rows_with_upsert_others _ _ node_satellite_eqb_eq).
  - now apply (rows_with_upsert_others _ _ node_satellite_date_eqb_eq).
Qed.

Lemma store_metrics_other_keys_witness :
  status_rows (after_store Sound satellite_cycle stored_before) ("node2", saltlake)
  = [other_node_status]
  /\ daily_satellite_rows (after_store Sound satellite_cycle stored_before)
       ("node1", saltlake, 739508)
     = [next_day_record]
  /\ bandwidth_rows (after_store Sound satellite_cycle stored_before) ("node1", 739506)
     = [other_day_reading].
Proof.
  pose proof (store_metrics_other_keys Sound satellite_cycle stored_before)
    as [Hbw [_ [Hst Hds]]].
  split; [| split].
  - rewrite Hst; [reflexivity |].
    intros r [<- | [<- | []]]; discriminate.
  - rewrite Hds; [reflexivity |].
    intros r [<- | []]; discriminate.
  - rewrite Hbw; [reflexivity |].
    intros r [<- | []]; discriminate.
Defined.

(** X10: in [node_satellites] and in [metrics_daily_satellite] the last row a
    cycle writes for a key is, after a store that is committed, the only row
    of that key, whatever the table held and whatever the cycle wrote for the
    key before: a status replaces the status of the same node and satellite,
    a daily record the record of the same node, satellite and date. (A store
    that raises, as for an int outside of 64 bits, writes no row at all.) *)
Theorem satellite_rows_replaced :
  forall e m db db',
    store_metrics e m db = Some db' ->
    (forall before row after,
        satellite_status m = before ++ row :: after ->
        (forall r, In r after -> satellite_status_key r <> satellite_status_key row) ->
        status_rows db' (satellite_status_key row) = [row])
    /\ (forall before row after,
        daily_satellite m = before ++ row :: after ->
        (forall r, In r after -> daily_satellite_key r <> daily_satellite_key row) ->
        daily_satellite_rows db' (daily_satellite_key row) = [row]).
Proof.
  intros e m db db' H.
  destruct (store_metrics_Some _ _ _ _ H) as [_ [_ [A3 A4]]].
  unfold status_rows, daily_satellite_rows. rewrite A3, A4.
  split; intros before row after -> Hafter.
  - now apply (last_write_wins _ _ node_satellite_eqb_eq).
  - now apply (last_write_wins _ _ node_satellite_date_eqb_eq).
Qed.

Lemma satellite_rows_replaced_witness :
  exists db',
    store_metrics Sound satellite_cycle stored_before = Some db'
    /\ status_rows db' ("node1", saltlake) = [second_status]
    /\ daily_satellite_rows db' ("node1", saltlake, 739507) = [bandwidth_record].
Proof.
  eexists. split; [reflexivity |].
  pose proof (satellite_rows_replaced Sound satellite_cycle stored_before _ eq_refl)
    as [Hst Hds].
  split.
  - apply (Hst [first_status] second_status []); [reflexivity |].
    intros r [].
  - apply (Hds [] bandwidth_record []); [reflexivity |].
    intros r [].
Defined.

(** ** The exceptions of the extractions *)

Section Exceptions.

Variable B : builtins.

Lemma raises_only_Ok {A : Type} allowed (a : A) : raises_only allowed (Ok a).
Proof. intros e H. discriminate H. Qed.

Lemma raises_only_Raise {A : Type} (allowed : list exn) e :
  In e allowed -> raises_only allowed (@Raise A e).
Proof. intros Hin e' H. now injection H as <-. Qed.

Lemma raises_only_bind {A C : Type} allowed (c : result A) (k : A -> result C) :
  raises_only allowed c -> (forall a, raises_only allowed (k a)) ->
  raises_only allowed (x <- c ;; k x).
Proof.
  intros Hc Hk e. destruct c as [a | e0]; simpl.
  - apply Hk.
  - intros H. injection H as <-. now apply Hc.
Qed.

Lemma raises_only_incl {A : Type} small large (r : result A) :
  raises_only small r -> incl small large -> raises_only large r.
Proof. intros Hr Hincl e He. apply Hincl. now apply Hr. Qed.

Lemma raises_only_collect {A : Type} allowed (body : dict -> result (option A)) :
  (forall entry, raises_only allowed (body entry)) ->
  forall entries acc, raises_only allowed (collect body entries acc).
Proof.
  intros Hbody entries. induction entries as [| entry rest IH]; simpl; intros acc.
  - apply raises_only_Ok.
  - apply raises_only_bind; [apply Hbody | intros r; apply IH].
Qed.

Lemma safe_int_raises (v : pyval) (default : Z) :
  raises_only [OverflowError] (safe_int B v default).
Proof.
  intros e. unfold safe_int, try_except.
  destruct v as [| b | n | f | s | l | d]; cbn [py_int]; try discriminate.
  - destruct f; cbn [trunc_float except_ValueError_TypeError]; try discriminate.
    intros H. injection H as <-. now left.
  - destruct (int_of_str B s); discriminate.
Qed.

Lemma overflow_check_raises (x : float) : raises_only [OverflowError] (overflow_check x).
Proof.
  intros e. destruct x; simpl; try discriminate. intros H. injection H as <-. now left.
Qed.

Lemma safe_float_raises (v : pyval) (default : float) :
  raises_only [OverflowError] (safe_float B v default).
Proof.
  intros e. unfold safe_float, try_except.
  destruct v as [| b | n | f | s | l | d]; cbn [py_float]; try discriminate.
  - unfold float_of_Z. pose proof (overflow_check_raises (binary_normalize prec emax n 0 false)) as H.
    destruct (overflow_check (binary_normalize prec emax n 0 false)) as [x | e0];
      [discriminate |].
    pose proof (H e0 eq_refl) as [<- | []]. exact (H e).
  - destruct (float_of_str B s); discriminate.
Qed.

Lemma int_truediv_raises (a b : Z) :
  b <> 0 -> raises_only [OverflowError] (int_truediv a b).
Proof.
  intros Hb. unfold int_truediv.
  destruct (Z.eqb_spec b 0) as [E | _]; [now destruct Hb |].
  apply overflow_check_raises.
Qed.

Lemma trunc_float_raises (x : float) :
  raises_only [ValueError; OverflowError] (trunc_float x).
Proof.
  intros e. destruct x; simpl; try discriminate; intros H; injection H as <-;
    simpl; tauto.
Qed.

Lemma known_satellite_raises (v : pyval) : raises_only [TypeError] (known_satellite v).
Proof.
  intros e. destruct v; simpl; try discriminate; intros H; injection H as <-; now left.
Qed.

Lemma obj_get_raises (v : pyval) key default :
  raises_only [AttributeError] (obj_get v key default).
Proof.
  intros e. destruct v; simpl; try discriminate; intros H; injection H as <-; now left.
Qed.

Lemma timestamp_to_datetime_raises (v : pyval) :
  raises_only [ValueError; AttributeError] (timestamp_to_datetime B v).
Proof.
  intros e. destruct v as [| b | n | f | s | l | d]; simpl;
    try (intros H; injection H as <-; simpl; tauto).
  destruct (fromisoformat B _); [discriminate |].
  destruct (fromisoformat B _); [discriminate |].
  intros H. injection H as <-. now left.
Qed.

(** A parse under an [except] clause that names [ValueError]. *)
Lemma parse_under_except_raises {A : Type} (v : pyval) (k : datetime -> A)
    (classes : exn -> bool) (handler : A) :
  classes ValueError = true ->
  raises_only [AttributeError]
    (try_except (dt <- timestamp_to_datetime B v ;; Ok (k dt)) classes (Ok handler)).
Proof.
  intros Hc e. pose proof (timestamp_to_datetime_raises v) as Ht.
  destruct (timestamp_to_datetime B v) as [dt | e0]; simpl; [discriminate |].
  destruct (Ht e0 eq_refl) as [<- | [<- | []]].
  - rewrite Hc. discriminate.
  - destruct (classes AttributeError); [discriminate |].
    intros H. injection H as <-. now left.
Qed.

Lemma get_int_raises (obj : pyval) key :
  raises_only [AttributeError; OverflowError] (get_int B obj key).
Proof.
  unfold get_int. apply raises_only_bind.
  - eapply raises_only_incl; [apply obj_get_raises |]. intros e [<- | []]; simpl; tauto.
  - intros v. eapply raises_only_incl; [apply safe_int_raises |].
    intros e [<- | []]; simpl; tauto.
Qed.

End Exceptions.

(** Splits a goal [raises_only allowed c] along the binds and branches of
    [c], and closes the leaves with the lemmas on the primitives. *)
Ltac raises_leaf B :=
  first
    [ apply raises_only_Ok
    | apply raises_only_Raise; simpl; tauto
    | eapply raises_only_incl;
      [ first [ apply (safe_int_raises B) | apply (safe_float_raises B)
              | apply known_satellite_raises | apply (get_int_raises B)
              | apply (parse_under_except_raises B); reflexivity
              | apply int_truediv_raises; discriminate
              | apply overflow_check_raises
              | apply trunc_float_raises ]
      | intros ? ?; simpl in *; tauto ] ].

Ltac raises_step B :=
  match goal with
  | |- raises_only _ (bind _ _) => apply raises_only_bind; [| intros ?]
  | |- raises_only _ (if ?c then _ else _) => destruct c
  | |- raises_only _ (match ?x with Some _ => _ | None => _ end) => destruct x
  | |- raises_only _ (match ?x with (_, _) => _ end) => destruct x
  | |- raises_only _ _ => raises_leaf B
  end.

Section ExtractionExceptions.

Variable B : builtins.

Lemma satellite_status_of_raises node ts d :
  raises_only [TypeError; AttributeError; OverflowError] (satellite_status_of B node ts d).
Proof.
  unfold satellite_status_of, _calculate_vetting_progress, parse_or_none.
  repeat raises_step B.
Qed.

Lemma build_audit_map_raises entries :
  forall acc, raises_only [TypeError] (build_audit_map entries acc).
Proof.
  induction entries as [| audit rest IH]; simpl; intros acc.
  - apply raises_only_Ok.
  - destruct (truthy (dict_get audit "satelliteID" PNone)); [| apply IH].
    destruct (dict_get audit "satelliteID" PNone); try apply IH;
      apply raises_only_Raise; now left.
Qed.

Lemma update_loop_raises amap sts : raises_only [OverflowError] (update_loop B amap sts).
Proof.
  induction sts as [| st rest IH]; simpl.
  - apply raises_only_Ok.
  - apply raises_only_bind.
    + unfold update_status. destruct (assoc_find amap _); repeat raises_step B.
    + intros r. apply raises_only_bind; [exact IH | intros rs; apply raises_only_Ok].
Qed.

Lemma extract_satellite_status_raises node ts ni si :
  raises_only [TypeError; AttributeError; OverflowError]
    (extract_satellite_status B node ts ni si).
Proof.
  unfold extract_satellite_status. apply raises_only_bind.
  - destruct (satellites ni) as [[| e es] |]; try apply raises_only_Ok.
    apply raises_only_collect. intros entry. apply satellite_status_of_raises.
  - intros sts. destruct (audits si) as [| au aus]; [apply raises_only_Ok |].
    unfold _update_satellite_scores. apply raises_only_bind.
    + eapply raises_only_incl; [apply build_audit_map_raises |].
      intros e [<- | []]; simpl; tauto.
    + intros amap. eapply raises_only_incl; [apply update_loop_raises |].
      intros e [<- | []]; simpl; tauto.
Qed.

Lemma storage_key_raises d :
  raises_only [TypeError; AttributeError; OverflowError] (storage_key B d).
Proof. unfold storage_key, interval_date. repeat raises_step B. Qed.

Lemma storage_loop_raises node entries :
  forall acc,
    raises_only [TypeError; AttributeError; OverflowError] (storage_loop B node entries acc).
Proof.
  induction entries as [| d rest IH]; simpl; intros acc.
  - apply raises_only_Ok.
  - apply raises_only_bind; [apply storage_key_raises |].
    intros [[sid md] |]; [| apply IH].
    apply raises_only_bind; [raises_leaf B | intros bytes; apply IH].
Qed.

Lemma extract_daily_satellite_raises node si :
  raises_only [TypeError; AttributeError; OverflowError]
    (extract_daily_satellite_metrics B node si).
Proof.
  unfold extract_daily_satellite_metrics. apply raises_only_bind.
  - apply raises_only_collect. intros entry.
    unfold bandwidth_metric, interval_date. repeat raises_step B.
  - intros ms. apply storage_loop_raises.
Qed.

Lemma extract_daily_bandwidth_raises node si :
  raises_only [AttributeError; OverflowError] (extract_daily_bandwidth_metrics B node si).
Proof.
  unfold extract_daily_bandwidth_metrics. apply raises_only_collect. intros entry.
  unfold daily_bandwidth_of, interval_date. repeat raises_step B.
Qed.

Lemma div24_raises v : raises_only [TypeError; OverflowError] (div24 v).
Proof.
  destruct v as [| b | n | f | s | l | d]; simpl;
    try (apply raises_only_Raise; simpl; tauto).
  - raises_leaf B.
  - raises_leaf B.
  - unfold float_truediv_int. simpl. apply raises_only_Ok.
Qed.

Lemma extract_daily_storage_raises node si :
  raises_only [TypeError; AttributeError; OverflowError]
    (extract_daily_storage_metrics B node si).
Proof.
  unfold extract_daily_storage_metrics. apply raises_only_collect. intros entry.
  unfold daily_storage_of, interval_date, average_usage_arg.
  repeat (first [ eapply raises_only_incl;
                  [apply div24_raises | intros ? ?; simpl in *; tauto]
                | raises_step B ]).
Qed.

Lemma scores_of_raises key entries : raises_only [OverflowError] (scores_of B key entries).
Proof.
  induction entries as [| audit rest IH]; simpl.
  - apply raises_only_Ok.
  - apply raises_only_bind; [apply safe_float_raises |]. intros x.
    apply raises_only_bind; [exact IH | intros xs; apply raises_only_Ok].
Qed.

Lemma average_or_one_raises scores : raises_only [OverflowError] (average_or_one scores).
Proof.
  destruct scores as [| x xs]; [apply raises_only_Ok |].
  unfold average_or_one, float_truediv_int.
  destruct (Z.eqb_spec (Z.of_nat (List.length (x :: xs))) 0) as [E | _];
    [simpl in E; lia |].
  apply raises_only_bind; [apply overflow_check_raises | intros fb; apply raises_only_Ok].
Qed.

Lemma calculate_uptime_seconds_raises now (s : string) :
  raises_only [OverflowError] (calculate_uptime_seconds B now (PStr s)).
Proof.
  unfold calculate_uptime_seconds.
  assert (Hbody : raises_only [ValueError; TypeError; OverflowError]
                    (start_time <- timestamp_to_datetime B (PStr s) ;;
                     delta <- datetime_sub now start_time ;;
                     seconds <- total_seconds delta ;;
                     trunc_float seconds)).
  { apply raises_only_bind.
    - destruct (timestamp_of_str B s) as [[dt ->] | ->];
        [apply raises_only_Ok | apply raises_only_Raise; now left].
    - intros start. apply raises_only_bind.
      + unfold datetime_sub.
        destruct (utcoffset now), (utcoffset start);
          first [apply raises_only_Ok | apply raises_only_Raise; simpl; tauto].
      + intros delta. unfold total_seconds. repeat raises_step B. }
  intros e. destruct (bind _ _) as [n | e0]; simpl; [discriminate |].
  destruct (Hbody e0 eq_refl) as [<- | [<- | [<- | []]]]; simpl; try discriminate.
  intros H. injection H as <-. now left.
Qed.

Lemma extract_health_raises node ts now ni si :
  raises_only [ValueError; OverflowError] (extract_health_metrics B node ts now ni si).
Proof.
  unfold extract_health_metrics. apply raises_only_bind.
  - destruct (audits si) as [| au aus]; [apply raises_only_Ok |].
    repeat (first [ eapply raises_only_incl;
                    [ first [apply scores_of_raises | apply average_or_one_raises]
                    | intros ? ?; simpl in *; tauto ]
                  | raises_step B ]).
  - intros [[a s] o]. apply raises_only_bind.
    + eapply raises_only_incl; [apply calculate_uptime_seconds_raises |].
      intros e [<- | []]; simpl; tauto.
    + intros uptime. apply raises_only_bind; [| intros pinged; apply raises_only_Ok].
      destruct (timestamp_of_str B (last_pinged ni)) as [[dt ->] | ->];
        [apply raises_only_Ok | apply raises_only_Raise; now left].
Qed.

End ExtractionExceptions.

(** X11: the exception classes of the extractions. [extract_satellite_status],
    [extract_daily_satellite_metrics] and [extract_daily_storage_metrics]
    raise nothing but [TypeError], [AttributeError] and [OverflowError];
    [extract_daily_bandwidth_metrics] nothing but [AttributeError] and
    [OverflowError]; [extract_health_metrics] nothing but [ValueError] and
    [OverflowError]. In particular no daily or status extraction ever raises
    [ValueError], and none divides by zero. *)
Theorem extraction_exception_classes :
  forall B node ts now ni si,
    raises_only [TypeError; AttributeError; OverflowError]
      (extract_satellite_status B node ts ni si)
    /\ raises_only [TypeError; AttributeError; OverflowError]
         (extract_daily_satellite_metrics B node si)
    /\ raises_only [AttributeError; OverflowError]
         (extract_daily_bandwidth_metrics B node si)
    /\ raises_only [TypeError; AttributeError; OverflowError]
         (extract_daily_storage_metrics B node si)
    /\ raises_only [ValueError; OverflowError]
         (extract_health_metrics B node ts now ni si).
Proof.
  intros B node ts now ni si.
  split; [apply extract_satellite_status_raises |].
  split; [apply extract_daily_satellite_raises |].
  split; [apply extract_daily_bandwidth_raises |].
  split; [apply extract_daily_storage_raises | apply extract_health_raises].
Qed.

Lemma extraction_exception_classes_witness :
  extract_satellite_status Reference.runtime "node1" sample_now
    (node_with [infinite_counter_entry]) (satellite_info_with []) = Raise OverflowError
  /\ extract_daily_storage_metrics Reference.runtime "node1" text_total_info
     = Raise TypeError
  /\ extract_health_metrics Reference.runtime "node1" sample_now sample_now
       unpinged_node (satellite_info_with []) = Raise ValueError
  /\ In OverflowError [TypeError; AttributeError; OverflowError]
  /\ In TypeError [TypeError; AttributeError; OverflowError]
  /\ In ValueError [ValueError; OverflowError].
Proof.
  pose proof (extraction_exception_classes Reference.runtime "node1" sample_now sample_now
                (node_with [infinite_counter_entry]) (satellite_info_with []))
    as [Hstatus _].
  pose proof (extraction_exception_classes Reference.runtime "node1" sample_now sample_now
                unpinged_node text_total_info)
    as [_ [_ [_ [Hstorage _]]]].
  pose proof (extraction_exception_classes Reference.runtime "node1" sample_now sample_now
                unpinged_node (satellite_info_with []))
    as [_ [_ [_ [_ Hhealth]]]].
  split; [vm_compute; reflexivity |].
  split; [vm_compute; reflexivity |].
  split; [vm_compute; reflexivity |].
  split; [apply Hstatus; vm_compute; reflexivity |].
  split; [apply Hstorage; vm_compute; reflexivity |].
  apply Hhealth. vm_compute. reflexivity.
Defined.

(** ** The dates of a status *)

(** X12: the join date of a status. In a successful extraction the
    [joinedAt] of every known entry is a string or falsy (anything else
    raises). A falsy one gives [joined_at = None]; a non-empty string gives
    the datetime it parses to, and [None] when it does not parse. A status
    holds a [vetted_at] only when it is vetted. *)
Theorem status_dates :
  forall B node ts ni si rs,
    extract_satellite_status B node ts ni si = Ok rs ->
    Forall2 (fun d r =>
               str_or_falsy (dict_get d "joinedAt" PNone) = true
               /\ (truthy (dict_get d "joinedAt" PNone) = false ->
                   SatelliteStatus.joined_at r = None)
               /\ (forall s,
                      dict_get d "joinedAt" PNone = PStr s -> s <> "" ->
                      (forall dt, timestamp_to_datetime B (PStr s) = Ok dt ->
                                  SatelliteStatus.joined_at r = Some dt)
                      /\ (timestamp_to_datetime B (PStr s) = Raise ValueError ->
                          SatelliteStatus.joined_at r = None))
               /\ (SatelliteStatus.vetted_at r <> None ->
                   SatelliteStatus.is_vetted r = true))
      (filter known_entry (or_empty (satellites ni))) rs.
Proof.
  intros B node ts ni si rs H.
  apply extract_satellite_status_inv in H. destruct H as [amap [_ H]].
  eapply Forall2_impl; [| exact H].
  intros d r [r0 [Hbody Hupd]].
  pose proof (update_status_identity _ _ _ _ Hupd) as [_ [_ [_ [_ Hj]]]].
  pose proof (update_status_fields _ _ _ _ Hupd) as [_ [Hv [_ [Hat _]]]].
  pose proof (satellite_status_of_identity _ _ _ _ _ Hbody) as [_ [_ [_ [_ Hjoin]]]].
  pose proof (satellite_status_of_Some _ _ _ _ _ Hbody) as [_ [_ [_ [Hvat _]]]].
  rewrite Hj, Hv, Hat. clear Hj Hv Hat Hupd Hbody.
  split; [| split; [| split]].
  - unfold str_or_falsy.
    destruct (dict_get d "joinedAt" PNone) as [| b | n | f | s | l | dd] eqn:E;
      try reflexivity;
      (destruct (truthy _) eqn:Et; [| reflexivity]);
      (unfold parse_or_none in Hjoin; simpl in Hjoin; discriminate Hjoin).
  - intros Hf. rewrite Hf in Hjoin. now injection Hjoin.
  - intros s Hs Hne. rewrite Hs in Hjoin. simpl in Hjoin.
    destruct (String.eqb s "") eqn:Es; [apply String.eqb_eq in Es; now destruct Hne |].
    simpl in Hjoin. unfold parse_or_none in Hjoin. split.
    + intros dt Hdt. rewrite Hdt in Hjoin. simpl in Hjoin. now injection Hjoin.
    + intros Hfail. rewrite Hfail in Hjoin. simpl in Hjoin. now injection Hjoin.
  - intros Hsome. destruct (SatelliteStatus.is_vetted r0); [reflexivity |].
    injection Hvat as Hnone. now destruct Hsome.
Qed.

Lemma status_dates_witness :
  exists r1 r2 r3 dt,
    extract_satellite_status Reference.runtime "node1" sample_now
      (node_with [joined_entry; garbled_join_entry; unjoined_entry])
      (satellite_info_with []) = Ok [r1; r2; r3]
    /\ timestamp_to_datetime Reference.runtime (PStr "2025-06-01T08:30:00Z") = Ok dt
    /\ SatelliteStatus.joined_at r1 = Some dt
    /\ SatelliteStatus.joined_at r2 = None
    /\ SatelliteStatus.joined_at r3 = None.
Proof.
  do 4 eexists. split; [vm_compute; reflexivity |].
  split; [vm_compute; reflexivity |].
  pose proof (status_dates Reference.runtime "node1" sample_now
                (node_with [joined_entry; garbled_join_entry; unjoined_entry])
                (satellite_info_with []) _ ltac:(vm_compute; reflexivity)) as H.
  inversion H as [| d1 x1 l1 l1' H1 T1]; subst.
  inversion T1 as [| d2 x2 l2 l2' H2 T2]; subst.
  inversion T2 as [| d3 x3 l3 l3' H3 T3]; subst.
  destruct H1 as [_ [_ [H1 _]]]. destruct H2 as [_ [_ [H2 _]]]. destruct H3 as [_ [H3 _]].
  split; [| split].
  - apply (H1 "2025-06-01T08:30:00Z" eq_refl); [discriminate | vm_compute; reflexivity].
  - apply (H2 "last summer" eq_refl); [discriminate | vm_compute; reflexivity].
  - apply H3. reflexivity.
Defined.

(** ** The health record *)

(** X13: the health record counts every entry of the satellites list, known
    to the registry or not, so its [satellites_count] is never below the
    number of statuses extracted from the same documents; and with an empty
    audits list its three scores are [1.0]. *)
Theorem health_counts_every_satellite :
  forall B node ts ts' now ni si h,
    extract_health_metrics B node ts now ni si = Ok h ->
    HealthMetrics.satellites_count h
    = Z.of_nat (List.length (or_empty (satellites ni)))
    /\ (forall rs, extract_satellite_status B node ts' ni si = Ok rs ->
                   Z.of_nat (List.length rs) <= HealthMetrics.satellites_count h)
    /\ (audits si = [] ->
        HealthMetrics.audit_score h = f_one
        /\ HealthMetrics.suspension_score h = f_one
        /\ HealthMetrics.online_score h = f_one).
Proof.
  intros B node ts ts' now ni si h H.
  unfold extract_health_metrics in H.
  bind_inv H. destruct a as [[x y] z]. bind_inv H. bind_inv H. injection H as <-.
  cbn [HealthMetrics.satellites_count HealthMetrics.audit_score
       HealthMetrics.suspension_score HealthMetrics.online_score].
  assert (Hcount : (match satellites ni with
                    | Some l => Z.of_nat (List.length l)
                    | None => 0
                    end) = Z.of_nat (List.length (or_empty (satellites ni)))).
  { now destruct (satellites ni). }
  rewrite Hcount. split; [reflexivity |]. split.
  - intros rs Hrs. apply extract_satellite_status_inv in Hrs.
    destruct Hrs as [amap [_ Hrs]]. apply Forall2_length in Hrs. rewrite <- Hrs.
    apply Nat2Z.inj_le. apply filter_length_le.
  - intros Hnone. rewrite Hnone in Ha. injection Ha as <- <- <-. auto.
Qed.

Lemma health_counts_every_satellite_witness :
  exists h rs,
    extract_health_metrics Reference.runtime "node1" sample_now sample_now
      (node_with [stranger_entry; vetted_entry]) (satellite_info_with []) = Ok h
    /\ extract_satellite_status Reference.runtime "node1" sample_now
         (node_with [stranger_entry; vetted_entry]) (satellite_info_with []) = Ok rs
    /\ HealthMetrics.satellites_count h = 2
    /\ List.length rs = 1%nat
    /\ HealthMetrics.audit_score h = f_one.
Proof.
  do 2 eexists. split; [vm_compute; reflexivity |]. split; [vm_compute; reflexivity |].
  pose proof (health_counts_every_satellite Reference.runtime "node1" sample_now
                sample_now sample_now
                (node_with [stranger_entry; vetted_entry]) (satellite_info_with [])
                _ ltac:(vm_compute; reflexivity)) as [Hcount [_ Hscores]].
  split; [exact Hcount |]. split; [reflexivity |].
  exact (proj1 (Hscores eq_refl)).
Defined.

(** ** Start times that are no aware timestamps *)

(** X14: two inputs on which [calculate_uptime_seconds] does not measure
    anything. A value that is not a string, [None] included, raises
    [AttributeError], which the handler for [ValueError] and [TypeError] does
    not catch. A string that parses without a UTC offset gives [0]: the
    subtraction from the aware [utc_now()] raises [TypeError], which the
    handler does catch. *)
Theorem uptime_without_aware_start :
  forall B now,
    (forall v, (forall s, v <> PStr s) ->
               calculate_uptime_seconds B now v = Raise AttributeError)
    /\ (forall s start off,
           timestamp_to_datetime B (PStr s) = Ok start ->
           utcoffset start = None ->
           utcoffset now = Some off ->
           calculate_uptime_seconds B now (PStr s) = Ok 0).
Proof.
  intros B now. split.
  - intros v Hv. unfold calculate_uptime_seconds.
    now rewrite (timestamp_of_non_str B v Hv).
  - intros s start off Hstart Hnaive Haware. unfold calculate_uptime_seconds.
    rewrite Hstart. cbn [bind]. unfold datetime_sub. now rewrite Hnaive, Haware.
Qed.

Lemma uptime_without_aware_start_witness :
  calculate_uptime_seconds Reference.runtime sample_now PNone = Raise AttributeError
  /\ calculate_uptime_seconds Reference.runtime sample_now naive_hour_ago_start = Ok 0.
Proof.
  pose proof (uptime_without_aware_start Reference.runtime sample_now) as [Hnone Hnaive].
  split.
  - apply Hnone. intros s. discriminate.
  - apply (Hnaive "2025-09-14T22:00:00" (mk_datetime 63893484000000000 None) 0);
      [vm_compute; reflexivity | reflexivity | reflexivity].
Defined.

(** ** A storage total that is text *)

Lemma dict_get_any_default (d : dict) key (v : pyval) (default other : pyval) :
  dict_get d key default = v -> v <> default -> dict_get d key other = v.
Proof.
  intros Hget Hne. destruct (dict_has d key) eqn:E.
  - now rewrite (dict_get_present d key other default E).
  - rewrite (dict_get_absent d key default E) in Hget. now destruct Hne.
Qed.

(** X15: [extract_daily_storage_metrics] divides [atRestTotal] by 24 before
    [safe_int] sees it. An entry with a usable interval start whose
    [atRestTotal] is a non-empty string therefore raises [TypeError], and the
    extraction returns no record at all, those of the entries before it
    included. *)
Theorem text_storage_total_raises :
  forall B node si before entry after ms0 metric_date bytes s,
    storage_daily si = Some (before ++ entry :: after) ->
    collect (daily_storage_of B node) before [] = Ok ms0 ->
    truthy (dict_get entry "intervalStart" (PStr "")) = true ->
    interval_date B except_ValueError (dict_get entry "intervalStart" (PStr ""))
    = Ok (Some metric_date) ->
    safe_int B (dict_get entry "atRestTotalBytes" (PInt 0)) 0 = Ok bytes ->
    dict_get entry "atRestTotal" PNone = PStr s ->
    s <> "" ->
    extract_daily_storage_metrics B node si = Raise TypeError.
Proof.
  intros B node si before entry after ms0 metric_date bytes s
    Hlist Hbefore Htruthy Hdate Hbytes Htotal Hne.
  unfold extract_daily_storage_metrics. rewrite Hlist. cbn [or_empty].
  assert (Hentry : daily_storage_of B node entry = Raise TypeError).
  { unfold daily_storage_of. rewrite Htruthy. cbn [negb]. rewrite Hdate. cbn [bind].
    rewrite Hbytes. cbn [bind]. unfold average_usage_arg.
    rewrite Htotal.
    rewrite (dict_get_any_default entry "atRestTotal" (PStr s) PNone (PInt 0) Htotal)
      by discriminate.
    cbn [truthy]. destruct (String.eqb s "") eqn:Es;
      [apply String.eqb_eq in Es; now destruct Hne |].
    reflexivity. }
  clear Hlist. revert Hbefore. generalize (@nil DailyStorageMetrics.t) as acc.
  induction before as [| e rest IH]; cbn [app collect]; intros acc Hbefore.
  - now rewrite Hentry.
  - destruct (daily_storage_of B node e) as [o | x]; cbn [bind] in *;
      [now apply IH | discriminate Hbefore].
Qed.

Lemma text_storage_total_raises_witness :
  extract_daily_storage_metrics Reference.runtime "node1" text_total_info
  = Raise TypeError.
Proof.
  apply (text_storage_total_raises Reference.runtime "node1" text_total_info
           [storage_entry] text_total_entry []
           [DailyStorageMetrics.mk "node1" 739507 50000000000 50000000000]
           739507 50000000000 "1.2e12").
  - reflexivity.
  - vm_compute. reflexivity.
  - reflexivity.
  - vm_compute. reflexivity.
  - reflexivity.
  - reflexivity.
  - discriminate.
Defined.

(** ** The retries of [fetch_json] *)

Lemma attempts_success (c : Fetch.client) server k json :
  (forall i, (i < k)%nat -> exists code, server i = Fetch.HttpError code) ->
  server k = Fetch.Body json ->
  Z.of_nat k <= Fetch.max_retries c ->
  forall done todo last,
    (done <= k)%nat -> (k - done < todo)%nat ->
    Fetch.attempts c server todo done last
    = (Fetch.Returned json, Fetch.retries c (k - done) ++ [Fetch.Get]).
Proof.
  intros Hfail Hbody Hk done todo. revert done.
  induction todo as [| todo IH]; intros done last Hdone Htodo; [lia |].
  cbn [Fetch.attempts].
  destruct (Nat.eq_dec done k) as [-> | Hne].
  - rewrite Hbody, Nat.sub_diag. reflexivity.
  - destruct (Hfail done ltac:(lia)) as [code ->].
    rewrite (IH (S done) (Some code)) by lia.
    replace (Z.of_nat done <? Fetch.max_retries c) with true
      by (symmetry; apply Z.ltb_lt; lia).
    replace (k - done)%nat with (S (k - S done)) by lia. reflexivity.
Qed.

Lemma attempts_failure (c : Fetch.client) server :
  forall todo done last,
    (forall i, (done <= i < done + todo)%nat -> exists code, server i = Fetch.HttpError code) ->
    Z.of_nat (done + todo) = Fetch.max_retries c + 1 ->
    (0 < todo)%nat ->
    exists code,
      server (done + todo - 1)%nat = Fetch.HttpError code
      /\ Fetch.attempts c server todo done last
         = (Fetch.RaisedHttp code, Fetch.retries c (todo - 1) ++ [Fetch.Get]).
Proof.
  induction todo as [| todo IH]; intros done last Hfail Hlen Hpos; [lia |].
  cbn [Fetch.attempts].
  destruct (Hfail done ltac:(lia)) as [code Hcode]. rewrite Hcode.
  destruct todo as [| todo'].
  - exists code. split.
    + replace (done + 1 - 1)%nat with done by lia. exact Hcode.
    + cbn [Fetch.attempts].
      replace (Z.of_nat done <? Fetch.max_retries c) with false
        by (symmetry; apply Z.ltb_ge; lia).
      reflexivity.
  - destruct (IH (S done) (Some code)) as [code' [Hlast Hrun]]; try lia.
    + intros i Hi. apply Hfail. lia.
    + exists code'. split.
      * replace (done + S (S todo') - 1)%nat with (S done + S todo' - 1)%nat by lia.
        exact Hlast.
      * rewrite Hrun.
        replace (Z.of_nat done <? Fetch.max_retries c) with true
          by (symmetry; apply Z.ltb_lt; lia).
        replace (S (S todo') - 1)%nat with (S (S todo' - 1)) by lia. reflexivity.
Qed.

(** X16: [fetch_json] returns the first body it gets. When the first [k]
    requests fail with an HTTP error, [k] being at most [max_retries], and
    the next one succeeds, the call returns that body after [k + 1] requests
    and [k] sleeps of [retry_delay], one after each failure. *)
Theorem fetch_json_first_success :
  forall c server k json,
    Fetch.initialized c = true ->
    (forall i, (i < k)%nat -> exists code, server i = Fetch.HttpError code) ->
    server k = Fetch.Body json ->
    Z.of_nat k <= Fetch.max_retries c ->
    Fetch.fetch_json c server
    = (Fetch.Returned json, Fetch.retries c k ++ [Fetch.Get]).
Proof.
  intros c server k json Hinit Hfail Hbody Hk. unfold Fetch.fetch_json. rewrite Hinit.
  rewrite (attempts_success c server k json Hfail Hbody Hk) by lia.
  now rewrite Nat.sub_0_r.
Qed.

Lemma fetch_json_first_success_witness :
  Fetch.fetch_json Fetch.default_client Fetch.flaky_server
  = (Fetch.Returned (PDict [("nodeID", PStr "node1_id")]),
     [Fetch.Get; Fetch.Sleep 5; Fetch.Get; Fetch.Sleep 5; Fetch.Get]).
Proof.
  apply (fetch_json_first_success Fetch.default_client Fetch.flaky_server 2).
  - reflexivity.
  - intros i Hi. exists 503.
    destruct i as [| [| i]]; [reflexivity | reflexivity | lia].
  - reflexivity.
  - vm_compute. discriminate.
Defined.

(** X17: [fetch_json] gives up after [max_retries + 1] requests. When all of
    them fail with an HTTP error the call raises the error of the last one,
    having slept [max_retries] times: once after every failure but the last.
    With a negative [max_retries] no request is made and the final [raise]
    finds nothing to raise. An exception of another class ends the call at
    once, without a retry. *)
Theorem fetch_json_gives_up :
  forall c server,
    Fetch.initialized c = true ->
    (0 <= Fetch.max_retries c ->
     (forall i, Z.of_nat i <= Fetch.max_retries c ->
                exists code, server i = Fetch.HttpError code) ->
     exists code,
       server (Z.to_nat (Fetch.max_retries c)) = Fetch.HttpError code
       /\ Fetch.fetch_json c server
          = (Fetch.RaisedHttp code,
             Fetch.retries c (Z.to_nat (Fetch.max_retries c)) ++ [Fetch.Get]))
    /\ (Fetch.max_retries c < 0 ->
        Fetch.fetch_json c server = (Fetch.NothingToRaise, []))
    /\ (forall what, 0 <= Fetch.max_retries c -> server 0%nat = Fetch.OtherError what ->
                     Fetch.fetch_json c server = (Fetch.RaisedOther what, [Fetch.Get])).
Proof.
  intros c server Hinit. unfold Fetch.fetch_json. rewrite Hinit. split; [| split].
  - intros Hpos Hfail.
    destruct (attempts_failure c server (Z.to_nat (Fetch.max_retries c + 1)) 0 None)
      as [code [Hlast Hrun]]; try lia.
    + intros i Hi. apply Hfail. lia.
    + exists code. split.
      * replace (Z.to_nat (Fetch.max_retries c))
          with (0 + Z.to_nat (Fetch.max_retries c + 1) - 1)%nat by lia.
        exact Hlast.
      * rewrite Hrun. repeat f_equal. lia.
  - intros Hneg. replace (Z.to_nat (Fetch.max_retries c + 1)) with 0%nat by lia.
    reflexivity.
  - intros what Hpos Hother.
    destruct (Z.to_nat (Fetch.max_retries c + 1)) as [| n] eqn:E; [lia |].
    cbn [Fetch.attempts]. now rewrite Hother.
Qed.

Lemma fetch_json_gives_up_witness :
  Fetch.fetch_json Fetch.default_client Fetch.dead_server
  = (Fetch.RaisedHttp 503,
     [Fetch.Get; Fetch.Sleep 5; Fetch.Get; Fetch.Sleep 5; Fetch.Get; Fetch.Sleep 5;
      Fetch.Get])
  /\ Fetch.fetch_json (Fetch.mk_client true (-1) 5) Fetch.dead_server
     = (Fetch.NothingToRaise, []).
Proof.
  split.
  - destruct (proj1 (fetch_json_gives_up Fetch.default_client Fetch.dead_server eq_refl))
      as [code [Hlast Hrun]].
    + vm_compute. discriminate.
    + intros i _. eexists. reflexivity.
    + vm_compute in Hlast. injection Hlast as <-. exact Hrun.
  - apply (proj1 (proj2 (fetch_json_gives_up (Fetch.mk_client true (-1) 5)
                           Fetch.dead_server eq_refl))).
    reflexivity.
Defined.

(** ** The units of [human_readable_to_bytes] *)

(** A string that ends with [u] ends with every ending of [u]. *)
Lemma endswith_trans (s u t : string) :
  endswith s u = true -> endswith u t = true -> endswith s t = true.
Proof.
  intros Hsu Hut. induction s as [| c rest IH]; cbn [endswith] in *.
  - rewrite orb_false_r in Hsu. apply String.eqb_eq in Hsu. subst u.
    cbn [endswith] in Hut. exact Hut.
  - apply orb_true_iff in Hsu. destruct Hsu as [Heq | Hrest].
    + apply String.eqb_eq in Heq. subst u. cbn [endswith] in Hut. exact Hut.
    + rewrite (IH Hrest). apply orb_true_r.
Qed.

Section SizeFacts.

Variable B : builtins.
Variable strip upper : string -> string.

(** Past a unit the string does not end with, the loop goes on. *)
Lemma unit_loop_miss size_str items :
  Forall (fun item => endswith size_str (fst item) = false) items ->
  unit_loop B strip size_str items = Raise ValueError.
Proof.
  induction 1 as [| [unit multiplier] rest Hitem _ IH]; simpl; [reflexivity |].
  simpl in Hitem. now rewrite Hitem.
Qed.

Lemma unit_loop_bytes_first size_str rest :
  Forall (fun item => endswith (fst item) "B" = true) rest ->
  unit_loop B strip size_str (("B", 1) :: rest)
  = unit_loop B strip size_str [("B", 1)].
Proof.
  intros Hrest. cbn [unit_loop].
  destruct (endswith size_str "B") eqn:E; [reflexivity |].
  apply unit_loop_miss.
  eapply Forall_impl; [| exact Hrest]. intros [unit multiplier] Hunit. cbn [fst] in *.
  destruct (endswith size_str unit) eqn:Eu; [| reflexivity].
  now rewrite (endswith_trans _ _ _ Eu Hunit) in E.
Qed.

End SizeFacts.

(** X18: [human_readable_to_bytes] never applies a multiplier. The loop
    meets the unit [B] first, and every string that ends with [KB], [MB],
    [GB], [TB] or [PB] ends with [B]: it is read as a number of bytes, and
    the [break] after the failed conversion leads to the final [raise]. The
    function is the one whose table of units holds [B] alone. *)
Theorem only_bytes_are_converted :
  forall B strip upper size_str,
    human_readable_to_bytes B strip upper size_str
    = try_except (int_of_float_text B (upper (strip size_str))) except_ValueError
        (unit_loop B strip (upper (strip size_str)) [("B", 1)]).
Proof.
  intros B strip upper size_str. unfold human_readable_to_bytes, units.
  rewrite unit_loop_bytes_first; [reflexivity |].
  repeat constructor.
Qed.

(** The conversions the tests of the repository expect to give [1024] and
    [2097152] raise [ValueError]; plain numbers and bytes convert. *)
Lemma kilobytes_are_not_converted :
  human_readable_to_bytes Reference.runtime Text.strip Text.upper "1 KB" = Raise ValueError
  /\ human_readable_to_bytes Reference.runtime Text.strip Text.upper "2 mb" = Raise ValueError
  /\ human_readable_to_bytes Reference.runtime Text.strip Text.upper " 1024 " = Ok 1024
  /\ human_readable_to_bytes Reference.runtime Text.strip Text.upper "512 b" = Ok 512.
Proof. repeat split; vm_compute; reflexivity. Qed.

(** ** A collection cycle, node by node *)

Section CycleFacts.

Variable B : builtins.

(** A node adds to the lists behind what they hold, and what it adds does
    not depend on what they hold. *)
Lemma collect_from_app job m :
  Cycle.node_ids (collect_from B job m)
  = Cycle.node_ids (contribution B job) ++ Cycle.node_ids m
  /\ Cycle.disk (collect_from B job m) = Cycle.disk m ++ Cycle.disk (contribution B job)
  /\ Cycle.bandwidth (collect_from B job m)
     = Cycle.bandwidth m ++ Cycle.bandwidth (contribution B job)
  /\ Cycle.health (collect_from B job m)
     = Cycle.health m ++ Cycle.health (contribution B job)
  /\ Cycle.daily_bandwidth (collect_from B job m)
     = Cycle.daily_bandwidth m ++ Cycle.daily_bandwidth (contribution B job)
  /\ Cycle.daily_storage (collect_from B job m)
     = Cycle.daily_storage m ++ Cycle.daily_storage (contribution B job)
  /\ Cycle.satellite_status (collect_from B job m)
     = Cycle.satellite_status m ++ Cycle.satellite_status (contribution B job)
  /\ Cycle.daily_satellite (collect_from B job m)
     = Cycle.daily_satellite m ++ Cycle.daily_satellite (contribution B job).
Proof.
  unfold contribution, collect_from.
  destruct (Job.fetched job) as [data |]; [| simpl; now rewrite !app_nil_r].
  destruct (extract_health_metrics B _ _ _ _ _);
    [| simpl; now rewrite !app_nil_r].
  destruct (extract_daily_bandwidth_metrics B _ _);
    [| simpl; now rewrite !app_nil_r].
  destruct (extract_daily_storage_metrics B _ _);
    [| simpl; now rewrite !app_nil_r].
  destruct (extract_satellite_status B _ _ _ _);
    [| simpl; now rewrite !app_nil_r].
  destruct (extract_daily_satellite_metrics B _ _); simpl; now rewrite ?app_nil_r.
Qed.

Lemma collect_loop_from jobs :
  forall m,
    let run := fold_left (fun m job => collect_from B job m) jobs m in
    Cycle.disk run = Cycle.disk m ++ flat_map (fun j => Cycle.disk (contribution B j)) jobs
    /\ Cycle.bandwidth run
       = Cycle.bandwidth m ++ flat_map (fun j => Cycle.bandwidth (contribution B j)) jobs
    /\ Cycle.health run
       = Cycle.health m ++ flat_map (fun j => Cycle.health (contribution B j)) jobs
    /\ Cycle.daily_bandwidth run
       = Cycle.daily_bandwidth m
         ++ flat_map (fun j => Cycle.daily_bandwidth (contribution B j)) jobs
    /\ Cycle.daily_storage run
       = Cycle.daily_storage m
         ++ flat_map (fun j => Cycle.daily_storage (contribution B j)) jobs
    /\ Cycle.satellite_status run
       = Cycle.satellite_status m
         ++ flat_map (fun j => Cycle.satellite_status (contribution B j)) jobs
    /\ Cycle.daily_satellite run
       = Cycle.daily_satellite m
         ++ flat_map (fun j => Cycle.daily_satellite (contribution B j)) jobs.
Proof.
  induction jobs as [| job rest IH]; intros m; cbn [fold_left flat_map].
  - now rewrite !app_nil_r.
  - destruct (IH (collect_from B job m)) as [H1 [H2 [H3 [H4 [H5 [H6 H7]]]]]].
    destruct (collect_from_app job m) as [_ [A1 [A2 [A3 [A4 [A5 [A6 A7]]]]]]].
    cbv zeta in *.
    rewrite H1, H2, H3, H4, H5, H6, H7, A1, A2, A3, A4, A5, A6, A7.
    now rewrite <- !app_assoc.
Qed.

(** The node name on the rows of the two daily extractions of the service. *)
Lemma extract_daily_bandwidth_node node si ms :
  extract_daily_bandwidth_metrics B node si = Ok ms ->
  Forall (fun r => DailyBandwidthMetrics.node_name r = node) ms.
Proof.
  unfold extract_daily_bandwidth_metrics. intros H.
  eapply collect_Forall; [| constructor | exact H].
  intros entry m Hm. unfold daily_bandwidth_of in Hm.
  destruct (negb _); [discriminate Hm |].
  bind_inv Hm. destruct a as [metric_date |]; [| discriminate Hm].
  repeat bind_inv Hm. now injection Hm as <-.
Qed.

Lemma extract_daily_storage_node node si ms :
  extract_daily_storage_metrics B node si = Ok ms ->
  Forall (fun r => DailyStorageMetrics.node_name r = node) ms.
Proof.
  unfold extract_daily_storage_metrics. intros H.
  eapply collect_Forall; [| constructor | exact H].
  intros entry m Hm. unfold daily_storage_of in Hm.
  destruct (negb _); [discriminate Hm |].
  bind_inv Hm. destruct a as [metric_date |]; [| discriminate Hm].
  repeat bind_inv Hm. now injection Hm as <-.
Qed.

Lemma extract_satellite_status_node node ts ni si rs :
  extract_satellite_status B node ts ni si = Ok rs ->
  Forall (fun r => SatelliteStatus.node_name r = node) rs.
Proof.
  intros H. apply extract_satellite_status_inv in H. destruct H as [amap [_ H]].
  induction H as [| d r ds rs' [r0 [Hbody Hupd]] _ IH]; constructor; [| exact IH].
  destruct (update_status_identity B _ _ _ Hupd) as [-> _].
  now destruct (satellite_status_of_identity B _ _ _ _ Hbody).
Qed.

Lemma extract_daily_satellite_node node si ms :
  extract_daily_satellite_metrics B node si = Ok ms ->
  Forall (fun r => DailySatellite.node_name r = node) ms.
Proof.
  intros H. eapply (extract_daily_satellite_Forall B); [| | | exact H].
  - intros d m Hm. now destruct (bandwidth_metric_fields B _ _ _ Hm).
  - intros m bytes Hm. exact Hm.
  - intros sid md bytes _. reflexivity.
Qed.

(** Every row a job adds to the four upserted lists carries its name. *)
Lemma contribution_names job :
  Forall (fun r => DailyBandwidthMetrics.node_name r = Job.name job)
    (Cycle.daily_bandwidth (contribution B job))
  /\ Forall (fun r => DailyStorageMetrics.node_name r = Job.name job)
       (Cycle.daily_storage (contribution B job))
  /\ Forall (fun r => SatelliteStatus.node_name r = Job.name job)
       (Cycle.satellite_status (contribution B job))
  /\ Forall (fun r => DailySatellite.node_name r = Job.name job)
       (Cycle.daily_satellite (contribution B job)).
Proof.
  unfold contribution, collect_from.
  destruct (Job.fetched job) as [data |]; [| simpl; repeat split; constructor].
  destruct (extract_health_metrics B _ _ _ _ _);
    [| simpl; repeat split; constructor].
  destruct (extract_daily_bandwidth_metrics B _ _) as [bw | e] eqn:Ebw;
    [| simpl; repeat split; constructor].
  apply extract_daily_bandwidth_node in Ebw.
  destruct (extract_daily_storage_metrics B _ _) as [st | e] eqn:Est;
    [| simpl; repeat split; solve [constructor | exact Ebw]].
  apply extract_daily_storage_node in Est.
  destruct (extract_satellite_status B _ _ _ _) as [ss | e] eqn:Ess;
    [| simpl; repeat split; solve [constructor | exact Ebw | exact Est]].
  apply extract_satellite_status_node in Ess.
  destruct (extract_daily_satellite_metrics B _ _) as [ds | e] eqn:Eds;
    [apply extract_daily_satellite_node in Eds |];
    simpl; repeat split; solve [constructor | assumption].
Qed.

End CycleFacts.

(** X19: the nodes of a cycle do not interfere. Each of the seven lists of
    [all_metrics] is, after the loop of [collect_all_metrics], the
    concatenation in node order of what every node adds when handled alone:
    a node that fails removes and changes nothing of the others. *)
Theorem cycle_is_concatenation :
  forall B jobs,
    Cycle.disk (collect_loop B jobs)
    = flat_map (fun j => Cycle.disk (contribution B j)) jobs
    /\ Cycle.bandwidth (collect_loop B jobs)
       = flat_map (fun j => Cycle.bandwidth (contribution B j)) jobs
    /\ Cycle.health (collect_loop B jobs)
       = flat_map (fun j => Cycle.health (contribution B j)) jobs
    /\ Cycle.daily_bandwidth (collect_loop B jobs)
       = flat_map (fun j => Cycle.daily_bandwidth (contribution B j)) jobs
    /\ Cycle.daily_storage (collect_loop B jobs)
       = flat_map (fun j => Cycle.daily_storage (contribution B j)) jobs
    /\ Cycle.satellite_status (collect_loop B jobs)
       = flat_map (fun j => Cycle.satellite_status (contribution B j)) jobs
    /\ Cycle.daily_satellite (collect_loop B jobs)
       = flat_map (fun j => Cycle.daily_satellite (contribution B j)) jobs.
Proof.
  intros B jobs. exact (collect_loop_from B jobs Cycle.empty).
Qed.

(** X20: what a node leaves in [all_metrics] when a step of its [try] block
    raises. Without documents it leaves nothing. With documents it always
    leaves its node id, one disk and one bandwidth metric; when the health
    extraction raises, nothing else; when the status extraction raises after
    the health and the two daily extractions went through, their results but
    no status and no daily satellite record. *)
Theorem partial_contribution :
  forall B job,
    (Job.fetched job = None -> contribution B job = Cycle.empty)
    /\ (forall data,
           Job.fetched job = Some data ->
           let node := Job.name job in
           let clock := Job.clock job in
           let ni := NodeData.node_info data in
           let si := NodeData.satellite_info data in
           let c := contribution B job in
           Cycle.node_ids c = [(node, node_id ni)]
           /\ Cycle.disk c = [extract_disk_metrics node (Clock.disk clock) data]
           /\ Cycle.bandwidth c
              = [extract_bandwidth_metrics node (Clock.bandwidth clock) data]
           /\ (forall e,
                  extract_health_metrics B node (Clock.health clock) (Clock.uptime clock)
                    ni si = Raise e ->
                  Cycle.health c = [] /\ Cycle.daily_bandwidth c = []
                  /\ Cycle.daily_storage c = [] /\ Cycle.satellite_status c = []
                  /\ Cycle.daily_satellite c = [])
           /\ (forall h bw st e,
                  extract_health_metrics B node (Clock.health clock) (Clock.uptime clock)
                    ni si = Ok h ->
                  extract_daily_bandwidth_metrics B node si = Ok bw ->
                  extract_daily_storage_metrics B node si = Ok st ->
                  extract_satellite_status B node (Clock.status clock) ni si = Raise e ->
                  Cycle.health c = [h] /\ Cycle.daily_bandwidth c = bw
                  /\ Cycle.daily_storage c = st /\ Cycle.satellite_status c = []
                  /\ Cycle.daily_satellite c = [])).
Proof.
  intros B job. unfold contribution, collect_from. split.
  - now intros ->.
  - intros data ->. cbv zeta. split; [| split; [| split; [| split]]].
    + destruct (extract_health_metrics B _ _ _ _ _); [| reflexivity].
      destruct (extract_daily_bandwidth_metrics B _ _); [| reflexivity].
      destruct (extract_daily_storage_metrics B _ _); [| reflexivity].
      destruct (extract_satellite_status B _ _ _ _); [| reflexivity].
      destruct (extract_daily_satellite_metrics B _ _); reflexivity.
    + destruct (extract_health_metrics B _ _ _ _ _); [| reflexivity].
      destruct (extract_daily_bandwidth_metrics B _ _); [| reflexivity].
      destruct (extract_daily_storage_metrics B _ _); [| reflexivity].
      destruct (extract_satellite_status B _ _ _ _); [| reflexivity].
      destruct (extract_daily_satellite_metrics B _ _); reflexivity.
    + destruct (extract_health_metrics B _ _ _ _ _); [| reflexivity].
      destruct (extract_daily_bandwidth_metrics B _ _); [| reflexivity].
      destruct (extract_daily_storage_metrics B _ _); [| reflexivity].
      destruct (extract_satellite_status B _ _ _ _); [| reflexivity].
      destruct (extract_daily_satellite_metrics B _ _); reflexivity.
    + intros e ->. repeat split.
    + intros h bw st e -> -> -> ->. repeat split.
Qed.

Lemma partial_contribution_witness :
  contribution Reference.runtime down_job = Cycle.empty
  /\ Cycle.node_ids (contribution Reference.runtime unpinged_job) = [("node3", "node1_id")]
  /\ List.length (Cycle.disk (contribution Reference.runtime unpinged_job)) = 1%nat
  /\ Cycle.health (contribution Reference.runtime unpinged_job) = []
  /\ Cycle.daily_satellite (contribution Reference.runtime unpinged_job) = [].
Proof.
  pose proof (partial_contribution Reference.runtime down_job) as [Hdown _].
  pose proof (partial_contribution Reference.runtime unpinged_job) as [_ Hup].
  specialize (Hup unpinged_data eq_refl). cbv zeta in Hup.
  destruct Hup as [Hids [Hdisk [_ [Hhealth _]]]].
  destruct (Hhealth ValueError ltac:(vm_compute; reflexivity)) as [Hh [_ [_ [_ Hds]]]].
  split; [apply Hdown; reflexivity |].
  split; [exact Hids |].
  split; [now rewrite Hdisk |].
  split; assumption.
Defined.

(** ** The node ids on record *)

Lemma update_node_id_names value name rows :
  map fst (update_node_id value name rows) = map fst rows.
Proof.
  unfold update_node_id. rewrite map_map. apply map_ext.
  intros [n [id |]]; [reflexivity |]. now destruct (String.eqb n name).
Qed.

Lemma update_node_id_keeps value name rows n id :
  In (n, Some id) rows -> In (n, Some id) (update_node_id value name rows).
Proof.
  intros H. unfold update_node_id. apply in_map_iff. now exists (n, Some id).
Qed.

Lemma update_node_id_other value name rows n :
  n <> name -> In (n, None) rows -> In (n, None) (update_node_id value name rows).
Proof.
  intros Hne H. unfold update_node_id. apply in_map_iff. exists (n, None).
  split; [| exact H]. apply String.eqb_neq in Hne. now rewrite Hne.
Qed.

Lemma update_node_id_fills value name rows :
  In (name, None) rows -> In (name, value) (update_node_id value name rows).
Proof.
  intros H. unfold update_node_id. apply in_map_iff. exists (name, None).
  split; [| exact H]. now rewrite String.eqb_refl.
Qed.

Lemma update_node_ids_keeps names ids :
  forall rows n id,
    In (n, Some id) rows -> In (n, Some id) (update_node_ids names ids rows).
Proof.
  unfold update_node_ids.
  induction names as [| name rest IH]; simpl; intros rows n id H; [exact H |].
  apply IH. now apply update_node_id_keeps.
Qed.

Lemma update_node_ids_names names ids :
  forall rows, map fst (update_node_ids names ids rows) = map fst rows.
Proof.
  unfold update_node_ids.
  induction names as [| name rest IH]; simpl; intros rows; [reflexivity |].
  now rewrite IH, update_node_id_names.
Qed.

Lemma update_node_ids_fills names ids n id :
  In n names -> assoc_find ids n = Some id ->
  forall rows, In (n, None) rows -> In (n, Some id) (update_node_ids names ids rows).
Proof.
  intros Hin Hid. unfold update_node_ids.
  induction names as [| name rest IH]; simpl; intros rows Hrow; [destruct Hin |].
  destruct (string_dec name n) as [-> | Hne].
  - apply (update_node_ids_keeps rest ids). rewrite <- Hid.
    now apply update_node_id_fills.
  - destruct Hin as [Heq | Hin]; [now destruct Hne |].
    apply (IH Hin). apply update_node_id_other; [congruence | exact Hrow].
Qed.

(** The tables after a cycle whose store was committed. *)
Lemma store_cycle_Some e names m db db' :
  store_cycle e names m db = Some db' ->
  Store.nodes db' = update_node_ids names (Cycle.node_ids m) (Store.nodes db)
  /\ Store.metrics_disk db' = Store.metrics_disk db ++ Cycle.disk m
  /\ Store.metrics_bandwidth db' = Store.metrics_bandwidth db ++ Cycle.bandwidth m
  /\ Store.metrics_health db' = Store.metrics_health db ++ Cycle.health m
  /\ store_metrics e
       (mk_all_metrics (Cycle.daily_bandwidth m) (Cycle.daily_storage m)
          (Cycle.satellite_status m) (Cycle.daily_satellite m))
       (Store.upserted db)
     = Some (Store.upserted db').
Proof.
  unfold store_cycle, store_statements, store_metrics, insert_loop.
  destruct e; [| discriminate].
  destruct (forallb disk_binds _); [| discriminate].
  destruct (forallb bandwidth_binds _); [| discriminate].
  destruct (forallb health_binds _); [| discriminate].
  cbn [bind].
  destruct (upsert_loops _ _) as [up | x]; [| discriminate].
  cbn [bind]. intros H. injection H as <-. cbn. repeat split.
Qed.

(** X21: [store_metrics] records a node id once. A row of [nodes] that holds
    an id keeps it through every store, whatever the cycle fetched and
    whether the store is committed or not; no row is added, removed or
    renamed; and a row without an id, of a configured node whose documents
    the cycle fetched, holds after a store that is committed the id the
    cycle holds for that name. (A store that raises loses the update of
    [nodes] with the rest of the transaction: the row stays without an
    id.) *)
Theorem node_id_recorded_once :
  forall e names m db,
    (forall n id, In (n, Some id) (Store.nodes db) ->
                  In (n, Some id) (Store.nodes (after_cycle e names m db)))
    /\ map fst (Store.nodes (after_cycle e names m db)) = map fst (Store.nodes db)
    /\ (forall db' n id,
           store_cycle e names m db = Some db' ->
           In (n, None) (Store.nodes db) -> In n names ->
           assoc_find (Cycle.node_ids m) n = Some id ->
           In (n, Some id) (Store.nodes db')
           /\ after_cycle e names m db = db')
    /\ (store_cycle e names m db = None -> after_cycle e names m db = db).
Proof.
  intros e names m db. unfold after_cycle.
  destruct (store_cycle e names m db) as [db1 |] eqn:E.
  - destruct (store_cycle_Some _ _ _ _ _ E) as [Hnodes _]. rewrite Hnodes.
    split; [| split; [| split]].
    + intros n id. apply update_node_ids_keeps.
    + apply update_node_ids_names.
    + intros db' n id Hdb' Hrow Hin Hid. injection Hdb' as <-.
      split; [| reflexivity]. rewrite Hnodes.
      now apply (update_node_ids_fills names _ n id).
    + discriminate.
  - split; [| split; [| split]]; try easy.
Qed.

Lemma node_id_recorded_once_witness :
  exists db',
    store_cycle Sound (map Job.name [up_job; down_job; unpinged_job])
      (collect_loop Reference.runtime [up_job; down_job; unpinged_job]) sample_store
    = Some db'
    /\ Store.nodes db'
       = [ ("node1", Some "node1_id"); ("node2", Some "old_id_of_node2");
           ("node3", Some "node1_id") ]
    /\ In ("node2", Some "old_id_of_node2")
         (Store.nodes (collect_all_metrics Sound Reference.runtime
                         [up_job; down_job; unpinged_job] sample_store))
    /\ In ("node1", Some "node1_id") (Store.nodes db').
Proof.
  pose proof (node_id_recorded_once Sound
                (map Job.name [up_job; down_job; unpinged_job])
                (collect_loop Reference.runtime [up_job; down_job; unpinged_job])
                sample_store) as [Hkeep [_ [Hfill _]]].
  eexists. split; [vm_compute; reflexivity |]. split; [reflexivity |]. split.
  - apply Hkeep. right. left. reflexivity.
  - apply Hfill; [vm_compute; reflexivity | left; reflexivity | left; reflexivity
                 | vm_compute; reflexivity].
Defined.

(** ** The rows of a node that is down *)

Section NodeRows.

Context {Row Key : Type}.
Variable key_of : Row -> Key.
Variable key_eqb : Key -> Key -> bool.
Variable of_node : Row -> bool.

(** Rows with the same key are rows of the same node. *)
Hypothesis key_names :
  forall r1 r2, key_eqb (key_of r1) (key_of r2) = true -> of_node r1 = of_node r2.

Lemma insert_or_replace_other_node table row :
  of_node row = false ->
  filter of_node (insert_or_replace key_of key_eqb table row) = filter of_node table.
Proof.
  intros Hrow. unfold insert_or_replace. rewrite filter_app. simpl.
  rewrite Hrow, app_nil_r.
  induction table as [| r rest IH]; simpl; [reflexivity |].
  unfold has_key at 1.
  destruct (key_eqb (key_of r) (key_of row)) eqn:E; simpl.
  - rewrite (key_names _ _ E), Hrow. exact IH.
  - destruct (of_node r); [now rewrite IH | exact IH].
Qed.

Lemma upsert_all_other_node rows :
  Forall (fun r => of_node r = false) rows ->
  forall table,
    filter of_node (upsert_all key_of key_eqb rows table) = filter of_node table.
Proof.
  unfold upsert_all. induction 1 as [| r rest Hr _ IH]; intros table; simpl;
    [reflexivity |].
  now rewrite IH, insert_or_replace_other_node.
Qed.

End NodeRows.

Section DownNode.

Variable B : builtins.

(** The rows of a cycle in which no job of the name [n] got its documents
    carry other names. *)
Lemma cycle_rows_of_others jobs n :
  (forall j, In j jobs -> Job.name j = n -> Job.fetched j = None) ->
  Forall (fun r => String.eqb (DailyBandwidthMetrics.node_name r) n = false)
    (Cycle.daily_bandwidth (collect_loop B jobs))
  /\ Forall (fun r => String.eqb (DailyStorageMetrics.node_name r) n = false)
       (Cycle.daily_storage (collect_loop B jobs))
  /\ Forall (fun r => String.eqb (SatelliteStatus.node_name r) n = false)
       (Cycle.satellite_status (collect_loop B jobs))
  /\ Forall (fun r => String.eqb (DailySatellite.node_name r) n = false)
       (Cycle.daily_satellite (collect_loop B jobs)).
Proof.
  intros Hdown.
  destruct (collect_loop_from B jobs Cycle.empty) as [_ [_ [_ [H4 [H5 [H6 H7]]]]]].
  cbv zeta in *. fold (collect_loop B jobs) in *.
  rewrite H4, H5, H6, H7. cbn [Cycle.empty Cycle.daily_bandwidth Cycle.daily_storage
    Cycle.satellite_status Cycle.daily_satellite app].
  clear H4 H5 H6 H7.
  assert (Hjob : forall j, In j jobs ->
             Job.fetched j = None \/ String.eqb (Job.name j) n = false).
  { intros j Hj. destruct (String.eqb_spec (Job.name j) n) as [E | E];
      [left; now apply Hdown | now right]. }
  clear Hdown.
  induction jobs as [| j rest IH]; cbn [flat_map]; [repeat split; constructor |].
  destruct IH as [I4 [I5 [I6 I7]]]; [intros j' Hj'; apply Hjob; now right |].
  destruct (contribution_names B j) as [N4 [N5 [N6 N7]]].
  destruct (Hjob j (or_introl eq_refl)) as [Hnone | Hname].
  - unfold contribution, collect_from. rewrite Hnone. now repeat split.
  - repeat split; apply Forall_app; split; try assumption.
    + eapply Forall_impl; [| exact N4]. intros r Hr. cbv beta in Hr. now rewrite Hr.
    + eapply Forall_impl; [| exact N5]. intros r Hr. cbv beta in Hr. now rewrite Hr.
    + eapply Forall_impl; [| exact N6]. intros r Hr. cbv beta in Hr. now rewrite Hr.
    + eapply Forall_impl; [| exact N7]. intros r Hr. cbv beta in Hr. now rewrite Hr.
Qed.

End DownNode.

(** X22: a node that is down keeps its rows. When [collect_node_data] fails
    for every configured node of the name [n], the cycle leaves the rows of
    [n] in the four upserted tables as they were, rows and order: the other
    nodes write under their own names only, and a store that raises writes
    nothing. *)
Theorem down_node_keeps_its_rows :
  forall e B jobs db n,
    (forall j, In j jobs -> Job.name j = n -> Job.fetched j = None) ->
    rows_of_node n (Store.upserted (collect_all_metrics e B jobs db))
    = rows_of_node n (Store.upserted db).
Proof.
  intros e B jobs db n Hdown.
  destruct (cycle_rows_of_others B jobs n Hdown) as [H4 [H5 [H6 H7]]].
  unfold collect_all_metrics, after_cycle.
  destruct (store_cycle e _ _ db) as [db' |] eqn:E; [| reflexivity].
  destruct (store_cycle_Some _ _ _ _ _ E) as [_ [_ [_ [_ Hup]]]].
  destruct (store_metrics_Some _ _ _ _ Hup) as [A1 [A2 [A3 A4]]].
  cbn [daily_bandwidth daily_storage satellite_status daily_satellite] in A1, A2, A3, A4.
  unfold rows_of_node. rewrite A1, A2, A3, A4.
  rewrite (upsert_all_other_node daily_bandwidth_key node_date_eqb
             (fun r => String.eqb (DailyBandwidthMetrics.node_name r) n)).
  rewrite (upsert_all_other_node daily_storage_key node_date_eqb
             (fun r => String.eqb (DailyStorageMetrics.node_name r) n)).
  rewrite (upsert_all_other_node satellite_status_key node_satellite_eqb
             (fun r => String.eqb (SatelliteStatus.node_name r) n)).
  rewrite (upsert_all_other_node daily_satellite_key node_satellite_date_eqb
             (fun r => String.eqb (DailySatellite.node_name r) n)).
  - reflexivity.
  - intros r1 r2 E'. apply node_satellite_date_eqb_eq in E'.
    unfold daily_satellite_key in E'. now injection E' as -> _ _.
  - exact H7.
  - intros r1 r2 E'. apply node_satellite_eqb_eq in E'.
    unfold satellite_status_key in E'. now injection E' as -> _.
  - exact H6.
  - intros r1 r2 E'. apply node_date_eqb_eq in E'.
    unfold daily_storage_key in E'. now injection E' as -> _.
  - exact H5.
  - intros r1 r2 E'. apply node_date_eqb_eq in E'.
    unfold daily_bandwidth_key in E'. now injection E' as -> _.
  - exact H4.
Qed.

Lemma down_node_keeps_its_rows_witness :
  rows_of_node "node2"
    (Store.upserted (collect_all_metrics Sound Reference.runtime
                       [up_job; down_job; unpinged_job] sample_store))
  = ([DailyBandwidthMetrics.mk "node2" 739507 1 2 3 4 5 6],
     [DailyStorageMetrics.mk "node2" 739507 7 8],
     [other_node_status],
     [DailySatellite.mk "node2" saltlake 739507 0 0 1 2 3 4 5 tb_requirement 4]).
Proof.
  rewrite (down_node_keeps_its_rows Sound Reference.runtime
             [up_job; down_job; unpinged_job] sample_store "node2").
  - reflexivity.
  - intros j [<- | [<- | [<- | []]]] Hname;
      solve [reflexivity | discriminate Hname].
Defined.

(** ** The daily records of the service *)

Section ServiceDaily.

Variable B : builtins.

Lemma daily_bandwidth_of_None node entry :
  daily_bandwidth_of B node entry = Ok None -> dated B entry = false.
Proof.
  unfold daily_bandwidth_of, dated. intros H.
  destruct (truthy (dict_get entry "intervalStart" (PStr ""))); [| reflexivity].
  cbn [negb andb] in *.
  destruct (interval_date B except_ValueError _) as [[metric_date |] | e];
    try reflexivity.
  cbn [bind] in H. repeat bind_inv H. discriminate H.
Qed.

Lemma daily_bandwidth_of_Some node entry r :
  daily_bandwidth_of B node entry = Ok (Some r) ->
  dated B entry = true
  /\ interval_date B except_ValueError (dict_get entry "intervalStart" (PStr ""))
     = Ok (Some (DailyBandwidthMetrics.date r))
  /\ DailyBandwidthMetrics.node_name r = node
  /\ get_int B (dict_get entry "ingress" (PDict [])) "usage"
     = Ok (DailyBandwidthMetrics.ingress_usage_bytes r)
  /\ get_int B (dict_get entry "egress" (PDict [])) "usage"
     = Ok (DailyBandwidthMetrics.egress_usage_bytes r)
  /\ safe_int B (dict_get entry "delete" (PInt 0)) 0
     = Ok (DailyBandwidthMetrics.delete_bytes r).
Proof.
  unfold daily_bandwidth_of, dated. intros H.
  destruct (truthy (dict_get entry "intervalStart" (PStr ""))); [| discriminate H].
  cbn [negb andb] in *.
  destruct (interval_date B except_ValueError _) as [[metric_date |] | e];
    try discriminate H.
  cbn [bind] in H. repeat bind_inv H. injection H as <-. simpl. auto 10.
Qed.

Lemma daily_storage_of_None node entry :
  daily_storage_of B node entry = Ok None -> dated B entry = false.
Proof.
  unfold daily_storage_of, dated. intros H.
  destruct (truthy (dict_get entry "intervalStart" (PStr ""))); [| reflexivity].
  cbn [negb andb] in *.
  destruct (interval_date B except_ValueError _) as [[metric_date |] | e];
    try reflexivity.
  cbn [bind] in H. repeat bind_inv H. discriminate H.
Qed.

Lemma daily_storage_of_Some node entry r :
  daily_storage_of B node entry = Ok (Some r) ->
  dated B entry = true
  /\ interval_date B except_ValueError (dict_get entry "intervalStart" (PStr ""))
     = Ok (Some (DailyStorageMetrics.date r))
  /\ DailyStorageMetrics.node_name r = node
  /\ safe_int B (dict_get entry "atRestTotalBytes" (PInt 0)) 0
     = Ok (DailyStorageMetrics.at_rest_total_bytes r)
  /\ (arg <- average_usage_arg entry ;; safe_int B arg 0)
     = Ok (DailyStorageMetrics.average_usage_bytes r).
Proof.
  unfold daily_storage_of, dated. intros H.
  destruct (truthy (dict_get entry "intervalStart" (PStr ""))); [| discriminate H].
  cbn [negb andb] in *.
  destruct (interval_date B except_ValueError _) as [[metric_date |] | e];
    try discriminate H.
  cbn [bind] in H. bind_inv H. bind_inv H. bind_inv H. injection H as <-.
  cbn [DailyStorageMetrics.date DailyStorageMetrics.node_name
       DailyStorageMetrics.at_rest_total_bytes DailyStorageMetrics.average_usage_bytes].
  rewrite Ha0. cbn [bind]. auto.
Qed.

Lemma extract_daily_bandwidth_inv node si ms :
  extract_daily_bandwidth_metrics B node si = Ok ms ->
  Forall2 (fun entry r => daily_bandwidth_of B node entry = Ok (Some r))
    (filter (dated B) (or_empty (bandwidth_daily si))) ms.
Proof.
  unfold extract_daily_bandwidth_metrics. intros H.
  apply collect_Forall2 with (keeps := dated B) in H; [exact H | |].
  - intros entry. apply daily_bandwidth_of_None.
  - intros entry r Hr. now destruct (daily_bandwidth_of_Some _ _ _ Hr).
Qed.

Lemma extract_daily_storage_inv node si ms :
  extract_daily_storage_metrics B node si = Ok ms ->
  Forall2 (fun entry r => daily_storage_of B node entry = Ok (Some r))
    (filter (dated B) (or_empty (storage_daily si))) ms.
Proof.
  unfold extract_daily_storage_metrics. intros H.
  apply collect_Forall2 with (keeps := dated B) in H; [exact H | |].
  - intros entry. apply daily_storage_of_None.
  - intros entry r Hr. now destruct (daily_storage_of_Some _ _ _ Hr).
Qed.

End ServiceDaily.

(** X23: [extract_daily_bandwidth_metrics] and [extract_daily_storage_metrics]
    return one record per entry whose interval start is truthy and gives a
    date, in the order of the entries, with that date and the node name; the
    entries of one day are not merged, so two entries of a day give two
    records of the same (node, date). *)
Theorem one_daily_record_per_dated_entry :
  forall B node si,
    (forall ms,
        extract_daily_bandwidth_metrics B node si = Ok ms ->
        Forall2 (fun entry r =>
                   interval_date B except_ValueError
                     (dict_get entry "intervalStart" (PStr ""))
                   = Ok (Some (DailyBandwidthMetrics.date r))
                   /\ DailyBandwidthMetrics.node_name r = node
                   /\ get_int B (dict_get entry "ingress" (PDict [])) "usage"
                      = Ok (DailyBandwidthMetrics.ingress_usage_bytes r)
                   /\ get_int B (dict_get entry "egress" (PDict [])) "usage"
                      = Ok (DailyBandwidthMetrics.egress_usage_bytes r)
                   /\ safe_int B (dict_get entry "delete" (PInt 0)) 0
                      = Ok (DailyBandwidthMetrics.delete_bytes r))
          (filter (dated B) (or_empty (bandwidth_daily si))) ms)
    /\ (forall ms,
           extract_daily_storage_metrics B node si = Ok ms ->
           Forall2 (fun entry r =>
                      interval_date B except_ValueError
                        (dict_get entry "intervalStart" (PStr ""))
                      = Ok (Some (DailyStorageMetrics.date r))
                      /\ DailyStorageMetrics.node_name r = node
                      /\ safe_int B (dict_get entry "atRestTotalBytes" (PInt 0)) 0
                         = Ok (DailyStorageMetrics.at_rest_total_bytes r))
             (filter (dated B) (or_empty (storage_daily si))) ms).
Proof.
  intros B node si. split; intros ms H.
  - apply extract_daily_bandwidth_inv in H.
    eapply Forall2_impl; [| exact H]. intros entry r Hr.
    destruct (daily_bandwidth_of_Some _ _ _ _ Hr) as [_ Hfields]. exact Hfields.
  - apply extract_daily_storage_inv in H.
    eapply Forall2_impl; [| exact H]. intros entry r Hr.
    destruct (daily_storage_of_Some _ _ _ _ Hr) as [_ [Hd [Hn [Hb _]]]]. auto.
Qed.

Lemma one_daily_record_per_dated_entry_witness :
  exists r1 r2,
    extract_daily_bandwidth_metrics Reference.runtime "node1" same_day_info = Ok [r1; r2]
    /\ daily_bandwidth_key r1 = ("node1", 739507)
    /\ daily_bandwidth_key r2 = ("node1", 739507)
    /\ DailyBandwidthMetrics.ingress_usage_bytes r1 = 1000000000
    /\ DailyBandwidthMetrics.ingress_usage_bytes r2 = 9.
Proof.
  do 2 eexists. split; [vm_compute; reflexivity |].
  pose proof (proj1 (one_daily_record_per_dated_entry Reference.runtime "node1"
                       same_day_info) _ ltac:(vm_compute; reflexivity)) as H.
  inversion H as [| e1 x1 l1 l1' H1 T1]; subst.
  inversion T1 as [| e2 x2 l2 l2' H2 T2]; subst.
  destruct H1 as [_ [N1 _]]. destruct H2 as [_ [N2 _]].
  unfold daily_bandwidth_key. rewrite N1. repeat split.
Defined.

(** ** The average usage of a day *)

(** The division by 24 of a positive integer below [2 ^ 52], before
    rounding: the quotient with [N] fractional bits. *)
Lemma SFdiv_core_hours (p : positive) :
  Z.pos p < 2 ^ 52 ->
  exists q N l,
    SFdiv_core_binary prec emax (Z.pos p) 0 24 0 = (q, - N, l)
    /\ 6 <= N <= 57
    /\ 0 <= q < 2 ^ 54
    /\ q mod 2 ^ N + 2 < 2 ^ N
    /\ q / 2 ^ N = Z.pos p / 24.
Proof.
  intros Hp.
  pose proof (Zdigits2_bound (Z.pos p) 52 ltac:(lia) ltac:(lia)) as Hd.
  pose proof (Zdigits2_gt p) as Hgt.
  assert (Hd0 : 1 <= Zdigits2 (Z.pos p)) by (simpl; lia).
  unfold SFdiv_core_binary.
  change (Zdigits2 24) with 5.
  set (d := Zdigits2 (Z.pos p)) in *.
  assert (He : Z.min (fexp prec emax (d + 0 - (5 + 0))) (0 - 0) = - (58 - d)).
  { unfold fexp, emin, prec, emax. lia. }
  rewrite He.
  set (N := 58 - d) in *.
  replace (0 - 0 - - N) with N by lia.
  assert (HN : 6 <= N <= 57) by (unfold N; lia).
  assert (H2N : 0 < 2 ^ N) by (apply Z.pow_pos_nonneg; lia).
  assert (Hshift : match N with
                   | 0 => Z.pos p
                   | Z.pos _ => Z.shiftl (Z.pos p) N
                   | Z.neg _ => 0
                   end = Z.pos p * 2 ^ N).
  { destruct N as [| n | n] eqn:EN; try lia. rewrite Z.shiftl_mul_pow2 by lia. reflexivity. }
  rewrite Hshift.
  pose proof (Z_div_mod (Z.pos p * 2 ^ N) 24 ltac:(lia)) as Hdm.
  destruct (Z.div_eucl (Z.pos p * 2 ^ N) 24) as [q r] eqn:E.
  destruct Hdm as [Hq Hr].
  exists q, N, (new_location 24 r). split; [reflexivity |].
  split; [exact HN |].
  pose proof (Z.div_mod (Z.pos p) 24 ltac:(lia)) as Hpq.
  pose proof (Z.mod_pos_bound (Z.pos p) 24 ltac:(lia)) as Hpr.
  set (Q := Z.pos p / 24) in *.
  set (R := Z.pos p mod 24) in *.
  assert (HQ0 : 0 <= Q) by (apply Z.div_pos; lia).
  set (f := (R * 2 ^ N) / 24).
  assert (Hq' : q = Q * 2 ^ N + f).
  { assert (Hqd : q = (Z.pos p * 2 ^ N) / 24).
    { apply Z.div_unique with (r := r); lia. }
    rewrite Hqd, Hpq.
    replace ((24 * Q + R) * 2 ^ N) with (R * 2 ^ N + (Q * 2 ^ N) * 24) by ring.
    rewrite Z.div_add by lia. unfold f. lia. }
  assert (H2b : 2 * 24 < 2 ^ N).
  { assert (2 ^ 6 <= 2 ^ N) by (apply Z.pow_le_mono_r; lia).
    change (2 ^ 6) with 64 in *. lia. }
  assert (Hf : 0 <= f /\ f + 2 < 2 ^ N).
  { unfold f. split; [apply Z.div_pos; nia |].
    assert ((R * 2 ^ N) / 24 < 2 ^ N - 2); [| lia].
    apply Z.div_lt_upper_bound; [lia |]. nia. }
  assert (Hmod : q mod 2 ^ N = f).
  { rewrite Hq'. replace (Q * 2 ^ N + f) with (f + Q * 2 ^ N) by lia.
    rewrite Z.mod_add by lia. apply Z.mod_small. lia. }
  assert (Hdiv : q / 2 ^ N = Q).
  { rewrite Hq'. replace (Q * 2 ^ N + f) with (f + Q * 2 ^ N) by lia.
    rewrite Z.div_add by lia. rewrite Z.div_small by lia. lia. }
  split; [| split; [rewrite Hmod; lia | exact Hdiv]].
  split; [lia |].
  assert (Hp58 : Z.pos p * 2 ^ N < 2 ^ 58).
  { replace 58 with (d + N) by (unfold N; lia).
    rewrite Z.pow_add_r by lia. apply Z.mul_lt_mono_pos_r; lia. }
  assert (q * 24 <= Z.pos p * 2 ^ N) by lia.
  assert (2 ^ 58 < 2 ^ 54 * 24) by (vm_compute; reflexivity).
  nia.
Qed.

(** Below [2 ^ 52] the rounding of [n / 24] never reaches the next integer. *)
Lemma int_div24_trunc (n : Z) :
  Z.abs n < 2 ^ 52 ->
  exists x, int_truediv n 24 = Ok x /\ trunc_float x = Ok (Z.quot n 24).
Proof.
  intros Hn. unfold int_truediv. change (24 =? 0) with false. cbv iota.
  destruct n as [| p | p].
  - eexists. split; reflexivity.
  - destruct (SFdiv_core_hours p ltac:(lia)) as [q [N [l [Hcore [HN [Hq [Hfrac Hdiv]]]]]]].
    assert (Hres : SFdiv prec emax (exact_of_Z (Z.pos p)) (exact_of_Z 24)
                   = binary_round_aux prec emax false q (- N) l).
    { unfold SFdiv, exact_of_Z. rewrite Hcore. reflexivity. }
    rewrite Hres.
    pose proof (binary_round_aux_floor false q N l Hq ltac:(lia) Hfrac) as Ht.
    assert (Hquot : Z.quot (Z.pos p) 24 = q / 2 ^ N).
    { rewrite Hdiv. apply Z.quot_div_nonneg; lia. }
    rewrite Hquot.
    destruct (binary_round_aux prec emax false q (- N) l) as [s | s | | s m e];
      try discriminate Ht; eexists; (split; [reflexivity | exact Ht]).
  - destruct (SFdiv_core_hours p ltac:(lia)) as [q [N [l [Hcore [HN [Hq [Hfrac Hdiv]]]]]]].
    assert (Hres : SFdiv prec emax (exact_of_Z (Z.neg p)) (exact_of_Z 24)
                   = binary_round_aux prec emax true q (- N) l).
    { unfold SFdiv, exact_of_Z. rewrite Hcore. reflexivity. }
    rewrite Hres.
    pose proof (binary_round_aux_floor true q N l Hq ltac:(lia) Hfrac) as Ht.
    assert (Hquot : Z.quot (Z.neg p) 24 = - (q / 2 ^ N)).
    { rewrite Hdiv. change (Z.neg p) with (- Z.pos p).
      rewrite Z.quot_opp_l by lia. f_equal. apply Z.quot_div_nonneg; lia. }
    rewrite Hquot.
    destruct (binary_round_aux prec emax true q (- N) l) as [s | s | | s m e];
      try discriminate Ht; eexists; (split; [reflexivity | exact Ht]).
Qed.

(** X24: the average usage of a day. For an [atRestTotal] that is an int of
    less than [2 ^ 52] in absolute value (4.5 petabyte-hours), the
    [average_usage_bytes] of the record is the integer quotient of the total
    by 24, truncated toward zero: the float division and the truncation of
    [safe_int] lose nothing. A missing, [null] or zero total gives [0]. *)
Theorem average_usage_is_a_24th :
  forall B node si ms,
    extract_daily_storage_metrics B node si = Ok ms ->
    Forall2 (fun entry r =>
               (forall n, dict_get entry "atRestTotal" PNone = PInt n ->
                          Z.abs n < 2 ^ 52 ->
                          DailyStorageMetrics.average_usage_bytes r = Z.quot n 24)
               /\ (truthy (dict_get entry "atRestTotal" PNone) = false ->
                   DailyStorageMetrics.average_usage_bytes r = 0))
      (filter (dated B) (or_empty (storage_daily si))) ms.
Proof.
  intros B node si ms H. apply extract_daily_storage_inv in H.
  eapply Forall2_impl; [| exact H]. intros entry r Hr.
  destruct (daily_storage_of_Some _ _ _ _ Hr) as [_ [_ [_ [_ Havg]]]].
  unfold average_usage_arg in Havg. split.
  - intros n Hn Hbound. rewrite Hn in Havg. cbn [truthy] in Havg.
    destruct (n =? 0) eqn:Hn0; cbn [negb bind] in Havg.
    + apply Z.eqb_eq in Hn0. subst n. now injection Havg as <-.
    + rewrite (dict_get_any_default entry "atRestTotal" (PInt n) PNone (PInt 0) Hn)
        in Havg by discriminate.
      cbn [div24] in Havg.
      destruct (int_div24_trunc n Hbound) as [x [Hx Htrunc]].
      rewrite Hx in Havg. cbn [bind] in Havg.
      unfold safe_int in Havg. cbn [py_int] in Havg. rewrite Htrunc in Havg.
      now injection Havg as <-.
  - intros Hfalsy. rewrite Hfalsy in Havg. cbn [bind] in Havg.
    now injection Havg as <-.
Qed.

Lemma average_usage_is_a_24th_witness :
  exists r,
    extract_daily_storage_metrics Reference.runtime "node1" daily_info
    = Ok [r; DailyStorageMetrics.mk "node1" 739508 51000000000 0]
    /\ DailyStorageMetrics.average_usage_bytes r = Z.quot 1200000000000 24.
Proof.
  eexists. split; [vm_compute; reflexivity |].
  pose proof (average_usage_is_a_24th Reference.runtime "node1" daily_info _
                ltac:(vm_compute; reflexivity)) as H.
  inversion H as [| e1 x1 l1 l1' H1 T1]; subst.
  apply (proj1 H1 1200000000000); [reflexivity | vm_compute; reflexivity].
Defined.

(** ** The [Z] of a timestamp *)

Lemma replace_Z_step (c : ascii) (rest : string) :
  str_replace (String c rest) "Z" "+00:00"
  = if Ascii.eqb c "Z"
    then String.append "+00:00" (str_replace rest "Z" "+00:00")
    else String c (str_replace rest "Z" "+00:00").
Proof.
  unfold str_replace. cbn [replace_from String.prefix String.length Nat.pred].
  destruct (Ascii.eqb_spec c "Z") as [-> | Hne].
  - destruct (ascii_dec "Z" "Z") as [_ | Hn]; [now destruct rest | now destruct Hn].
  - destruct (ascii_dec "Z" c) as [E | _]; [now destruct Hne | reflexivity].
Qed.

(** Once every [Z] is written out there is none left to replace. *)
Lemma replace_Z_twice (s : string) :
  str_replace (str_replace s "Z" "+00:00") "Z" "+00:00" = str_replace s "Z" "+00:00".
Proof.
  induction s as [| c rest IH]; [reflexivity |].
  rewrite replace_Z_step. destruct (Ascii.eqb c "Z") eqn:E.
  - cbn [String.append]. rewrite !replace_Z_step. cbn [Ascii.eqb Bool.eqb].
    now rewrite IH.
  - rewrite replace_Z_step, E. now rewrite IH.
Qed.

(** X25: [timestamp_to_datetime] reads a [Z] as the offset [+00:00]: a
    string and the string with each [Z] written as [+00:00] give the same
    result, be it a datetime or the [ValueError]. *)
Theorem zulu_is_utc :
  forall B s,
    timestamp_to_datetime B (PStr s)
    = timestamp_to_datetime B (PStr (str_replace s "Z" "+00:00")).
Proof.
  intros B s. unfold timestamp_to_datetime. now rewrite replace_Z_twice.
Qed.

(** ** The configured nodes *)

Lemma nodup_length_le (l : list string) :
  (List.length (nodup string_dec l) <= List.length l)%nat.
Proof.
  induction l as [| a rest IH]; simpl; [lia |].
  destruct (in_dec string_dec a rest); simpl; lia.
Qed.

Lemma nodup_same_length (l : list string) :
  List.length (nodup string_dec l) = List.length l <-> NoDup l.
Proof.
  split.
  - induction l as [| a rest IH]; simpl; intros H; [constructor |].
    pose proof (nodup_length_le rest) as Hle.
    destruct (in_dec string_dec a rest) as [Hin | Hnotin]; simpl in H; [lia |].
    constructor; [exact Hnotin | apply IH; lia].
  - intros H. now rewrite (nodup_fixed_point string_dec H).
Qed.

(** X26: [validate_nodes] accepts a list of nodes exactly when it is not
    empty, no two nodes have the same name, and every dashboard URL starts
    with [http://] or [https://]; every other list raises [ValueError]. *)
Theorem validate_nodes_accepts :
  forall nodes,
    (validate_nodes nodes = Ok tt
     <-> nodes <> []
         /\ NoDup (map NodeConfig.name nodes)
         /\ Forall (fun node => http_url (NodeConfig.dashboard_url node) = true) nodes)
    /\ (validate_nodes nodes = Ok tt \/ validate_nodes nodes = Raise ValueError).
Proof.
  intros nodes. unfold validate_nodes.
  destruct nodes as [| node rest].
  - split; [| now right]. split; [discriminate | intros [H _]; now destruct H].
  - set (all := node :: rest).
    destruct (Nat.eqb_spec (List.length (map NodeConfig.name all))
                (List.length (nodup string_dec (map NodeConfig.name all)))) as [E | E];
      cbn [negb].
    + symmetry in E. apply nodup_same_length in E.
      destruct (forallb (fun n => http_url (NodeConfig.dashboard_url n)) all) eqn:F.
      * split; [| now left]. split; [| reflexivity].
        intros _. split; [discriminate |]. split; [exact E |].
        apply Forall_forall. now apply forallb_forall.
      * split; [| now right]. split; [discriminate |].
        intros [_ [_ Hall]]. rewrite Forall_forall in Hall.
        apply forallb_forall in Hall. rewrite Hall in F. discriminate F.
    + split; [| now right]. split; [discriminate |].
      intros [_ [Hnd _]]. apply nodup_same_length in Hnd. now destruct E.
Qed.

Lemma validate_nodes_accepts_witness :
  validate_nodes sample_nodes_config = Ok tt
  /\ NoDup (map NodeConfig.name sample_nodes_config)
  /\ validate_nodes twice_named_config = Raise ValueError.
Proof.
  pose proof (proj1 (validate_nodes_accepts sample_nodes_config)) as Hok.
  pose proof (validate_nodes_accepts twice_named_config) as [Hiff [Habs | Hraise]].
  - exfalso. apply Hiff in Habs. destruct Habs as [_ [Hnd _]].
    inversion Hnd as [| x l Hnotin _]; subst. apply Hnotin. now left.
  - split; [reflexivity |]. split; [| exact Hraise].
    now apply (proj1 Hok eq_refl).
Defined.

(** ** The id of a node that answered *)

Section FetchedIds.

Variable B : builtins.

Lemma contribution_node_ids job :
  Cycle.node_ids (contribution B job)
  = match Job.fetched job with
    | Some data => [(Job.name job, node_id (NodeData.node_info data))]
    | None => []
    end.
Proof.
  unfold contribution, collect_from.
  destruct (Job.fetched job) as [data |]; [| reflexivity].
  destruct (extract_health_metrics B _ _ _ _ _); [| reflexivity].
  destruct (extract_daily_bandwidth_metrics B _ _); [| reflexivity].
  destruct (extract_daily_storage_metrics B _ _); [| reflexivity].
  destruct (extract_satellite_status B _ _ _ _); [| reflexivity].
  destruct (extract_daily_satellite_metrics B _ _); reflexivity.
Qed.

Lemma collect_loop_node_ids jobs :
  forall m,
    Cycle.node_ids (fold_left (fun m job => collect_from B job m) jobs m)
    = flat_map (fun j => Cycle.node_ids (contribution B j)) (rev jobs) ++ Cycle.node_ids m.
Proof.
  induction jobs as [| job rest IH]; intros m; cbn [fold_left rev]; [reflexivity |].
  rewrite IH, flat_map_app. cbn [flat_map].
  destruct (collect_from_app B job m) as [-> _].
  now rewrite app_nil_r, <- app_assoc.
Qed.

Lemma assoc_find_app {A : Type} (l1 l2 : list (string * A)) key :
  assoc_find (l1 ++ l2) key
  = match assoc_find l1 key with
    | Some v => Some v
    | None => assoc_find l2 key
    end.
Proof.
  induction l1 as [| [k v] rest IH]; simpl; [reflexivity |].
  now destruct (String.eqb k key).
Qed.

(** The id the cycle holds for the name of a job that got its documents,
    when no other job has the name. *)
Lemma cycle_node_id jobs job data :
  NoDup (map Job.name jobs) -> In job jobs -> Job.fetched job = Some data ->
  assoc_find (Cycle.node_ids (collect_loop B jobs)) (Job.name job)
  = Some (node_id (NodeData.node_info data)).
Proof.
  intros Hnd Hin Hdata. unfold collect_loop. rewrite collect_loop_node_ids.
  cbn [Cycle.empty Cycle.node_ids]. rewrite app_nil_r.
  assert (Hrev : forall l,
             NoDup (map Job.name l) -> In job l ->
             assoc_find (flat_map (fun j => Cycle.node_ids (contribution B j)) l)
               (Job.name job)
             = Some (node_id (NodeData.node_info data))).
  { induction l as [| j rest IH]; cbn [map flat_map]; intros Hl Hj; [destruct Hj |].
    inversion Hl as [| x xs Hnotin Hrest]; subst.
    rewrite assoc_find_app, contribution_node_ids.
    destruct Hj as [-> | Hj].
    - rewrite Hdata. simpl. now rewrite String.eqb_refl.
    - assert (Hne : String.eqb (Job.name j) (Job.name job) = false).
      { apply String.eqb_neq. intros E. apply Hnotin. rewrite E.
        now apply in_map. }
      destruct (Job.fetched j); simpl; [rewrite Hne |]; now apply IH. }
  apply Hrev.
  - rewrite map_rev. apply NoDup_rev. exact Hnd.
  - now apply in_rev in Hin.
Qed.

End FetchedIds.

(** X27: with node names that are unique, as [validate_nodes] demands, a
    cycle whose store is committed records the id of every node that
    answered: a row of [nodes] without an id whose name is the name of a node
    with fetched documents holds, after [collect_all_metrics], the [nodeID]
    of these documents, whatever goes wrong in the extractions that follow
    the fetch. (When the store raises, nothing of the cycle is recorded.) *)
Theorem fetched_id_is_recorded :
  forall e B jobs db db' job data,
    NoDup (map Job.name jobs) ->
    In job jobs ->
    Job.fetched job = Some data ->
    In (Job.name job, None) (Store.nodes db) ->
    store_cycle e (map Job.name jobs) (collect_loop B jobs) db = Some db' ->
    collect_all_metrics e B jobs db = db'
    /\ In (Job.name job, Some (node_id (NodeData.node_info data))) (Store.nodes db').
Proof.
  intros e B jobs db db' job data Hnd Hin Hdata Hrow Hstore.
  unfold collect_all_metrics, after_cycle. rewrite Hstore. split; [reflexivity |].
  destruct (store_cycle_Some _ _ _ _ _ Hstore) as [-> _].
  apply update_node_ids_fills; [now apply in_map | | exact Hrow].
  now apply cycle_node_id.
Qed.

Lemma fetched_id_is_recorded_witness :
  In ("node3", Some "node1_id")
    (Store.nodes (collect_all_metrics Sound Reference.runtime
                    [up_job; down_job; unpinged_job] sample_store)).
Proof.
  destruct (fetched_id_is_recorded Sound Reference.runtime
              [up_job; down_job; unpinged_job] sample_store
              (collect_all_metrics Sound Reference.runtime
                 [up_job; down_job; unpinged_job] sample_store)
              unpinged_job unpinged_data) as [_ H].
  - repeat constructor; simpl; intuition discriminate.
  - right. right. left. reflexivity.
  - reflexivity.
  - right. right. left. reflexivity.
  - vm_compute. reflexivity.
  - exact H.
Defined.

(** * Numeric fields that do not coerce, call by call *)

Section Replacement.

Variable B : builtins.

Lemma dict_get_put (d : dict) key v k default :
  dict_get (dict_put d key v) k default
  = if String.eqb key k then v else dict_get d k default.
Proof.
  induction d as [| [k0 x] rest IH]; simpl; [reflexivity |].
  destruct (String.eqb k0 key) eqn:E; simpl.
  - apply String.eqb_eq in E. subst k0. now destruct (String.eqb key k).
  - destruct (String.eqb k0 k) eqn:E2; [| exact IH].
    apply String.eqb_eq in E2. subst k0. rewrite String.eqb_sym in E. now rewrite E.
Qed.

(** The default in place of a value that does not coerce is read as the
    value is. *)
Lemma safe_int_put (d : dict) key k :
  fails_to_coerce (py_int B (dict_get d key (PInt 0))) = true ->
  safe_int B (dict_get (dict_put d key (PInt 0)) k (PInt 0)) 0
  = safe_int B (dict_get d k (PInt 0)) 0.
Proof.
  intros Hf. rewrite dict_get_put. destruct (String.eqb key k) eqn:E; [| reflexivity].
  apply String.eqb_eq in E. subst k. now rewrite (safe_int_default B _ _ Hf).
Qed.

Lemma safe_float_put (d : dict) key k default :
  fails_to_coerce (py_float B (dict_get d key default)) = true ->
  safe_float B (dict_get (dict_put d key (PFloat f_zero)) k default) f_zero
  = safe_float B (dict_get d k default) f_zero.
Proof.
  intros Hf. rewrite dict_get_put. destruct (String.eqb key k) eqn:E; [| reflexivity].
  apply String.eqb_eq in E. subst k. now rewrite (safe_float_default B _ _ Hf).
Qed.

Lemma get_int_put (g : dict) key k :
  fails_to_coerce (py_int B (dict_get g key (PInt 0))) = true ->
  get_int B (PDict (dict_put g key (PInt 0))) k = get_int B (PDict g) k.
Proof. intros Hf. unfold get_int. simpl. now apply safe_int_put. Qed.

Ltac other_keys :=
  rewrite ?dict_get_put; cbn [String.eqb Ascii.eqb Bool.eqb andb].

(** *** The satellite entries of the node-info document *)

Lemma satellite_status_of_put_int node ts (d : dict) key :
  In key ["currentMonthEgress"; "currentMonthIngress"] ->
  fails_to_coerce (py_int B (dict_get d key (PInt 0))) = true ->
  satellite_status_of B node ts (dict_put d key (PInt 0))
  = satellite_status_of B node ts d.
Proof.
  intros Hkey Hf. unfold satellite_status_of, _calculate_vetting_progress.
  rewrite !(safe_int_put d key) by exact Hf.
  destruct Hkey as [<- | [<- | []]]; other_keys; reflexivity.
Qed.

Lemma satellite_status_of_put_float node ts (d : dict) :
  fails_to_coerce (py_float B (dict_get d "vettingProgress" (PFloat f_zero))) = true ->
  satellite_status_of B node ts (dict_put d "vettingProgress" (PFloat f_zero))
  = satellite_status_of B node ts d.
Proof.
  intros Hf. unfold satellite_status_of, _calculate_vetting_progress.
  rewrite (safe_float_put d "vettingProgress") by exact Hf.
  other_keys. reflexivity.
Qed.

Lemma collect_replace {A : Type} (body : dict -> result (option A)) d d' before after :
  body d' = body d ->
  forall acc,
    collect body (before ++ d' :: after) acc = collect body (before ++ d :: after) acc.
Proof.
  intros Hbody. induction before as [| e rest IH]; intros acc; simpl.
  - now rewrite Hbody.
  - destruct (body e) as [r | x]; simpl; [apply IH | reflexivity].
Qed.

End Replacement.

Section AuditReplacement.

Variable B : builtins.

Lemma alike_refl a : alike B a a.
Proof. now split. Qed.

Lemma alike_put (a : dict) key :
  In key ["auditScore"; "suspensionScore"; "onlineScore"] ->
  fails_to_coerce (py_float B (dict_get a key (PFloat f_one))) = true ->
  alike B (dict_put a key (PFloat f_zero)) a.
Proof.
  intros Hkey Hf. split.
  - rewrite dict_get_put.
    destruct Hkey as [<- | [<- | [<- | []]]]; reflexivity.
  - intros k _. now apply safe_float_put.
Qed.

Lemma alike_replace a a' before after :
  alike B a' a -> Forall2 (alike B) (before ++ a' :: after) (before ++ a :: after).
Proof.
  intros H. apply Forall2_app; [| constructor; [exact H |]].
  - induction before; constructor; [apply alike_refl | assumption].
  - induction after; constructor; [apply alike_refl | assumption].
Qed.

Lemma build_audit_map_alike audits audits' :
  Forall2 (alike B) audits audits' ->
  forall m m',
    alike_maps B m m' ->
    match build_audit_map audits m, build_audit_map audits' m' with
    | Ok r, Ok r' => alike_maps B r r'
    | Raise x, Raise x' => x = x'
    | _, _ => False
    end.
Proof.
  induction 1 as [| a a' rest rest' Ha _ IH]; intros m m' Hm; simpl; [exact Hm |].
  rewrite <- (proj1 Ha).
  destruct (truthy (dict_get a "satelliteID" PNone)); [| now apply IH].
  destruct (dict_get a "satelliteID" PNone); try now apply IH.
  - apply IH. constructor; [| exact Hm]. split; [reflexivity | exact Ha].
  - reflexivity.
  - reflexivity.
Qed.

Lemma assoc_find_alike m m' :
  alike_maps B m m' ->
  forall sid,
    match assoc_find m sid, assoc_find m' sid with
    | Some a, Some a' => alike B a a'
    | None, None => True
    | _, _ => False
    end.
Proof.
  induction 1 as [| [k a] [k' a'] rest rest' [Hk Ha] _ IH]; intros sid; simpl;
    [exact I |].
  simpl in Hk, Ha. subst k'. destruct (String.eqb k sid); [exact Ha | apply IH].
Qed.

Lemma update_status_alike m m' st :
  alike_maps B m m' -> update_status B m st = update_status B m' st.
Proof.
  intros Hm. unfold update_status.
  pose proof (assoc_find_alike m m' Hm (SatelliteStatus.satellite_id st)) as H.
  destruct (assoc_find m _) as [a |], (assoc_find m' _) as [a' |];
    try contradiction; [| reflexivity].
  destruct H as [_ Hscores]. now rewrite !Hscores by (simpl; tauto).
Qed.

Lemma update_loop_alike m m' sts :
  alike_maps B m m' -> update_loop B m sts = update_loop B m' sts.
Proof.
  intros Hm. induction sts as [| st rest IH]; simpl; [reflexivity |].
  now rewrite (update_status_alike m m' st Hm), IH.
Qed.

Lemma update_satellite_scores_alike sts audits audits' :
  Forall2 (alike B) audits audits' ->
  _update_satellite_scores B sts audits = _update_satellite_scores B sts audits'.
Proof.
  intros H. unfold _update_satellite_scores.
  pose proof (build_audit_map_alike audits audits' H [] [] (Forall2_nil _)) as Hm.
  destruct (build_audit_map audits []) as [m | x],
           (build_audit_map audits' []) as [m' | x']; simpl; try contradiction.
  - now apply update_loop_alike.
  - now subst.
Qed.

Lemma scores_of_alike key audits audits' :
  In key ["auditScore"; "suspensionScore"; "onlineScore"] ->
  Forall2 (alike B) audits audits' ->
  scores_of B key audits = scores_of B key audits'.
Proof.
  intros Hkey. induction 1 as [| a a' rest rest' [_ Ha] _ IH]; simpl; [reflexivity |].
  now rewrite (Ha key Hkey), IH.
Qed.

(** The default in place of a score that does not coerce changes neither
    the statuses nor the health record. *)
Lemma audits_replace node ts now ni si before a after key :
  In key ["auditScore"; "suspensionScore"; "onlineScore"] ->
  fails_to_coerce (py_float B (dict_get a key (PFloat f_one))) = true ->
  extract_satellite_status B node ts ni
    (with_audits si (before ++ dict_put a key (PFloat f_zero) :: after))
  = extract_satellite_status B node ts ni (with_audits si (before ++ a :: after))
  /\ extract_health_metrics B node ts now ni
       (with_audits si (before ++ dict_put a key (PFloat f_zero) :: after))
     = extract_health_metrics B node ts now ni (with_audits si (before ++ a :: after)).
Proof.
  intros Hkey Hf.
  pose proof (alike_replace _ _ before after (alike_put a key Hkey Hf)) as H.
  unfold extract_satellite_status, extract_health_metrics, with_audits.
  cbn [audits].
  set (l' := before ++ dict_put a key (PFloat f_zero) :: after) in *.
  set (l := before ++ a :: after) in *.
  assert (Hl' : exists e es, l' = e :: es).
  { unfold l'. destruct before; simpl; eauto. }
  assert (Hl : exists e es, l = e :: es).
  { unfold l. destruct before; simpl; eauto. }
  rewrite (scores_of_alike "auditScore" l' l), (scores_of_alike "suspensionScore" l' l),
    (scores_of_alike "onlineScore" l' l) by (simpl; tauto).
  destruct Hl' as [e' [es' Hl']], Hl as [e [es Hl]].
  split.
  - destruct (match satellites ni with
              | Some (e0 :: es0) =>
                  collect (satellite_status_of B node ts) (e0 :: es0) []
              | _ => Ok []
              end) as [sts | x]; cbn [bind]; [| reflexivity].
    rewrite (update_satellite_scores_alike sts l' l H). now rewrite Hl', Hl.
  - now rewrite Hl', Hl.
Qed.

End AuditReplacement.

Section DailyReplacement.

Variable B : builtins.

Ltac other_keys :=
  rewrite ?dict_get_put; cbn [String.eqb Ascii.eqb Bool.eqb andb].

Lemma get_int_zero obj key n :
  get_int B obj key = Ok n -> zero_on_failure B obj key n.
Proof.
  intros H g -> Hf. unfold get_int in H. simpl in H.
  rewrite (safe_int_default B _ _ Hf) in H. now injection H.
Qed.

Lemma safe_int_zero (d : dict) key n :
  safe_int B (dict_get d key (PInt 0)) 0 = Ok n -> zero_on_failure B (PDict d) key n.
Proof.
  intros H g Hg Hf. injection Hg as <-.
  rewrite (safe_int_default B _ _ Hf) in H. now injection H.
Qed.

(** *** The fields of the daily records *)

Lemma daily_bandwidth_of_defaults node d r :
  daily_bandwidth_of B node d = Ok (Some r) ->
  bandwidth_defaults B d
    (DailyBandwidthMetrics.ingress_usage_bytes r)
    (DailyBandwidthMetrics.ingress_repair_bytes r)
    (DailyBandwidthMetrics.egress_usage_bytes r)
    (DailyBandwidthMetrics.egress_repair_bytes r)
    (DailyBandwidthMetrics.egress_audit_bytes r)
  /\ zero_on_failure B (PDict d) "delete" (DailyBandwidthMetrics.delete_bytes r).
Proof.
  unfold daily_bandwidth_of. intros H.
  destruct (negb (truthy (dict_get d "intervalStart" (PStr "")))); [discriminate H |].
  bind_inv H. destruct a as [metric_date |]; [| discriminate H].
  repeat bind_inv H. injection H as <-. cbn.
  unfold bandwidth_defaults.
  repeat split; try (now apply get_int_zero); now apply safe_int_zero.
Qed.

Lemma bandwidth_metric_defaults node d m :
  bandwidth_metric B node d = Ok (Some m) ->
  bandwidth_defaults B d
    (DailySatellite.ingress_usage_bytes m)
    (DailySatellite.ingress_repair_bytes m)
    (DailySatellite.egress_usage_bytes m)
    (DailySatellite.egress_repair_bytes m)
    (DailySatellite.egress_audit_bytes m).
Proof.
  intros H.
  destruct (bandwidth_metric_fields B node d m H) as [_ [H1 [H2 [H3 [H4 H5]]]]].
  unfold bandwidth_defaults. repeat split; now apply get_int_zero.
Qed.

(** *** A bandwidth entry with a default in place of a value *)

Lemma bandwidth_entry_put_nested node (d : dict) outer (g : dict) key :
  In outer ["ingress"; "egress"] ->
  dict_get d outer (PDict []) = PDict g ->
  fails_to_coerce (py_int B (dict_get g key (PInt 0))) = true ->
  daily_bandwidth_of B node (dict_put d outer (PDict (dict_put g key (PInt 0))))
  = daily_bandwidth_of B node d
  /\ bandwidth_metric B node (dict_put d outer (PDict (dict_put g key (PInt 0))))
     = bandwidth_metric B node d.
Proof.
  intros Houter Hg Hf. unfold daily_bandwidth_of, bandwidth_metric.
  destruct Houter as [<- | [<- | []]]; other_keys; rewrite Hg;
    rewrite !(get_int_put B g key) by exact Hf; split; reflexivity.
Qed.

Lemma bandwidth_entry_put_delete node (d : dict) :
  fails_to_coerce (py_int B (dict_get d "delete" (PInt 0))) = true ->
  daily_bandwidth_of B node (dict_put d "delete" (PInt 0)) = daily_bandwidth_of B node d
  /\ bandwidth_metric B node (dict_put d "delete" (PInt 0)) = bandwidth_metric B node d.
Proof.
  intros Hf. unfold daily_bandwidth_of, bandwidth_metric.
  rewrite (safe_int_put B d "delete") by exact Hf.
  other_keys. split; reflexivity.
Qed.

(** *** A storage entry with a default in place of its byte count *)

Lemma storage_entry_put node (d : dict) :
  fails_to_coerce (py_int B (dict_get d "atRestTotalBytes" (PInt 0))) = true ->
  daily_storage_of B node (dict_put d "atRestTotalBytes" (PInt 0))
  = daily_storage_of B node d
  /\ storage_key B (dict_put d "atRestTotalBytes" (PInt 0)) = storage_key B d.
Proof.
  intros Hf. unfold daily_storage_of, storage_key, average_usage_arg.
  rewrite (safe_int_put B d "atRestTotalBytes") by exact Hf.
  other_keys. split; reflexivity.
Qed.

Lemma storage_loop_replace node (d : dict) before after :
  fails_to_coerce (py_int B (dict_get d "atRestTotalBytes" (PInt 0))) = true ->
  forall acc,
    storage_loop B node (before ++ dict_put d "atRestTotalBytes" (PInt 0) :: after) acc
    = storage_loop B node (before ++ d :: after) acc.
Proof.
  intros Hf acc. rewrite !storage_loop_app.
  destruct (storage_loop B node before acc) as [ms | x]; cbn [bind]; [| reflexivity].
  cbn [storage_loop].
  rewrite (proj2 (storage_entry_put node d Hf)).
  now rewrite (safe_int_put B d "atRestTotalBytes") by exact Hf.
Qed.

(** The storage fields of a daily record per satellite are [0] when every
    storage entry of its key holds bytes that do not coerce. *)
Lemma daily_satellite_storage_defaults node si ms :
  extract_daily_satellite_metrics B node si = Ok ms ->
  Forall (fun m =>
            (forall st,
                In st (or_empty (storage_daily si)) ->
                storage_key B st
                = Ok (Some (DailySatellite.satellite_id m, DailySatellite.date m)) ->
                fails_to_coerce (py_int B (dict_get st "atRestTotalBytes" (PInt 0)))
                = true) ->
            DailySatellite.storage_used_bytes m = 0
            /\ DailySatellite.storage_at_rest_bytes m = 0) ms.
Proof.
  unfold extract_daily_satellite_metrics. intros H. bind_inv H.
  pose proof (storage_loop_source B (fun st => In st (or_empty (storage_daily si)))
                node (or_empty (storage_daily si)) (fun st Hst => Hst) a ms) as Hsrc.
  cbv zeta in Hsrc.
  assert (Hacc : Forall (fun m => DailySatellite.storage_used_bytes m = 0
                                  /\ DailySatellite.storage_at_rest_bytes m = 0) a).
  { eapply (collect_Forall (bandwidth_metric B node)); [| constructor | exact Ha].
    intros entry m Hm. unfold bandwidth_metric in Hm.
    destruct (negb (truthy (dict_get entry "intervalStart" (PStr ""))));
      [discriminate Hm |].
    bind_inv Hm. destruct a0 as [metric_date |]; [| discriminate Hm].
    destruct (negb (truthy (dict_get entry "satelliteId" PNone))); [discriminate Hm |].
    bind_inv Hm. destruct a0 as [[sid info] |]; [| discriminate Hm].
    repeat bind_inv Hm. injection Hm as <-. now split. }
  eapply Forall_impl; [| apply Hsrc; [| exact H]].
  - intros m [Heq [H0 | [st [Hin [Hkey Hbytes]]]]] Hall.
    + split; congruence.
    + rewrite (safe_int_default B _ _ (Hall st Hin Hkey)) in Hbytes.
      injection Hbytes as Hbytes. split; congruence.
  - eapply Forall_impl; [| exact Hacc]. intros m [H1 H2]. split; [congruence |].
    now left.
Qed.

(** The bandwidth fields of a daily record per satellite: those of a record
    read from a bandwidth entry, or [0] throughout. *)
Lemma daily_satellite_bandwidth_defaults node si ms :
  extract_daily_satellite_metrics B node si = Ok ms ->
  Forall (fun m =>
            DailySatellite.vetting_bandwidth_completed m
            = DailySatellite.ingress_usage_bytes m + DailySatellite.egress_usage_bytes m
            /\ ((DailySatellite.ingress_usage_bytes m = 0
                 /\ DailySatellite.ingress_repair_bytes m = 0
                 /\ DailySatellite.egress_usage_bytes m = 0
                 /\ DailySatellite.egress_repair_bytes m = 0
                 /\ DailySatellite.egress_audit_bytes m = 0)
                \/ exists d,
                    In d (or_empty (bandwidth_daily si))
                    /\ bandwidth_defaults B d
                         (DailySatellite.ingress_usage_bytes m)
                         (DailySatellite.ingress_repair_bytes m)
                         (DailySatellite.egress_usage_bytes m)
                         (DailySatellite.egress_repair_bytes m)
                         (DailySatellite.egress_audit_bytes m))) ms.
Proof.
  unfold extract_daily_satellite_metrics. intros H. bind_inv H.
  eapply (storage_loop_Forall B _ node); [| | | exact H].
  - intros m bytes Hm. exact Hm.
  - intros sid md bytes _. cbn. split; [reflexivity | left; repeat split].
  - apply collect_acc in Ha. cbn [app] in Ha. subst a.
    apply Forall_forall. intros m Hm. unfold outputs in Hm.
    apply in_flat_map in Hm. destruct Hm as [d [Hd Hm]].
    destruct (bandwidth_metric B node d) as [[m0 |] | x] eqn:E;
      [| destruct Hm | destruct Hm].
    destruct Hm as [<- | []].
    split; [apply (bandwidth_metric_vetting B node d m0 E) |].
    right. exists d. split; [exact Hd |]. now apply (bandwidth_metric_defaults node).
Qed.

End DailyReplacement.

(** C4 (amended): a numeric value on which [int()] or [float()] raises
    [ValueError] or [TypeError] is read as the default of [safe_int] and
    [safe_float], which is [0] and [0.0] at every call: the byte and count
    fields become [0]; the audit, suspension and online scores become [0.0],
    not [1.0], which is what [get] supplies for a score that is absent. The
    value itself raises nothing: each extraction returns, or raises, what it
    does on the payload that holds the default in place of the value. In
    turn:
    - the two calls;
    - the month counters and the scores of the statuses;
    - the scores collected for the health record;
    - the counters of the daily bandwidth records of the service, and the
      at-rest bytes and the average usage of its daily storage records;
    - the daily records per satellite: the counters are those of a bandwidth
      entry, or [0] in a record made from storage alone, and the bytes
      completed are the sum of the two usage counters; the storage fields
      are [0] when the bytes of every storage entry of the key fail;
    - the default in place of a month counter or of the [vettingProgress]
      of a satellite entry, of a score of an audit entry, of a counter of
      the [ingress] or [egress] object or of the [delete] of a bandwidth
      entry, and of the [atRestTotalBytes] of a storage entry, leaves the
      result of each extraction that reads the entry as it is. A
      [vettingProgress] that fails is thus read as [0.0], and the progress
      is estimated from the month counters.
    [atRestTotal] is divided by [24] before [safe_int] is called: the
    division raises for a string, and [safe_int] gets the quotient, which
    fails to coerce when it is no number. The [diskSpace] and [bandwidth]
    objects of the node-info document hold ints by validation. *)
Theorem coercion_failure_defaults :
  forall B : builtins,
    (forall v : pyval,
        (fails_to_coerce (py_int B v) = true -> safe_int B v 0 = Ok 0)
        /\ (fails_to_coerce (py_float B v) = true -> safe_float B v f_zero = Ok f_zero))
    /\ (forall node ts ni si rs amap,
        extract_satellite_status B node ts ni si = Ok rs ->
        build_audit_map (audits si) [] = Ok amap ->
        Forall2 (fun d r =>
                   zero_on_failure B (PDict d) "currentMonthEgress"
                     (SatelliteStatus.current_month_egress r)
                   /\ zero_on_failure B (PDict d) "currentMonthIngress"
                        (SatelliteStatus.current_month_ingress r)
                   /\ forall audit,
                       assoc_find amap (SatelliteStatus.satellite_id r) = Some audit ->
                       (fails_to_coerce (py_float B (dict_get audit "auditScore" (PFloat f_one))) = true ->
                        SatelliteStatus.audit_score r = f_zero)
                       /\ (fails_to_coerce (py_float B (dict_get audit "suspensionScore" (PFloat f_one))) = true ->
                           SatelliteStatus.suspension_score r = f_zero)
                       /\ (fails_to_coerce (py_float B (dict_get audit "onlineScore" (PFloat f_one))) = true ->
                           SatelliteStatus.online_score r = f_zero))
          (filter known_entry (or_empty (satellites ni))) rs)
    /\ (forall key si xs,
        scores_of B key (audits si) = Ok xs ->
        Forall2 (fun audit x =>
                   fails_to_coerce (py_float B (dict_get audit key (PFloat f_one))) = true ->
                   x = f_zero)
          (audits si) xs)
    /\ (forall node si rs,
        extract_daily_bandwidth_metrics B node si = Ok rs ->
        Forall2 (fun d r =>
                   bandwidth_defaults B d
                     (DailyBandwidthMetrics.ingress_usage_bytes r)
                     (DailyBandwidthMetrics.ingress_repair_bytes r)
                     (DailyBandwidthMetrics.egress_usage_bytes r)
                     (DailyBandwidthMetrics.egress_repair_bytes r)
                     (DailyBandwidthMetrics.egress_audit_bytes r)
                   /\ zero_on_failure B (PDict d) "delete"
                        (DailyBandwidthMetrics.delete_bytes r))
          (filter (dated B) (or_empty (bandwidth_daily si))) rs)
    /\ (forall node si rs,
        extract_daily_storage_metrics B node si = Ok rs ->
        Forall2 (fun d r =>
                   zero_on_failure B (PDict d) "atRestTotalBytes"
                     (DailyStorageMetrics.at_rest_total_bytes r)
                   /\ forall arg,
                       average_usage_arg d = Ok arg ->
                       fails_to_coerce (py_int B arg) = true ->
                       DailyStorageMetrics.average_usage_bytes r = 0)
          (filter (dated B) (or_empty (storage_daily si))) rs)
    /\ (forall node si ms,
        extract_daily_satellite_metrics B node si = Ok ms ->
        Forall (fun m =>
                  DailySatellite.vetting_bandwidth_completed m
                  = DailySatellite.ingress_usage_bytes m
                    + DailySatellite.egress_usage_bytes m
                  /\ ((DailySatellite.ingress_usage_bytes m = 0
                       /\ DailySatellite.ingress_repair_bytes m = 0
                       /\ DailySatellite.egress_usage_bytes m = 0
                       /\ DailySatellite.egress_repair_bytes m = 0
                       /\ DailySatellite.egress_audit_bytes m = 0)
                      \/ exists d,
                          In d (or_empty (bandwidth_daily si))
                          /\ bandwidth_defaults B d
                               (DailySatellite.ingress_usage_bytes m)
                               (DailySatellite.ingress_repair_bytes m)
                               (DailySatellite.egress_usage_bytes m)
                               (DailySatellite.egress_repair_bytes m)
                               (DailySatellite.egress_audit_bytes m))
                  /\ ((forall st,
                          In st (or_empty (storage_daily si)) ->
                          storage_key B st
                          = Ok (Some (DailySatellite.satellite_id m,
                                      DailySatellite.date m)) ->
                          fails_to_coerce
                            (py_int B (dict_get st "atRestTotalBytes" (PInt 0))) = true) ->
                      DailySatellite.storage_used_bytes m = 0
                      /\ DailySatellite.storage_at_rest_bytes m = 0)) ms)
    /\ (forall node ts ni si before d after key,
        In key ["currentMonthEgress"; "currentMonthIngress"] ->
        fails_to_coerce (py_int B (dict_get d key (PInt 0))) = true ->
        extract_satellite_status B node ts
          (with_satellites ni (before ++ dict_put d key (PInt 0) :: after)) si
        = extract_satellite_status B node ts
            (with_satellites ni (before ++ d :: after)) si)
    /\ (forall node ts ni si before d after,
        fails_to_coerce (py_float B (dict_get d "vettingProgress" (PFloat f_zero))) = true ->
        extract_satellite_status B node ts
          (with_satellites ni (before ++ dict_put d "vettingProgress" (PFloat f_zero) :: after))
          si
        = extract_satellite_status B node ts
            (with_satellites ni (before ++ d :: after)) si)
    /\ (forall node ts now ni si before a after key,
        In key ["auditScore"; "suspensionScore"; "onlineScore"] ->
        fails_to_coerce (py_float B (dict_get a key (PFloat f_one))) = true ->
        extract_satellite_status B node ts ni
          (with_audits si (before ++ dict_put a key (PFloat f_zero) :: after))
        = extract_satellite_status B node ts ni (with_audits si (before ++ a :: after))
        /\ extract_health_metrics B node ts now ni
             (with_audits si (before ++ dict_put a key (PFloat f_zero) :: after))
           = extract_health_metrics B node ts now ni
               (with_audits si (before ++ a :: after)))
    /\ (forall node si before d after outer g key,
        In outer ["ingress"; "egress"] ->
        dict_get d outer (PDict []) = PDict g ->
        fails_to_coerce (py_int B (dict_get g key (PInt 0))) = true ->
        extract_daily_bandwidth_metrics B node
          (with_bandwidth_daily si
             (before ++ dict_put d outer (PDict (dict_put g key (PInt 0))) :: after))
        = extract_daily_bandwidth_metrics B node
            (with_bandwidth_daily si (before ++ d :: after))
        /\ extract_daily_satellite_metrics B node
             (with_bandwidth_daily si
                (before ++ dict_put d outer (PDict (dict_put g key (PInt 0))) :: after))
           = extract_daily_satellite_metrics B node
               (with_bandwidth_daily si (before ++ d :: after)))
    /\ (forall node si before d after,
        fails_to_coerce (py_int B (dict_get d "delete" (PInt 0))) = true ->
        extract_daily_bandwidth_metrics B node
          (with_bandwidth_daily si (before ++ dict_put d "delete" (PInt 0) :: after))
        = extract_daily_bandwidth_metrics B node
            (with_bandwidth_daily si (before ++ d :: after)))
    /\ (forall node si before d after,
        fails_to_coerce (py_int B (dict_get d "atRestTotalBytes" (PInt 0))) = true ->
        extract_daily_storage_metrics B node
          (with_storage_daily si
             (before ++ dict_put d "atRestTotalBytes" (PInt 0) :: after))
        = extract_daily_storage_metrics B node
            (with_storage_daily si (before ++ d :: after))
        /\ extract_daily_satellite_metrics B node
             (with_storage_daily si
                (before ++ dict_put d "atRestTotalBytes" (PInt 0) :: after))
           = extract_daily_satellite_metrics B node
               (with_storage_daily si (before ++ d :: after))).
Proof.
  intros B.
  assert (Hcollect : forall (A : Type) (body : dict -> result (option A)) l,
             match l with
             | e :: es => collect body (e :: es) []
             | [] => Ok []
             end = collect body l []) by (intros A body l; now destruct l).
  repeat match goal with |- _ /\ _ => split end.
  - intros v. split; [apply safe_int_default | apply safe_float_default].
  - intros node ts ni si rs amap H Hmap.
    apply extract_satellite_status_inv in H. destruct H as [amap' [Hmap' H]].
    rewrite Hmap in Hmap'. injection Hmap' as <-.
    eapply Forall2_impl; [| exact H].
    intros d r [r0 [Hbody Hupd]].
    pose proof (update_status_fields _ _ _ _ Hupd) as [Hid [_ [_ [_ [He Hi]]]]].
    apply satellite_status_of_Some in Hbody.
    destruct Hbody as [_ [_ [_ [_ [_ [Heg Hin]]]]]].
    rewrite He, Hi. split; [| split].
    + now apply safe_int_zero.
    + now apply safe_int_zero.
    + intros audit Hfind. rewrite Hid in Hfind.
      destruct (update_status_scores _ _ _ _ _ Hupd Hfind) as [Ha [Hs Ho]].
      split; [| split]; intros Hf.
      * rewrite (safe_float_default _ _ _ Hf) in Ha. now injection Ha.
      * rewrite (safe_float_default _ _ _ Hf) in Hs. now injection Hs.
      * rewrite (safe_float_default _ _ _ Hf) in Ho. now injection Ho.
  - intros key si xs H. apply scores_of_Forall2 in H.
    eapply Forall2_impl; [| exact H].
    intros audit x Hx Hf. cbv beta in Hx.
    rewrite (safe_float_default _ _ _ Hf) in Hx. now injection Hx.
  - intros node si rs H. apply extract_daily_bandwidth_inv in H.
    eapply Forall2_impl; [| exact H].
    intros d r Hr. now apply (daily_bandwidth_of_defaults B node).
  - intros node si rs H. apply extract_daily_storage_inv in H.
    eapply Forall2_impl; [| exact H].
    intros d r Hr. apply daily_storage_of_Some in Hr.
    destruct Hr as [_ [_ [_ [Hbytes Haverage]]]].
    split; [now apply safe_int_zero |].
    intros arg Harg Hf. rewrite Harg in Haverage. cbn [bind] in Haverage.
    rewrite (safe_int_default _ _ _ Hf) in Haverage. now injection Haverage.
  - intros node si ms H.
    pose proof (daily_satellite_bandwidth_defaults B node si ms H) as H1.
    pose proof (daily_satellite_storage_defaults B node si ms H) as H2.
    rewrite Forall_forall in *. intros m Hm.
    destruct (H1 m Hm) as [Hsum Hbw]. split; [exact Hsum |]. split; [exact Hbw |].
    exact (H2 m Hm).
  - intros node ts ni si before d after key Hkey Hf.
    unfold extract_satellite_status, with_satellites. cbn [satellites].
    rewrite !Hcollect.
    now rewrite (collect_replace _ d (dict_put d key (PInt 0)) before after
                   (satellite_status_of_put_int B node ts d key Hkey Hf)).
  - intros node ts ni si before d after Hf.
    unfold extract_satellite_status, with_satellites. cbn [satellites].
    rewrite !Hcollect.
    now rewrite (collect_replace _ d (dict_put d "vettingProgress" (PFloat f_zero))
                   before after (satellite_status_of_put_float B node ts d Hf)).
  - intros node ts now ni si before a after key Hkey Hf.
    now apply audits_replace.
  - intros node si before d after outer g key Houter Hg Hf.
    destruct (bandwidth_entry_put_nested B node d outer g key Houter Hg Hf) as [H1 H2].
    unfold extract_daily_bandwidth_metrics, extract_daily_satellite_metrics,
      with_bandwidth_daily.
    cbn [bandwidth_daily storage_daily or_empty].
    now rewrite (collect_replace _ d _ before after H1),
                (collect_replace _ d _ before after H2).
  - intros node si before d after Hf.
    destruct (bandwidth_entry_put_delete B node d Hf) as [H1 _].
    unfold extract_daily_bandwidth_metrics, with_bandwidth_daily.
    cbn [bandwidth_daily or_empty].
    now rewrite (collect_replace _ d _ before after H1).
  - intros node si before d after Hf.
    destruct (storage_entry_put B node d Hf) as [H1 _].
    unfold extract_daily_storage_metrics, extract_daily_satellite_metrics,
      with_storage_daily.
    cbn [bandwidth_daily storage_daily or_empty].
    rewrite (collect_replace _ d _ before after H1). split; [reflexivity |].
    destruct (collect (bandwidth_metric B node) (or_empty (bandwidth_daily si)) [])
      as [ms | x]; cbn [bind]; [| reflexivity].
    now apply storage_loop_replace.
Qed.

Lemma coercion_failure_defaults_witness :
  (safe_int Reference.runtime (PStr "n/a") 0 = Ok 0
   /\ safe_float Reference.runtime PNone f_zero = Ok f_zero)
  /\ (exists r,
        extract_satellite_status Reference.runtime "node1" sample_now
          (node_with [garbled_counter_entry]) (satellite_info_with [garbled_audit])
        = Ok [r]
        /\ SatelliteStatus.current_month_egress r = 0
        /\ SatelliteStatus.audit_score r = f_zero
        /\ SatelliteStatus.suspension_score r = f_zero)
  /\ (exists x,
        scores_of Reference.runtime "suspensionScore" [garbled_audit] = Ok [x]
        /\ x = f_zero)
  /\ (exists r,
        extract_daily_bandwidth_metrics Reference.runtime "node1" garbled_daily_info
        = Ok [r]
        /\ DailyBandwidthMetrics.egress_usage_bytes r = 0
        /\ DailyBandwidthMetrics.delete_bytes r = 0)
  /\ (exists r,
        extract_daily_storage_metrics Reference.runtime "node1" garbled_daily_info
        = Ok [r]
        /\ DailyStorageMetrics.at_rest_total_bytes r = 0
        /\ DailyStorageMetrics.average_usage_bytes r = 0)
  /\ (exists m,
        extract_daily_satellite_metrics Reference.runtime "node1" garbled_daily_info
        = Ok [m]
        /\ DailySatellite.egress_usage_bytes m = 0
        /\ DailySatellite.storage_used_bytes m = 0
        /\ DailySatellite.storage_at_rest_bytes m = 0)
  /\ extract_satellite_status Reference.runtime "node1" sample_now
       (with_satellites (node_with [])
          [dict_put garbled_counter_entry "currentMonthEgress" (PInt 0)])
       (satellite_info_with [garbled_audit])
     = extract_satellite_status Reference.runtime "node1" sample_now
         (with_satellites (node_with []) [garbled_counter_entry])
         (satellite_info_with [garbled_audit])
  /\ extract_satellite_status Reference.runtime "node1" sample_now
       (with_satellites (node_with [])
          [dict_put garbled_progress_entry "vettingProgress" (PFloat f_zero)])
       (satellite_info_with [])
     = extract_satellite_status Reference.runtime "node1" sample_now
         (with_satellites (node_with []) [garbled_progress_entry])
         (satellite_info_with [])
  /\ (extract_satellite_status Reference.runtime "node1" sample_now
        (node_with [vetted_entry])
        (with_audits (satellite_info_with [])
           [dict_put garbled_audit "auditScore" (PFloat f_zero)])
      = extract_satellite_status Reference.runtime "node1" sample_now
          (node_with [vetted_entry])
          (with_audits (satellite_info_with []) [garbled_audit])
      /\ extract_health_metrics Reference.runtime "node1" sample_now sample_now
           (node_with [vetted_entry])
           (with_audits (satellite_info_with [])
              [dict_put garbled_audit "auditScore" (PFloat f_zero)])
         = extract_health_metrics Reference.runtime "node1" sample_now sample_now
             (node_with [vetted_entry])
             (with_audits (satellite_info_with []) [garbled_audit]))
  /\ (extract_daily_bandwidth_metrics Reference.runtime "node1"
        (with_bandwidth_daily garbled_daily_info
           [dict_put garbled_bandwidth_entry "egress"
              (PDict (dict_put [("usage", PStr "n/a")] "usage" (PInt 0)))])
      = extract_daily_bandwidth_metrics Reference.runtime "node1"
          (with_bandwidth_daily garbled_daily_info [garbled_bandwidth_entry])
      /\ extract_daily_satellite_metrics Reference.runtime "node1"
           (with_bandwidth_daily garbled_daily_info
              [dict_put garbled_bandwidth_entry "egress"
                 (PDict (dict_put [("usage", PStr "n/a")] "usage" (PInt 0)))])
         = extract_daily_satellite_metrics Reference.runtime "node1"
             (with_bandwidth_daily garbled_daily_info [garbled_bandwidth_entry]))
  /\ extract_daily_bandwidth_metrics Reference.runtime "node1"
       (with_bandwidth_daily garbled_daily_info
          [dict_put garbled_bandwidth_entry "delete" (PInt 0)])
     = extract_daily_bandwidth_metrics Reference.runtime "node1"
         (with_bandwidth_daily garbled_daily_info [garbled_bandwidth_entry])
  /\ (extract_daily_storage_metrics Reference.runtime "node1"
        (with_storage_daily garbled_daily_info
           [dict_put garbled_storage_entry "atRestTotalBytes" (PInt 0)])
      = extract_daily_storage_metrics Reference.runtime "node1"
          (with_storage_daily garbled_daily_info [garbled_storage_entry])
      /\ extract_daily_satellite_metrics Reference.runtime "node1"
           (with_storage_daily garbled_daily_info
              [dict_put garbled_storage_entry "atRestTotalBytes" (PInt 0)])
         = extract_daily_satellite_metrics Reference.runtime "node1"
             (with_storage_daily garbled_daily_info [garbled_storage_entry])).
Proof.
  pose proof (coercion_failure_defaults Reference.runtime)
    as [Hcall [Hstatus [Hhealth [Hbw [Hst [Hsat [Rint [Rprogress [Raudit
        [Rnested [Rdelete Rstorage]]]]]]]]]]].
  repeat match goal with |- _ /\ _ => split end.
  - apply (proj1 (Hcall (PStr "n/a"))). reflexivity.
  - apply (proj2 (Hcall PNone)). reflexivity.
  - eexists. split; [vm_compute; reflexivity |].
    pose proof (Hstatus "node1" sample_now (node_with [garbled_counter_entry])
                  (satellite_info_with [garbled_audit]) _ [(saltlake, garbled_audit)]
                  eq_refl eq_refl) as H.
    apply Forall2_cons_iff in H. destruct H as [[He [_ Hscores]] _].
    split; [apply (He garbled_counter_entry); reflexivity |].
    destruct (Hscores garbled_audit eq_refl) as [Ha [Hs _]].
    split; [apply Ha | apply Hs]; reflexivity.
  - eexists. split; [vm_compute; reflexivity |].
    pose proof (Hhealth "suspensionScore" (satellite_info_with [garbled_audit]) _ eq_refl)
      as H.
    apply Forall2_cons_iff in H. destruct H as [H _]. apply H. reflexivity.
  - eexists. split; [vm_compute; reflexivity |].
    pose proof (Hbw "node1" garbled_daily_info _ eq_refl) as H.
    apply Forall2_cons_iff in H. destruct H as [[[_ [_ [Heu _]]] Hdelete] _].
    split; [apply (Heu [("usage", PStr "n/a")]) | apply (Hdelete garbled_bandwidth_entry)];
      reflexivity.
  - eexists. split; [vm_compute; reflexivity |].
    pose proof (Hst "node1" garbled_daily_info _ eq_refl) as H.
    apply Forall2_cons_iff in H. destruct H as [[Hbytes Haverage] _].
    split; [apply (Hbytes garbled_storage_entry); reflexivity |].
    apply (Haverage (PFloat S754_nan)); reflexivity.
  - eexists. split; [vm_compute; reflexivity |].
    pose proof (Hsat "node1" garbled_daily_info _ eq_refl) as H.
    apply Forall_cons_iff in H. destruct H as [[_ [Hcounters Hstorage]] _].
    split.
    + destruct Hcounters as [[_ [_ [H0 _]]] | [d [[<- | []] [_ [_ [Heu _]]]]]];
        [exact H0 |].
      apply (Heu [("usage", PStr "n/a")]); reflexivity.
    + apply Hstorage. intros st [<- | []] _. reflexivity.
  - apply (Rint "node1" sample_now (node_with []) (satellite_info_with [garbled_audit])
             [] garbled_counter_entry [] "currentMonthEgress");
      [left; reflexivity | reflexivity].
  - apply (Rprogress "node1" sample_now (node_with []) (satellite_info_with [])
             [] garbled_progress_entry []).
    reflexivity.
  - apply (Raudit "node1" sample_now sample_now (node_with [vetted_entry])
             (satellite_info_with []) [] garbled_audit [] "auditScore");
      [left; reflexivity | reflexivity].
  - apply (Raudit "node1" sample_now sample_now (node_with [vetted_entry])
             (satellite_info_with []) [] garbled_audit [] "auditScore");
      [left; reflexivity | reflexivity].
  - apply (Rnested "node1" garbled_daily_info [] garbled_bandwidth_entry []
             "egress" [("usage", PStr "n/a")] "usage");
      [right; left; reflexivity | reflexivity | reflexivity].
  - apply (Rnested "node1" garbled_daily_info [] garbled_bandwidth_entry []
             "egress" [("usage", PStr "n/a")] "usage");
      [right; left; reflexivity | reflexivity | reflexivity].
  - apply (Rdelete "node1" garbled_daily_info [] garbled_bandwidth_entry []).
    reflexivity.
  - apply (Rstorage "node1" garbled_daily_info [] garbled_storage_entry []).
    reflexivity.
  - apply (Rstorage "node1" garbled_daily_info [] garbled_storage_entry []).
    reflexivity.
Defined.
